(** * DDV-signyPDFee: the document signing server ([server.js])

    A shallow embedding of the composition engine, the blob location codec
    and the request handlers of [server.js], and the properties of its
    specification settled against it.

    Conventions of the embedding.
    - A JavaScript string is its sequence of UTF-16 code units ([Str]).
    - Values that arrive in a JSON request body or sit in the document store
      are [JsVal]; numbers are modelled by integers.
    - Layout coordinates are integers (the cursor arithmetic of the code is
      repeated subtraction of the constant 25, kept as written).
    - Code of other packages (pdf-lib, the storage client, [fs], the clock,
      [node-fetch]) is a field of the record [World]: every statement is
      proved for all worlds.
    - One request is run at a time: a handler is a computation in the monad
      [M], which threads the module-level state of [server.js] and collects
      the effects the handler performs. *)

From Stdlib Require Import List NArith ZArith Bool String Ascii Lia.
From Stdlib Require Import DecimalString.
Import ListNotations.

Set Implicit Arguments.
Set Warnings "-register-all".

(* ================================================================== *)
(** ** JavaScript strings *)
(* ================================================================== *)

(** A string is a list of UTF-16 code units. *)
Definition Str := list N.

(** An ASCII literal as a JavaScript string. *)
Definition js (s : string) : Str := map N_of_ascii (list_ascii_of_string s).

Fixpoint str_eqb (a b : Str) : bool :=
  match a, b with
  | [], [] => true
  | x :: a', y :: b' => N.eqb x y && str_eqb a' b'
  | _, _ => false
  end.

(** [s.startsWith(p)], returning what follows the prefix. *)
Fixpoint stripPrefix (p s : Str) : option Str :=
  match p, s with
  | [], _ => Some s
  | x :: p', y :: s' => if N.eqb x y then stripPrefix p' s' else None
  | _ :: _, [] => None
  end.

Definition startsWith (p s : Str) : bool :=
  match stripPrefix p s with Some _ => true | None => false end.

(** [s.includes(p)]. *)
Fixpoint includes (p s : Str) : bool :=
  startsWith p s ||
  match s with
  | [] => false
  | _ :: s' => includes p s'
  end.

(** The longest prefix whose code units satisfy [f], and the rest. *)
Fixpoint span (f : N -> bool) (s : Str) : Str * Str :=
  match s with
  | [] => ([], [])
  | c :: s' =>
      if f c then let (a, b) := span f s' in (c :: a, b) else ([], s)
  end.

(** [s.split(c)] for a one-character separator. *)
Fixpoint split (c : N) (s : Str) : list Str :=
  match s with
  | [] => [[]]
  | x :: s' =>
      if N.eqb x c then [] :: split c s'
      else match split c s' with
           | [] => [[x]]
           | h :: t => (x :: h) :: t
           end
  end.

Definition slash : N := 47.
Definition comma : N := 44.

(** The line terminators of ECMAScript, which [.] does not match:
    LF, CR, U+2028 and U+2029. *)
Definition isLineTerminator (c : N) : bool :=
  N.eqb c 10 || N.eqb c 13 || N.eqb c 8232 || N.eqb c 8233.

Definition notSlash (c : N) : bool := negb (N.eqb c slash).
Definition dotChar (c : N) : bool := negb (isLineTerminator c).

(** The tail [([^\/]+)\/(.+)$] shared by the two regular expressions of
    [downloadPdfFromGcs], run on what follows the literal prefix; it returns
    the two capture groups. The class [[^\/]+] is greedy and cannot cross a
    slash, so the first group is the run before the first slash; [(.+)$] has
    to take all the rest. *)
Definition matchBucketPath (rest : Str) : option (Str * Str) :=
  match span notSlash rest with
  | ((_ :: _) as b, c :: ((_ :: _) as p)) =>
      if N.eqb c slash && forallb dotChar p then Some (b, p) else None
  | _ => None
  end.

Definition gsPrefix : Str := js "gs://".
Definition httpsPrefix : Str := js "https://storage.googleapis.com/".

(** [s.match(/^gs:\/\/([^\/]+)\/(.+)$/)] *)
Definition matchGs (s : Str) : option (Str * Str) :=
  match stripPrefix gsPrefix s with
  | Some rest => matchBucketPath rest
  | None => None
  end.

(** [s.match(/^https:\/\/storage\.googleapis\.com\/([^\/]+)\/(.+)$/)] *)
Definition matchHttps (s : Str) : option (Str * Str) :=
  match stripPrefix httpsPrefix s with
  | Some rest => matchBucketPath rest
  | None => None
  end.

(** [Buffer.from(s, 'base64')]: the value of a character of the base64
    alphabet (the URL-safe [-] and [_] are taken too). *)
Definition base64Value (c : N) : option N :=
  (if (65 <=? c) && (c <=? 90) then Some (c - 65)
   else if (97 <=? c) && (c <=? 122) then Some (c - 71)
   else if (48 <=? c) && (c <=? 57) then Some (c + 4)
   else if (c =? 43) || (c =? 45) then Some 62
   else if (c =? 47) || (c =? 95) then Some 63
   else None)%N.

(** The six-bit values of a text: a character outside the alphabet is
    skipped, the first [=] ends the text. *)
Fixpoint base64Sextets (s : Str) : list N :=
  match s with
  | [] => []
  | c :: s' =>
      if N.eqb c 61 then []
      else match base64Value c with
           | Some v => v :: base64Sextets s'
           | None => base64Sextets s'
           end
  end.

(** Four six-bit values give three bytes; a rest of three gives two
    bytes, a rest of two gives one. *)
Fixpoint sextetBytes (l : list N) : list N :=
  (match l with
   | a :: b :: c :: d :: rest =>
       (a * 4 + b / 16) :: ((b mod 16) * 16 + c / 4) :: ((c mod 4) * 64 + d)
         :: sextetBytes rest
   | [a; b; c] => [a * 4 + b / 16; (b mod 16) * 16 + c / 4]
   | [a; b] => [a * 4 + b / 16]
   | _ => []
   end)%N.

Definition bufferFromBase64 (s : Str) : list N :=
  sextetBytes (base64Sextets s).

Fixpoint bytes_eqb (a b : list N) : bool :=
  match a, b with
  | [], [] => true
  | x :: a', y :: b' => N.eqb x y && bytes_eqb a' b'
  | _, _ => false
  end.

(** What the anchored regular expression [^prefix([^\/]+)\/(.+)$] means,
    stated without an algorithm: the subject splits into the prefix, a
    non-empty slash-free bucket, a slash, and a non-empty path free of line
    terminators. *)
Definition regexMatches (prefix s b p : Str) : Prop :=
  s = prefix ++ b ++ slash :: p /\
  b <> [] /\ Forall (fun c => c <> slash) b /\
  p <> [] /\ Forall (fun c => isLineTerminator c = false) p.

(* ================================================================== *)
(** ** JavaScript values *)
(* ================================================================== *)

Inductive JsVal : Type :=
| VUndefined
| VNull
| VBool (b : bool)
| VNum (n : Z)
| VStr (s : Str)
| VArr (xs : list JsVal)
| VObj (fields : list (Str * JsVal)).

(** [!!v] *)
Definition truthy (v : JsVal) : bool :=
  match v with
  | VUndefined | VNull => false
  | VBool b => b
  | VNum n => negb (Z.eqb n 0)
  | VStr s => match s with [] => false | _ => true end
  | VArr _ | VObj _ => true
  end.

(** Own property lookup in an object literal. *)
Fixpoint lookup (k : Str) (fs : list (Str * JsVal)) : option JsVal :=
  match fs with
  | [] => None
  | (k', v) :: fs' => if str_eqb k k' then Some v else lookup k fs'
  end.

(** [v?.k] for a key [k] that no prototype defines ([text], [font],
    [pdfUrl], [vorname], ...): undefined unless [v] is an object that has
    the property. *)
Definition optGet (v : JsVal) (k : Str) : JsVal :=
  match v with
  | VObj fs => match lookup k fs with Some x => x | None => VUndefined end
  | _ => VUndefined
  end.

(** [v === 'literal'] *)
Definition strictEqStr (v : JsVal) (s : Str) : bool :=
  match v with
  | VStr t => str_eqb t s
  | _ => false
  end.

Definition decimal (n : Z) : Str := js (NilZero.string_of_int (Z.to_int n)).

Fixpoint joinWith (sep : Str) (xs : list Str) : Str :=
  match xs with
  | [] => []
  | [x] => x
  | x :: xs' => x ++ sep ++ joinWith sep xs'
  end.

(** [String(v)], the conversion a template literal and a property key
    apply. The text is the one JavaScript gives for the values of
    [printable] below; outside of them it is not: [String] of an object
    with an own [toString] property (which in a parsed body is never a
    function) throws a [TypeError], and a number beyond the safe integers
    prints rounded (or, from 10^21 on, with an exponent). *)
Fixpoint toStr (v : JsVal) : Str :=
  match v with
  | VUndefined => js "undefined"
  | VNull => js "null"
  | VBool true => js "true"
  | VBool false => js "false"
  | VNum n => decimal n
  | VStr s => s
  | VArr xs =>
      joinWith (js ",")
        (map (fun x => match x with
                       | VUndefined | VNull => []
                       | _ => toStr x
                       end) xs)
  | VObj _ => js "[object Object]"
  end.

(** The values [String] converts without throwing and prints as [toStr]
    does: no object with an own [toString], no number beyond the safe
    integers ([Number.MAX_SAFE_INTEGER] is 2^53 - 1), also inside
    arrays. *)
Fixpoint printable (v : JsVal) : bool :=
  match v with
  | VUndefined | VNull | VBool _ | VStr _ => true
  | VNum n => Z.ltb (Z.abs n) (2 ^ 53)
  | VArr xs => forallb printable xs
  | VObj fs =>
      match lookup (js "toString") fs with Some _ => false | None => true end
  end.

(* ================================================================== *)
(** ** Errors, fonts, drawing operations, effects *)
(* ================================================================== *)

Definition Bytes := list N.

(** A thrown [Error]: the two properties the code inspects. [new Error(m)]
    has no [code]. *)
Record JsError : Type := mkError { code : JsVal; message : Str }.

Definition newError (m : Str) : JsError := mkError VUndefined m.

(** A [PDFFont]. [server.js] only ever embeds the standard Helvetica (the
    embedding of the TrueType files is commented out); [Embedded path] is
    the font a [pdfDoc.embedFont] of the file at [path] would give. *)
Inductive Font : Type :=
| Helvetica
| Embedded (path : Str).

(** What a page receives: [page.drawText(text, {x, y, size, font, color})]
    and [page.drawImage(image, {x, y, width, height})]; an embedded image is
    named by its bytes. *)
Inductive DrawOp : Type :=
| DrawText (text : JsVal) (x y size : Z) (font : Font) (color : Z * Z * Z)
| DrawImage (image : Bytes) (x y width height : Z).

(** A drawing operation with the index of its page in the document. *)
Definition PageOp : Type := (nat * DrawOp)%type.

Inductive LogLevel : Type := LLog | LWarn | LError.

Record FetchResponse : Type :=
  mkFetchResponse { ok : bool; status : Z; statusText : Str }.

(** The effects a handler performs outside the process. *)
Inductive Event : Type :=
| EvConsole (level : LogLevel) (text : Str) (err : option JsError)
| EvReadFile (path : Str)
| EvWriteFile (path : Str) (content : list (Str * JsVal))
| EvGcsDownload (bucket path : Str)
| EvGcsSave (bucket path : Str) (content : Bytes)
| EvGcsMakePublic (bucket path : Str)
| EvFetch (url : Str) (payload : JsVal).

(* ================================================================== *)
(** ** The layout configuration ([pdfConfig.mjs]) *)
(* ================================================================== *)

(** The four text fields, in the order of [fieldOrder]. *)
Inductive FieldName : Type := FullName | Email | Location | Date.

(** Modelled from the spec: [pdfConfig.mjs] is not part of the sources; a
    block of the layout configuration has the members [addSignatureToPage]
    and the handlers read from it ([page], [x], [y], [width], [height],
    [textBlockY], [label.text]; the spec's LayoutConfig). *)
Record SignatureConfig : Type := mkSignatureConfig {
  page : nat;
  sigX : Z;
  sigY : Z;
  sigWidth : Z;
  sigHeight : Z;
  textBlockY : Z;
  labelText : Str
}.

Module pdfConfig.

(** Modelled from the spec: the default export of [pdfConfig.mjs], with the
    two blocks and [labels[fieldName].text]. *)
Record t : Type := mk {
  contractSignature : SignatureConfig;
  withdrawalSignature : SignatureConfig;
  labels : FieldName -> Str
}.

End pdfConfig.

(* ================================================================== *)
(** ** The world outside [server.js] *)
(* ================================================================== *)

Record World : Type := mkWorld {
  (* process.env and module constants *)
  BUCKET_NAME : Str;
  MAKE_PUBLIC : bool;
  API_KEY : option Str;
  dirname : Str;
  layout : pdfConfig.t;
  (* fs.promises *)
  fsReadFile : Str -> JsError + Bytes;
  fsWriteFile : Str -> option JsError;
  (* pdf-lib: PDFDocument.load gives the number of pages *)
  pdfLoad : Bytes -> JsError + nat;
  embedStandardFont : option JsError;
  drawTextError : Font -> JsVal -> option JsError;
  embedPngError : Bytes -> option JsError;
  pdfSave : Bytes -> list PageOp -> JsError + Bytes;
  (* Buffer.from(s, 'base64'), which never throws on a string *)
  base64Decode : Str -> Bytes;
  (* dataUriToBuffer *)
  dataUriToBuffer : JsVal -> JsError + Bytes;
  (* @google-cloud/storage *)
  gcsDownload : Str -> Str -> JsError + Bytes;
  gcsSave : Str -> Str -> Bytes -> option JsError;
  gcsMakePublic : Str -> Str -> option JsError;
  (* new Date().toLocaleDateString('de-DE'), new Date().toISOString() *)
  today : Str;
  nowIso : Str;
  (* uuidv4() *)
  uuidv4 : Str;
  (* new URL(u).searchParams.get(k), for vorname, card_id and email *)
  urlSearchParams : JsVal -> JsError + (JsVal * JsVal * JsVal);
  (* import('node-fetch') and fetch(url, {method: 'POST', body}) *)
  fetchImport : option JsError;
  fetchPost : Str -> JsVal -> JsError + FetchResponse
}.

(* ================================================================== *)
(** ** State and the monad of handlers *)
(* ================================================================== *)

(** The module-level [pdfStore], the parsed content of [pdfStore.json]
    and the loaded [pdfDoc] (its source bytes are passed along, the drawing
    operations on its pages accumulate here). *)
Record St : Type := mkSt {
  pdfStore : list (Str * JsVal);
  storeFile : option (list (Str * JsVal));
  doc : list PageOp
}.

Inductive Res (A : Type) : Type :=
| Ok (a : A)
| Throw (e : JsError).
Arguments Ok {A} a.
Arguments Throw {A} e.

(** What running a computation gives: it returns or throws, leaves a
    state, and has performed effects, in order. *)
Record Out (A : Type) : Type := mkOut {
  result : Res A;
  final : St;
  effects : list Event
}.

Definition M (A : Type) : Type := St -> Out A.

Definition ret {A} (a : A) : M A := fun s => mkOut (Ok a) s [].

Definition bind {A B} (m : M A) (k : A -> M B) : M B :=
  fun s =>
    let o := m s in
    match result o with
    | Ok a =>
        let o' := k a (final o) in
        mkOut (result o') (final o') (effects o ++ effects o')
    | Throw e => mkOut (Throw e) (final o) (effects o)
    end.

Definition throw {A} (e : JsError) : M A := fun s => mkOut (Throw e) s [].

(** [try { m } catch (error) { h error }] *)
Definition tryCatch {A} (m : M A) (h : JsError -> M A) : M A :=
  fun s =>
    let o := m s in
    match result o with
    | Ok a => o
    | Throw e =>
        let o' := h e (final o) in
        mkOut (result o') (final o') (effects o ++ effects o')
    end.

Declare Scope js_scope.
Delimit Scope js_scope with js.
Notation "x <- c ;; k" := (bind c (fun x => k))
  (at level 61, c at next level, right associativity) : js_scope.
Notation "c ;;; k" := (bind c (fun _ => k))
  (at level 61, right associativity) : js_scope.
Local Open Scope js_scope.

Definition emit (e : Event) : M unit := fun s => mkOut (Ok tt) s [e].

Definition getStore : M (list (Str * JsVal)) :=
  fun s => mkOut (Ok (pdfStore s)) s [].

Definition setStore (m : list (Str * JsVal)) : M unit :=
  fun s => mkOut (Ok tt) (mkSt m (storeFile s) (doc s)) [].

Definition setStoreFile (c : list (Str * JsVal)) : M unit :=
  fun s => mkOut (Ok tt) (mkSt (pdfStore s) (Some c) (doc s)) [].

Definition getDoc : M (list PageOp) := fun s => mkOut (Ok (doc s)) s [].

Definition newDoc : M unit :=
  fun s => mkOut (Ok tt) (mkSt (pdfStore s) (storeFile s) []) [].

Definition addOp (o : PageOp) : M unit :=
  fun s => mkOut (Ok tt) (mkSt (pdfStore s) (storeFile s) (doc s ++ [o])) [].

(** Lifting a call that returns or throws. *)
Definition liftSum {A} (r : JsError + A) : M A :=
  match r with inl e => throw e | inr a => ret a end.

Definition liftErr (r : option JsError) : M unit :=
  match r with Some e => throw e | None => ret tt end.

Definition console (l : LogLevel) (text : Str) (err : option JsError) : M unit :=
  emit (EvConsole l text err).

(* ================================================================== *)
(** ** The program *)
(* ================================================================== *)

(** Code units of the letters outside ASCII in the messages. *)
Definition uuml : N := 252.
Definition ouml : N := 246.
Definition dquote : N := 34.

(** A [TypeError] raised by the engine itself; the text is V8's. *)
Definition typeError (m : Str) : JsError := newError m.

Definition fieldOrder : list FieldName := [FullName; Email; Location; Date].

(** The [fields] object handed to [addSignatureToPage]: the four text
    fields and the optional [keyboardSignature] ([VUndefined] when the
    property is absent). *)
Record Fields : Type := mkFields {
  fFullName : JsVal;
  fEmail : JsVal;
  fLocation : JsVal;
  fDate : JsVal;
  keyboardSignature : JsVal
}.

(** [fields[fieldName]] *)
Definition fieldValue (f : Fields) (n : FieldName) : JsVal :=
  match n with
  | FullName => fFullName f
  | Email => fEmail f
  | Location => fLocation f
  | Date => fDate f
  end.

Definition spacing : Z := 25.
Definition black : Z * Z * Z := (0, 0, 0)%Z.

Definition msgSignatureInsert : Str :=
  js "Fehler beim Einf" ++ [uuml] ++ js "gen der Unterschrift: ".
Definition labelTyped : Str := js "Unterschrift per Tastatur:".
Definition labelDrawn : Str := js "Unterschrift Signaturfeld:".
Definition decorativeFontName : Str := js "DancingScript-Regular".

Section Program.

Variable W : World.

(** [path.join(__dirname, 'public', 'fonts', file)], for a normalised
    [__dirname]. *)
Definition fontFile (file : Str) : Str :=
  dirname W ++ js "/public/fonts/" ++ file.

Definition readFile (path : Str) : M Bytes :=
  emit (EvReadFile path) ;;; liftSum (fsReadFile W path).

(** [page.drawText(text, {x, y, size, font, color: rgb(0, 0, 0)})] on
    [pages[i]], which is undefined for an index past the last page. *)
Definition drawText (pg : option nat) (text : JsVal) (x y size : Z)
    (font : Font) : M unit :=
  match pg with
  | None =>
      throw (typeError
        (js "Cannot read properties of undefined (reading 'drawText')"))
  | Some p =>
      liftErr (drawTextError W font text) ;;;
      addOp (p, DrawText text x y size font black)
  end.

Definition drawImage (pg : option nat) (image : Bytes) (x y w h : Z) : M unit :=
  match pg with
  | None =>
      throw (typeError
        (js "Cannot read properties of undefined (reading 'drawImage')"))
  | Some p => addOp (p, DrawImage image x y w h)
  end.

(** [Buffer.from(signatureData.split(',')[1], 'base64')] *)
Definition signatureBytes (signatureData : JsVal) : M Bytes :=
  match signatureData with
  | VStr s =>
      match nth_error (split comma s) 1 with
      | Some b64 => ret (base64Decode W b64)
      | None =>
          throw (typeError
            (js "The first argument must be of type string or an instance of Buffer, ArrayBuffer, or Array or an Array-like Object. "
               ++ js "Received undefined"))
      end
  | _ => throw (typeError (js "signatureData.split is not a function"))
  end.

(** The body of [fieldOrder.forEach]: a label at x = 150 and the value at
    x = 250 on one line, then [currentY -= spacing]. *)
Fixpoint drawFields (pg : option nat) (font : Font) (fields : Fields)
    (names : list FieldName) (currentY : Z) : M Z :=
  match names with
  | [] => ret currentY
  | fieldName :: rest =>
      let labelText := pdfConfig.labels (layout W) fieldName in
      drawText pg (VStr labelText) 150 currentY 12 font ;;;
      drawText pg (fieldValue fields fieldName) 250 currentY 12 font ;;;
      drawFields pg font fields rest (currentY - spacing)
  end.

(** The typed-signature branch of [addSignatureToPage] (lines 121-149). *)
Definition drawKeyboardSignature (pg : option nat) (fields : Fields)
    (helveticaFont : Font) (currentY : Z) : M Z :=
  if truthy (optGet (keyboardSignature fields) (js "text")) then
    let fontPath :=
      if strictEqStr (optGet (keyboardSignature fields) (js "font"))
           decorativeFontName
      then fontFile (js "DancingScript-Regular.ttf")
      else fontFile (js "BarlowSemiCondensed-Regular.ttf") in
    fontBytes <- readFile fontPath ;;
    let keyboardFont := helveticaFont in
    drawText pg (VStr labelTyped) 150 currentY 12 helveticaFont ;;;
    let currentY := (currentY - spacing)%Z in
    drawText pg (optGet (keyboardSignature fields) (js "text"))
      150 currentY 16 keyboardFont ;;;
    ret (currentY - spacing)%Z
  else ret currentY.

(** The drawn-signature branch of [addSignatureToPage] (lines 151-172). *)
Definition drawSignaturePad (pg : option nat) (signatureConfig : SignatureConfig)
    (signatureData : JsVal) (helveticaFont : Font) (currentY : Z) : M unit :=
  if truthy signatureData then
    drawText pg (VStr labelDrawn) 150 currentY 12 helveticaFont ;;;
    signatureImageBytes <- signatureBytes signatureData ;;
    liftErr (embedPngError W signatureImageBytes) ;;;
    drawImage pg signatureImageBytes (sigX signatureConfig)
      (sigY signatureConfig) (sigWidth signatureConfig)
      (sigHeight signatureConfig)
  else ret tt.

(** [addSignatureToPage(page, signatureConfig, signatureData, fields,
    pdfDoc, helveticaFont)]; [pdfDoc] is the document of the state. *)
Definition addSignatureToPage (pg : option nat)
    (signatureConfig : SignatureConfig) (signatureData : JsVal)
    (fields : Fields) (helveticaFont : Font) : M unit :=
  tryCatch
    (let startY := textBlockY signatureConfig in
     let currentY := startY in
     drawText pg (VStr (labelText signatureConfig)) 150 currentY 12
       helveticaFont ;;;
     let currentY := (currentY - spacing)%Z in
     currentY <- drawFields pg helveticaFont fields fieldOrder currentY ;;
     currentY <- drawKeyboardSignature pg fields helveticaFont currentY ;;
     drawSignaturePad pg signatureConfig signatureData helveticaFont currentY)
    (fun error => throw (newError (msgSignatureInsert ++ message error))).

(* ------------------------------------------------------------------ *)
(** *** Blob storage *)

Definition msgInvalidGsUri (u : Str) : Str := js "Invalid GCS URI format: " ++ u.
Definition msgInvalidPublicUrl (u : Str) : Str :=
  js "Invalid GCS public URL format: " ++ u.
Definition msgUnsupportedFormat (u : Str) : Str :=
  js "Unsupported PDF URL format for download: " ++ u.
Definition msgInvalidBucketPublic : Str := js "Invalid bucket in public URL.".
Definition msgUntrustedBucket (bucketName : Str) : Str :=
  js "Cannot download from bucket " ++ bucketName ++ js ", expected "
    ++ BUCKET_NAME W ++ js ".".
Definition msgNotFound (u : Str) : Str :=
  js "PDF not found at GCS location: " ++ u ++ js ".".
Definition msgPermissionDenied (u : Str) : Str :=
  js "Permission denied to download PDF from GCS: " ++ u
    ++ js ". Check Cloud Run service account permissions.".
Definition msgDownloadFailed (u : Str) : Str :=
  js "Failed to download PDF from GCS: " ++ u ++ js ".".

(** The location parsing of [downloadPdfFromGcs] (lines 638-657): the
    bucket and the path of a [gs://] URI or of a public URL. *)
Definition parseLocation (gcsPathOrUrl : Str) : M (Str * Str) :=
  if startsWith gsPrefix gcsPathOrUrl then
    match matchGs gcsPathOrUrl with
    | None => throw (newError (msgInvalidGsUri gcsPathOrUrl))
    | Some (bucketName, filePath) => ret (bucketName, filePath)
    end
  else if startsWith httpsPrefix gcsPathOrUrl then
    match matchHttps gcsPathOrUrl with
    | None => throw (newError (msgInvalidPublicUrl gcsPathOrUrl))
    | Some (bucketName, filePath) =>
        if negb (str_eqb bucketName (BUCKET_NAME W)) then
          console LWarn
            (js "Attempted download from unexpected bucket via public URL: "
               ++ bucketName) None ;;;
          throw (newError msgInvalidBucketPublic)
        else ret (bucketName, filePath)
    end
  else throw (newError (msgUnsupportedFormat gcsPathOrUrl)).

(** The [try] block of [downloadPdfFromGcs] (lines 637-667). *)
Definition downloadBody (gcsPathOrUrl : JsVal) : M Bytes :=
  match gcsPathOrUrl with
  | VStr u =>
      bp <- parseLocation u ;;
      let (bucketName, filePath) := bp : Str * Str in
      if negb (str_eqb bucketName (BUCKET_NAME W)) then
        console LWarn
          (js "Attempted download from unexpected bucket: " ++ bucketName)
          None ;;;
        throw (newError (msgUntrustedBucket bucketName))
      else
        emit (EvGcsDownload bucketName filePath) ;;;
        contents <- liftSum (gcsDownload W bucketName filePath) ;;
        console LLog
          (js "Downloaded PDF from gs://" ++ bucketName ++ js "/" ++ filePath)
          None ;;;
        ret contents
  | VUndefined =>
      throw (typeError
        (js "Cannot read properties of undefined (reading 'startsWith')"))
  | VNull =>
      throw (typeError
        (js "Cannot read properties of null (reading 'startsWith')"))
  | _ => throw (typeError (js "gcsPathOrUrl.startsWith is not a function"))
  end.

Definition codeIs (e : JsError) (n : Z) : bool :=
  match code e with VNum k => Z.eqb k n | _ => false end.

(** The [catch] block of [downloadPdfFromGcs] (lines 668-677). Its
    template literals print the argument as [toStr] does, which is exact
    for a [printable] argument. *)
Definition downloadCatch (gcsPathOrUrl : JsVal) (error : JsError) : M Bytes :=
  console LError
    (js "ERROR downloading PDF from GCS " ++ [dquote] ++ toStr gcsPathOrUrl
       ++ [dquote] ++ js ":") (Some error) ;;;
  if codeIs error 404 || includes (js "Not Found") (message error) then
    throw (newError (msgNotFound (toStr gcsPathOrUrl)))
  else if codeIs error 403
          || includes (js "does not have storage.objects.get access")
               (message error) then
    throw (newError (msgPermissionDenied (toStr gcsPathOrUrl)))
  else throw (newError (msgDownloadFailed (toStr gcsPathOrUrl))).

Definition downloadPdfFromGcs (gcsPathOrUrl : JsVal) : M Bytes :=
  tryCatch (downloadBody gcsPathOrUrl) (downloadCatch gcsPathOrUrl).

(** The location [storePdfInBucket] returns: the public URL when
    [MAKE_PUBLIC], the [gs://] URI otherwise. *)
Definition formatLocation (bucket path : Str) (makePublic : bool) : Str :=
  if makePublic
  then js "https://storage.googleapis.com/" ++ bucket ++ js "/" ++ path
  else js "gs://" ++ bucket ++ js "/" ++ path.

Definition msgUploadFailed : Str :=
  js "Failed to upload PDF to bucket " ++ BUCKET_NAME W ++ js ".".

Definition storePdfInBucket (pdfBytes : Bytes) (destinationFilename : Str)
    : M Str :=
  tryCatch
    (emit (EvGcsSave (BUCKET_NAME W) destinationFilename pdfBytes) ;;;
     liftErr (gcsSave W (BUCKET_NAME W) destinationFilename pdfBytes) ;;;
     console LLog
       (js "PDF uploaded to gs://" ++ BUCKET_NAME W ++ js "/"
          ++ destinationFilename) None ;;;
     if MAKE_PUBLIC W then
       emit (EvGcsMakePublic (BUCKET_NAME W) destinationFilename) ;;;
       liftErr (gcsMakePublic W (BUCKET_NAME W) destinationFilename) ;;;
       let publicUrl :=
         formatLocation (BUCKET_NAME W) destinationFilename true in
       console LLog (js "PDF made public at: " ++ publicUrl) None ;;;
       ret publicUrl
     else
       let gcsUri := formatLocation (BUCKET_NAME W) destinationFilename false in
       ret gcsUri)
    (fun error =>
       console LError
         (js "ERROR uploading PDF to GCS bucket " ++ [dquote] ++ BUCKET_NAME W
            ++ [dquote] ++ js ":") (Some error) ;;;
       throw (newError msgUploadFailed)).

(* ------------------------------------------------------------------ *)
(** *** The document store *)

Definition objectPrototypeKeys : list Str :=
  [js "constructor"; js "__defineGetter__"; js "__defineSetter__";
   js "hasOwnProperty"; js "__lookupGetter__"; js "__lookupSetter__";
   js "isPrototypeOf"; js "propertyIsEnumerable"; js "toString";
   js "valueOf"; js "__proto__"; js "toLocaleString"].

(** [pdfStore[pdfId]]: the key is [String(pdfId)]; [pdfStore] is a plain
    object, so a key it does not own is looked up in [Object.prototype],
    whose members are truthy and have none of the properties of a record
    (they stand here as the empty object). The key is exact for a
    [printable] id; for another one see [toStr]. *)
Definition storeGet (store : list (Str * JsVal)) (pdfId : JsVal) : JsVal :=
  match lookup (toStr pdfId) store with
  | Some r => r
  | None =>
      if existsb (str_eqb (toStr pdfId)) objectPrototypeKeys
      then VObj []
      else VUndefined
  end.

(** [pdfStore[pdfId] = record] *)
Fixpoint storeSet (store : list (Str * JsVal)) (k : Str) (r : JsVal)
    : list (Str * JsVal) :=
  match store with
  | [] => [(k, r)]
  | (k', v) :: rest =>
      if str_eqb k k' then (k', r) :: rest else (k', v) :: storeSet rest k r
  end.

(** [PDF_STORE_PATH] (lines 40-47). The assignment
    [PDF_STORE_PATH = path.join(__dirname, 'pdfStore.json')] of line 43
    reads [__dirname], which is declared by the [let] of line 59 and is
    not initialised yet: the read throws a [ReferenceError], the
    assignment does not take place, and the variable keeps the
    [undefined] of its declaration. (The [catch] of line 44 logs and
    calls [process.exit(1)]; the handlers are taken here as the functions
    they are, with the module variables as the module leaves them.) *)
Definition PDF_STORE_PATH : JsVal := VUndefined.

(** What [fs.promises.readFile] and [fs.promises.writeFile] reject with
    for a path that is [undefined]: the argument is validated before the
    file system is touched. *)
Definition invalidPathError : JsError :=
  mkError (VStr (js "ERR_INVALID_ARG_TYPE"))
    (js "The " ++ [dquote] ++ js "path" ++ [dquote]
       ++ js " argument must be of type string or an instance of Buffer or URL. Received undefined").

(** [fs.writeFile(path, JSON.stringify(store, null, 2), 'utf8')] and
    [fs.readFile(path, ...)] for a path that is a string or
    [undefined]. *)
Definition writeStoreAt (path : JsVal) (store : list (Str * JsVal))
    : M unit :=
  match path with
  | VStr p =>
      emit (EvWriteFile p store) ;;;
      liftErr (fsWriteFile W p) ;;;
      setStoreFile store
  | _ => throw invalidPathError
  end.

Definition readFileAt (path : JsVal) : M Bytes :=
  match path with
  | VStr p => readFile p
  | _ => throw invalidPathError
  end.

(** [savePdfStore()]: a failure of the write is logged and swallowed. *)
Definition savePdfStore : M unit :=
  store <- getStore ;;
  tryCatch
    (writeStoreAt PDF_STORE_PATH store)
    (fun error => console LError (js "Error saving PDF store:") (Some error)).

(* ------------------------------------------------------------------ *)
(** *** Request handlers *)

Record Response : Type := mkResponse { statusCode : Z; body : JsVal }.

(** [res.json(b)] and [res.status(n).json({ error: m })] *)
Definition jsonOk (b : JsVal) : Response := mkResponse 200 b.
Definition jsonError (n : Z) (m : Str) : Response :=
  mkResponse n (VObj [(js "error", VStr m)]).

Definition WEBHOOK_URL : Str :=
  js "https://hook.eu2.make.com/shqssx7au2d7m7fu4hz86qiojoh65k40".

Definition msgAllFields : Str :=
  js "Alle Felder m" ++ [uuml] ++ js "ssen ausgef" ++ [uuml] ++ js "llt werden.".
Definition msgWithdrawalMissing : Str :=
  js "Unterschrift f" ++ [uuml] ++ js "r das Erl" ++ [ouml]
    ++ js "schen des Widerrufsrechts fehlt.".
Definition msgContract : Str :=
  js "Fehler beim Einf" ++ [uuml] ++ js "gen der Vertragsunterschrift: ".
Definition msgWithdrawal : Str :=
  js "Fehler beim Einf" ++ [uuml] ++ js "gen der Widerrufsunterschrift: ".
Definition msgPdfNotFound : Str :=
  js "PDF nicht gefunden oder ung" ++ [uuml] ++ js "ltige ID.".
Definition msgNoLocation : Str :=
  js "Interner Serverfehler: PDF-Speicherort nicht gefunden.".

(** [pages[i]] of a document of [n] pages. *)
Definition pageAt (n i : nat) : option nat :=
  if Nat.ltb i n then Some i else None.

(** [PDFDocument.load(bytes)], [pdfDoc.getPages()]: a fresh document. *)
Definition loadPdf (bytes : Bytes) : M nat :=
  n <- liftSum (pdfLoad W bytes) ;;
  newDoc ;;;
  ret n.

(** [pdfDoc.embedFont(StandardFonts.Helvetica)] *)
Definition embedHelvetica : M Font :=
  liftErr (embedStandardFont W) ;;; ret Helvetica.

(** [pdfDoc.save()] of the document loaded from [bytes]. *)
Definition savePdf (bytes : Bytes) : M Bytes :=
  ops <- getDoc ;;
  liftSum (pdfSave W bytes ops).

(** [a || b] *)
Definition jsOr (a b : JsVal) : JsVal := if truthy a then a else b.

(** [req.body]: the properties the handlers destructure from it
    ([VUndefined] for an absent one). *)
Record RequestBody : Type := mkRequestBody {
  fullName : JsVal;
  location : JsVal;
  email : JsVal;
  signature : JsVal;
  withdrawalAccepted : JsVal;
  withdrawalSignature : JsVal;
  pdfId : JsVal;
  contractKeyboardSignature : JsVal;
  withdrawalKeyboardSignature : JsVal;
  date : JsVal;
  base64 : JsVal;
  webhookUrl : JsVal
}.

Inductive Block : Type := Contract | Withdrawal.

Definition blockConfig (b : Block) : SignatureConfig :=
  match b with
  | Contract => pdfConfig.contractSignature (layout W)
  | Withdrawal => pdfConfig.withdrawalSignature (layout W)
  end.

Definition blockMessage (b : Block) : Str :=
  match b with
  | Contract => msgContract
  | Withdrawal => msgWithdrawal
  end.

(** The first argument of the [console.error] of a failed block. *)
Definition blockLogText (b : Block) : Str :=
  match b with
  | Contract =>
      js "Fehler beim Einf" ++ [uuml] ++ js "gen der Vertragsunterschrift:"
  | Withdrawal =>
      js "Fehler beim Einf" ++ [uuml] ++ js "gen der Widerrufsunterschrift:"
  end.

(** The typed and the drawn payload [/api/sign] receives for a block. *)
Definition typedOf (req : RequestBody) (b : Block) : JsVal :=
  match b with
  | Contract => contractKeyboardSignature req
  | Withdrawal => withdrawalKeyboardSignature req
  end.

Definition drawnOf (req : RequestBody) (b : Block) : JsVal :=
  match b with
  | Contract => signature req
  | Withdrawal => withdrawalSignature req
  end.

(** [{ ...baseFields, ...(kb?.text ? { keyboardSignature: kb } : {}) }] *)
Definition signFields (req : RequestBody) (b : Block) : Fields :=
  mkFields (fullName req) (email req) (location req) (VStr (today W))
    (if truthy (optGet (typedOf req b) (js "text"))
     then typedOf req b else VUndefined).

(** The third argument of the call: [kb?.text ? null : signature]. *)
Definition signSignatureData (req : RequestBody) (b : Block) : JsVal :=
  if truthy (optGet (typedOf req b) (js "text")) then VNull
  else drawnOf req b.

(** One [try { await addSignatureToPage(...) } catch (error) {
    console.error(...); res.status(500).json(...); return }] of a handler:
    [None] when the block was composed, the response otherwise. *)
Definition tryBlock (b : Block) (signatureData : JsVal) (fields : Fields)
    (nPages : nat) (helveticaFont : Font) : M (option Response) :=
  tryCatch
    (addSignatureToPage (pageAt nPages (page (blockConfig b)))
       (blockConfig b) signatureData fields helveticaFont ;;;
     ret None)
    (fun error =>
       console LError (blockLogText b) (Some error) ;;;
       ret (Some (jsonError 500 (blockMessage b ++ message error)))).

(** The two blocks of [/api/sign] (lines 505-523 and 532-545). *)
Definition signBlock (req : RequestBody) (b : Block) (nPages : nat)
    (helveticaFont : Font) : M (option Response) :=
  tryBlock b (signSignatureData req b) (signFields req b) nPages
    helveticaFont.

Definition signWebhookPayload (req : RequestBody) (pdfData : JsVal)
    (signedPdfUrl : Str) : JsVal :=
  VObj [(js "status", VStr (js "signed"));
        (js "pdfUrl", VStr signedPdfUrl);
        (js "signedBy",
           VObj [(js "name", fullName req); (js "email", email req);
                 (js "location", location req)]);
        (js "vorname", optGet pdfData (js "vorname"));
        (js "card_id", optGet pdfData (js "card_id"));
        (js "email", optGet pdfData (js "email"));
        (js "withdrawalAccepted", withdrawalAccepted req);
        (js "timestamp", VStr (nowIso W))].

(** [try { fetch = (await import('node-fetch')).default; response = await
    fetch(WEBHOOK_URL, ...); ... } catch { console.error }]; [check] is
    whether [response.ok] is looked at. *)
Definition sendWebhook (payload : JsVal) (check : bool) : M unit :=
  tryCatch
    (liftErr (fetchImport W) ;;;
     emit (EvFetch WEBHOOK_URL payload) ;;;
     response <- liftSum (fetchPost W WEBHOOK_URL payload) ;;
     if check && negb (ok response) then
       console LError
         (js "Webhook failed: " ++ decimal (status response) ++ js " "
            ++ statusText response) None
     else ret tt)
    (fun error => console LError (js "Error sending webhook:") (Some error)).

Definition signTestData (req : RequestBody) : JsVal :=
  VObj [(js "success", VBool true);
        (js "message", VStr (js "Signature data received successfully"));
        (js "data",
           VObj [(js "fullName", fullName req);
                 (js "location", location req);
                 (js "email", email req);
                 (js "signature", signature req);
                 (js "contractKeyboardSignature", contractKeyboardSignature req);
                 (js "withdrawalAccepted", withdrawalAccepted req);
                 (js "withdrawalSignature", withdrawalSignature req);
                 (js "withdrawalKeyboardSignature",
                    withdrawalKeyboardSignature req)])].

(** What follows the two blocks in [/api/sign] (lines 548-588). *)
Definition signFinish (req : RequestBody) (pdfData : JsVal)
    (originalPdfBytes : Bytes) : M Response :=
  signedPdfBytes <- savePdf originalPdfBytes ;;
  let signedDestinationFilename :=
    js "signed/signed_" ++ toStr (pdfId req) ++ js ".pdf" in
  signedPdfUrl <- storePdfInBucket signedPdfBytes signedDestinationFilename ;;
  sendWebhook (signWebhookPayload req pdfData signedPdfUrl) false ;;;
  ret (jsonOk (VObj [(js "pdfUrl", VStr signedPdfUrl)])).

(** The two blocks of [/api/sign] and what follows them (lines 504-588):
    the contract block, the withdrawal block when it was accepted, then the
    upload and the webhook; a block that fails ends the request. *)
Definition signCompose (req : RequestBody) (pdfData : JsVal)
    (originalPdfBytes : Bytes) (nPages : nat) (helveticaFont : Font)
    : M Response :=
  failed <- signBlock req Contract nPages helveticaFont ;;
  match failed with
  | Some response => ret response
  | None =>
      failed <-
        (if truthy (withdrawalAccepted req)
         then signBlock req Withdrawal nPages helveticaFont
         else ret None) ;;
      match failed with
      | Some response => ret response
      | None => signFinish req pdfData originalPdfBytes
      end
  end.

(** [app.post('/api/sign', ...)] *)
Definition apiSign (req : RequestBody) : M Response :=
  tryCatch
    (if negb (truthy (fullName req)) || negb (truthy (location req))
        || negb (truthy (email req)) then
       ret (jsonError 400 msgAllFields)
     else if negb (truthy (pdfId req)) then
       ret (jsonOk (signTestData req))
     else
       store <- getStore ;;
       let pdfData := storeGet store (pdfId req) in
       if negb (truthy pdfData) then ret (jsonError 404 msgPdfNotFound)
       else if negb (truthy (optGet pdfData (js "pdfUrl"))) then
         console LError
           (js "PDF data for ID " ++ toStr (pdfId req)
              ++ js " is missing the pdfUrl property.") None ;;;
         ret (jsonError 500 msgNoLocation)
       else
         originalPdfBytes <- downloadPdfFromGcs (optGet pdfData (js "pdfUrl")) ;;
         nPages <- loadPdf originalPdfBytes ;;
         helveticaFont <- embedHelvetica ;;
         signCompose req pdfData originalPdfBytes nPages helveticaFont)
    (fun error =>
       console LError (js "Error signing PDF:") (Some error) ;;;
       ret (jsonError 500 (message error))).

(** [app.post('/api/pdf-config', ...)] *)
Definition configFields (req : RequestBody) : Fields :=
  mkFields (fullName req) (email req) (location req)
    (jsOr (date req) (VStr (today W))) VUndefined.

Definition configWebhookPayload (pdfUrl : Str) : JsVal :=
  VObj [(js "status", VStr (js "signed"));
        (js "pdfUrl", VStr pdfUrl);
        (js "timestamp", VStr (nowIso W))].

Definition templatePath : Str :=
  dirname W ++ js "/templates/DVV-All-Time-Best-Media.pdf".

Definition apiPdfConfig (req : RequestBody) : M Response :=
  tryCatch
    (if negb (truthy (fullName req)) || negb (truthy (location req))
        || negb (truthy (email req)) || negb (truthy (signature req)) then
       ret (jsonError 400 msgAllFields)
     else if truthy (withdrawalAccepted req)
             && negb (truthy (withdrawalSignature req)) then
       ret (jsonError 400 msgWithdrawalMissing)
     else
       templateBytes <- readFile templatePath ;;
       nPages <- loadPdf templateBytes ;;
       helveticaFont <- embedHelvetica ;;
       let textFields := configFields req in
       failed <-
         (if truthy (withdrawalAccepted req)
             && truthy (withdrawalSignature req)
          then tryBlock Withdrawal (withdrawalSignature req) textFields
                 nPages helveticaFont
          else ret None) ;;
       match failed with
       | Some response => ret response
       | None =>
           failed <-
             (if truthy (signature req)
              then tryBlock Contract (signature req) textFields nPages
                     helveticaFont
              else ret None) ;;
           match failed with
           | Some response => ret response
           | None =>
               pdfBytes <- savePdf templateBytes ;;
               let destinationFilename :=
                 js "contracts/ausbildungsvertrag_" ++ uuidv4 W ++ js ".pdf" in
               pdfUrl <- storePdfInBucket pdfBytes destinationFilename ;;
               sendWebhook (configWebhookPayload pdfUrl) true ;;;
               ret (jsonOk (VObj [(js "pdfUrl", VStr pdfUrl)]))
           end
       end)
    (fun error =>
       console LError (js "Fehler bei der PDF-Konfiguration:") (Some error) ;;;
       ret (jsonError 500 (message error))).

(** A request to [/api/pdf-upload]: the [x-api-key] header, the file
    multer stored in memory, and the form fields. *)
Record UploadRequest : Type := mkUploadRequest {
  apiKey : option Str;
  file : option Bytes;
  uploadBody : RequestBody
}.

(** [!apiKey || apiKey !== process.env.API_KEY] *)
Definition unauthorized (req : UploadRequest) : bool :=
  match apiKey req, API_KEY W with
  | Some ((_ :: _) as k), Some k' => negb (str_eqb k k')
  | _, _ => true
  end.

Definition jsNullable (v : JsVal) : JsVal := jsOr v VNull.

(** [apiKeyAuth] followed by the handler of [app.post('/api/pdf-upload')]. *)
Definition apiPdfUpload (req : UploadRequest) : M Response :=
  if unauthorized req then ret (jsonError 401 (js "Unauthorized"))
  else
    tryCatch
      (let continue (pdfBytes : Bytes) : M Response :=
         let pdfId := uuidv4 W in
         let destinationFilename :=
           js "uploads/uploaded_" ++ pdfId ++ js ".pdf" in
         pdfUrl <- storePdfInBucket pdfBytes destinationFilename ;;
         let signUrl := js "/sign/" ++ pdfId in
         params <- liftSum (urlSearchParams W (webhookUrl (uploadBody req))) ;;
         let '(vorname, card_id, email) := params in
         store <- getStore ;;
         setStore
           (storeSet store pdfId
              (VObj [(js "pdfUrl", VStr pdfUrl);
                     (js "signUrl", VStr signUrl);
                     (js "webhookUrl", VStr WEBHOOK_URL);
                     (js "vorname", jsNullable vorname);
                     (js "card_id", jsNullable card_id);
                     (js "email", jsNullable email)])) ;;;
         savePdfStore ;;;
         ret (jsonOk (VObj [(js "pdfUrl", VStr pdfUrl);
                            (js "signUrl", VStr signUrl)])) in
       match file req with
       | Some buffer => continue buffer
       | None =>
           if truthy (base64 (uploadBody req)) then
             pdfBytes <- liftSum (dataUriToBuffer W (base64 (uploadBody req))) ;;
             continue pdfBytes
           else
             ret (mkResponse 400
                    (VStr (js "No PDF file or base64 data provided")))
       end)
      (fun error =>
         console LError (js "Error processing PDF upload:") (Some error) ;;;
         ret (jsonError 500 (message error))).

End Program.

Definition isDownload (e : Event) : bool :=
  match e with EvGcsDownload _ _ => true | _ => false end.
Definition isUpload (e : Event) : bool :=
  match e with EvGcsSave _ _ _ => true | _ => false end.
Definition isWriteFile (e : Event) : bool :=
  match e with EvWriteFile _ _ => true | _ => false end.
Definition isFetch (e : Event) : bool :=
  match e with EvFetch _ _ => true | _ => false end.
Definition isMakePublic (e : Event) : bool :=
  match e with EvGcsMakePublic _ _ => true | _ => false end.

(** The name under which [/api/sign] stores the signed document. *)
Definition signedName (req : RequestBody) : Str :=
  js "signed/signed_" ++ toStr (pdfId req) ++ js ".pdf".

(** The bucket and the path a location string stands for: what the two
    regular expressions of [downloadPdfFromGcs] capture, before any check
    of the bucket. *)
Definition locationParts (u : Str) : option (Str * Str) :=
  if startsWith gsPrefix u then matchGs u
  else if startsWith httpsPrefix u then matchHttps u
  else None.

(** The error [downloadPdfFromGcs] raises inside its [try] block for a
    bucket that is not the configured one: line 662 for a [gs://] URI,
    line 653 for a public URL. *)
Definition untrustedBucketError (W : World) (u bucketName : Str) : JsError :=
  if startsWith gsPrefix u then newError (msgUntrustedBucket W bucketName)
  else newError msgInvalidBucketPublic.

(** The two tests of the [catch] block of [downloadPdfFromGcs] on the text
    of a message. *)
Definition mentionsGcsFailure (m : Str) : bool :=
  includes (js "Not Found") m
  || includes (js "does not have storage.objects.get access") m.

(** Whether the image of a drawn signature can be decoded: the data URI
    has a part after its first comma and [embedPng] accepts its bytes. *)
Definition decodable (W : World) (signatureData : JsVal) : bool :=
  match signatureData with
  | VStr s =>
      match nth_error (split comma s) 1 with
      | Some b64 =>
          match embedPngError W (base64Decode W b64) with
          | None => true
          | Some _ => false
          end
      | None => false
      end
  | _ => false
  end.

(** The font file the typed-signature branch reads for a payload. *)
Definition chosenFontFile (W : World) (kb : JsVal) : Str :=
  if strictEqStr (optGet kb (js "font")) decorativeFontName
  then fontFile W (js "DancingScript-Regular.ttf")
  else fontFile W (js "BarlowSemiCondensed-Regular.ttf").

(** The font the specification selects for a typed signature: the
    decorative script font when it is chosen, the fallback otherwise. *)
Definition specSelectedFont (W : World) (kb : JsVal) (fallback : Font) : Font :=
  if strictEqStr (optGet kb (js "font")) decorativeFontName
  then Embedded (fontFile W (js "DancingScript-Regular.ttf"))
  else fallback.

Definition isImageOp (o : PageOp) : bool :=
  match snd o with DrawImage _ _ _ _ _ => true | DrawText _ _ _ _ _ _ => false end.

(* ================================================================== *)
(** ** The shape of a composed block *)
(* ================================================================== *)

(** The state after further drawing operations. *)
Definition addOps (s : St) (ops : list PageOp) : St :=
  mkSt (pdfStore s) (storeFile s) (doc s ++ ops).

Definition onPage (p : nat) (ops : list DrawOp) : list PageOp :=
  map (pair p) ops.

Definition isTextOp (o : DrawOp) : bool :=
  match o with DrawText _ _ _ _ _ _ => true | DrawImage _ _ _ _ _ => false end.

(** A body line: 12 units, at x = 150. *)
Definition textLine (text : JsVal) (y : Z) (font : Font) : DrawOp :=
  DrawText text 150 y 12 font black.

(** One field line of the specification: the label at offset 150 and the
    value at offset 250, on the same line. *)
Definition fieldLine (W : World) (fields : Fields) (font : Font)
    (name : FieldName) (y : Z) : list DrawOp :=
  [textLine (VStr (pdfConfig.labels (layout W) name)) y font;
   DrawText (fieldValue fields name) 250 y 12 font black].

(** Field lines for a list of names, one every 25 units downwards. *)
Fixpoint fieldLines (W : World) (fields : Fields) (font : Font)
    (names : list FieldName) (y : Z) : list DrawOp :=
  match names with
  | [] => []
  | name :: rest =>
      fieldLine W fields font name y ++ fieldLines W fields font rest (y - 25)
  end.

(** The title line and the four field lines of the specification (4.4,
    steps 2 and 3), from the block's [textBlockY] downwards. *)
Definition blockHeader (W : World) (cfg : SignatureConfig) (fields : Fields)
    (font : Font) : list DrawOp :=
  textLine (VStr (labelText cfg)) (textBlockY cfg) font
  :: fieldLine W fields font FullName (textBlockY cfg - 25)
  ++ fieldLine W fields font Email (textBlockY cfg - 50)
  ++ fieldLine W fields font Location (textBlockY cfg - 75)
  ++ fieldLine W fields font Date (textBlockY cfg - 100).

(** The typed signature block: its label line, then the text at 16
    units. *)
Definition typedBlock (kb : JsVal) (font textFont : Font) (y : Z)
    : list DrawOp :=
  [textLine (VStr labelTyped) y font;
   DrawText (optGet kb (js "text")) 150 (y - 25) 16 textFont black].

(** The bytes [Buffer.from(signatureData.split(',')[1], 'base64')] gives
    for a data URI with a comma. *)
Definition imageBytes (W : World) (signatureData : JsVal) : Bytes :=
  match signatureData with
  | VStr s =>
      match nth_error (split comma s) 1 with
      | Some b64 => base64Decode W b64
      | None => []
      end
  | _ => []
  end.

(** The drawn signature block: its label line, then the image in the
    block's rectangle. *)
Definition drawnBlock (W : World) (cfg : SignatureConfig)
    (signatureData : JsVal) (font : Font) (y : Z) : list DrawOp :=
  [textLine (VStr labelDrawn) y font;
   DrawImage (imageBytes W signatureData) (sigX cfg) (sigY cfg)
     (sigWidth cfg) (sigHeight cfg)].

(** Whether [fields] carries a typed signature with a non-empty text. *)
Definition typedActive (fields : Fields) : bool :=
  truthy (optGet (keyboardSignature fields) (js "text")).

(** Everything [addSignatureToPage] draws when it returns. *)
Definition composedBlock (W : World) (cfg : SignatureConfig)
    (signatureData : JsVal) (fields : Fields) (font : Font) : list DrawOp :=
  blockHeader W cfg fields font
  ++ (if typedActive fields
      then typedBlock (keyboardSignature fields) font font
             (textBlockY cfg - 125)
      else [])
  ++ (if truthy signatureData
      then drawnBlock W cfg signatureData font
             (if typedActive fields then textBlockY cfg - 175
              else textBlockY cfg - 125)
      else []).

(* ================================================================== *)
(** ** A concrete deployment, for running the handlers *)
(* ================================================================== *)

Module Sample.

Definition config : pdfConfig.t :=
  pdfConfig.mk
    (mkSignatureConfig 9 150 100 200 80 700 (js "Vertragsunterschrift"))
    (mkSignatureConfig 8 150 120 200 80 400 (js "Widerrufsbelehrung"))
    (fun n => match n with
              | FullName => js "Name:"
              | Email => js "E-Mail:"
              | Location => js "Ort:"
              | Date => js "Datum:"
              end).

Definition pdfBytes : Bytes := [37; 80; 68; 70]%N.

Definition enoent : JsError :=
  mkError (VStr (js "ENOENT")) (js "ENOENT: no such file or directory").

(** A complete PNG file: one opaque black pixel (signature, [IHDR] 1x1
    8-bit RGBA, [IDAT], [IEND], with their checksums). *)
Definition pngBytes : Bytes :=
  [137; 80; 78; 71; 13; 10; 26; 10;
   0; 0; 0; 13; 73; 72; 68; 82; 0; 0; 0; 1; 0; 0; 0; 1; 8; 6; 0; 0; 0;
   31; 21; 196; 137;
   0; 0; 0; 13; 73; 68; 65; 84; 120; 218; 99; 96; 96; 96; 248; 15; 0; 1;
   4; 1; 0; 128; 187; 209; 91;
   0; 0; 0; 0; 73; 69; 78; 68; 174; 66; 96; 130]%N.

(** Every file is there, every PDF has eleven pages, every text can be
    drawn, [Buffer.from] decodes base64, the one image that is known to
    be a PNG file is [pngBytes] and [embedPng] is taken to refuse every
    other buffer; the bucket [good] holds every object and accepts every
    upload. *)
Definition world : World :=
  {| BUCKET_NAME := js "good";
     MAKE_PUBLIC := false;
     API_KEY := Some (js "secret");
     dirname := js "/app";
     layout := config;
     fsReadFile := fun _ => inr pdfBytes;
     fsWriteFile := fun _ => None;
     pdfLoad := fun _ => inr 11%nat;
     embedStandardFont := None;
     drawTextError := fun _ _ => None;
     embedPngError := fun b =>
       if bytes_eqb b pngBytes then None
       else Some (newError (js "The input is not a PNG file!"));
     pdfSave := fun b ops => inr (b ++ [N.of_nat (List.length ops)]);
     base64Decode := bufferFromBase64;
     dataUriToBuffer := fun _ => inr pdfBytes;
     gcsDownload := fun _ _ => inr pdfBytes;
     gcsSave := fun _ _ _ => None;
     gcsMakePublic := fun _ _ => None;
     today := js "2.11.2026";
     nowIso := js "2026-11-02T10:00:00.000Z";
     uuidv4 := js "0b7e1c9a-5d1f-4c55-9a39-7f1f2c1d8e10";
     urlSearchParams := fun _ => inr (VStr (js "Jane"), VNull, VNull);
     fetchImport := None;
     fetchPost := fun _ _ => inr (mkFetchResponse true 200 (js "OK")) |}.

(** The same deployment without the file of the decorative font. *)
Definition worldNoScriptFont : World :=
  {| BUCKET_NAME := BUCKET_NAME world;
     MAKE_PUBLIC := MAKE_PUBLIC world;
     API_KEY := API_KEY world;
     dirname := dirname world;
     layout := config;
     fsReadFile := fun p =>
       if str_eqb p (js "/app/public/fonts/DancingScript-Regular.ttf")
       then inl enoent else inr pdfBytes;
     fsWriteFile := fsWriteFile world;
     pdfLoad := pdfLoad world;
     embedStandardFont := None;
     drawTextError := drawTextError world;
     embedPngError := embedPngError world;
     pdfSave := pdfSave world;
     base64Decode := base64Decode world;
     dataUriToBuffer := dataUriToBuffer world;
     gcsDownload := gcsDownload world;
     gcsSave := gcsSave world;
     gcsMakePublic := gcsMakePublic world;
     today := today world;
     nowIso := nowIso world;
     uuidv4 := uuidv4 world;
     urlSearchParams := urlSearchParams world;
     fetchImport := None;
     fetchPost := fetchPost world |}.

Definition record : JsVal :=
  VObj [(js "pdfUrl", VStr (js "gs://good/uploads/uploaded_doc-1.pdf"));
        (js "signUrl", VStr (js "/sign/doc-1"));
        (js "webhookUrl", VStr WEBHOOK_URL);
        (js "vorname", VStr (js "Jane"));
        (js "card_id", VNull);
        (js "email", VNull)].

Definition store : list (Str * JsVal) := [(js "doc-1", record)].

Definition state : St := mkSt store (Some store) [].

(** The data URL of [pngBytes]. *)
Definition png : JsVal :=
  VStr (js "data:image/png;base64,iVBORw0KGgoAAAANSUhEUgAAAAEAAAABCAYAAAAfFcSJAAAADUlEQVR42mNgYGD4DwABBAEAgLvRWwAAAABJRU5ErkJggg==").
Definition brokenImage : JsVal := VStr (js "data:image/png;base64,@@@@").

Definition typed (font : string) : JsVal :=
  VObj [(js "text", VStr (js "Jane Doe")); (js "font", VStr (js font))].

(** Jane Doe signs the contract of document [doc-1]. *)
Definition request (signature contractKeyboardSignature withdrawalAccepted
    withdrawalSignature withdrawalKeyboardSignature : JsVal) : RequestBody :=
  {| fullName := VStr (js "Jane Doe");
     location := VStr (js "Berlin");
     email := VStr (js "j@x.com");
     signature := signature;
     withdrawalAccepted := withdrawalAccepted;
     withdrawalSignature := withdrawalSignature;
     pdfId := VStr (js "doc-1");
     contractKeyboardSignature := contractKeyboardSignature;
     withdrawalKeyboardSignature := withdrawalKeyboardSignature;
     date := VUndefined;
     base64 := VUndefined;
     webhookUrl := VUndefined |}.

Definition fields (keyboardSignature : JsVal) : Fields :=
  mkFields (VStr (js "Jane Doe")) (VStr (js "j@x.com")) (VStr (js "Berlin"))
    (VStr (js "2.11.2026")) keyboardSignature.

End Sample.

(* ================================================================== *)
(** ** Vocabulary of the statements *)
(* ================================================================== *)

(** [wp m s Q]: running [m] from [s] gives a result, a final state and
    effects that satisfy [Q]. *)
Definition wp {A} (m : M A) (s : St)
    (Q : Res A -> St -> list Event -> Prop) : Prop :=
  Q (result (m s)) (final (m s)) (effects (m s)).

(** The state a computation leaves has the document store of [s]. *)
Definition sameStore (s s' : St) : Prop :=
  pdfStore s' = pdfStore s /\ storeFile s' = storeFile s.

(** Events the composition of a block may perform: reading a font file,
    and logging. *)
Definition isLocal (e : Event) : bool :=
  match e with
  | EvConsole _ _ _ | EvReadFile _ => true
  | _ => false
  end.

(** Whether pdf-lib accepts every text of a list of operations. *)
Definition drawable (W : World) (ops : list DrawOp) : bool :=
  forallb (fun op =>
             match op with
             | DrawText text _ _ _ font _ =>
                 match drawTextError W font text with
                 | None => true
                 | Some _ => false
                 end
             | DrawImage _ _ _ _ _ => true
             end) ops.

Section Outcomes.

Variable W : World.

(** The location [/api/sign] computes for the signed document. *)
Definition signedLocation (req : RequestBody) : Str :=
  formatLocation (BUCKET_NAME W) (signedName req) (MAKE_PUBLIC W).

(** What the caller of [/api/sign] gets once the document is loaded:
    the 500 response of a block that failed, with nothing uploaded, or the
    location of the uploaded signed document. The document store is not
    touched. *)
Definition composeOutcome (req : RequestBody) (pdfData : JsVal) (s : St)
    (r : Res Response) (s' : St) (ev : list Event) : Prop :=
  sameStore s s' /\
  existsb isWriteFile ev = false /\ existsb isDownload ev = false /\
  (forall url pl, In (EvFetch url pl) ev ->
     url = WEBHOOK_URL /\
     pl = signWebhookPayload W req pdfData (signedLocation req)) /\
  match r with
  | Ok response =>
      ((exists msg, response = jsonError 500 msg) /\
       existsb isUpload ev = false)
      \/ (response = jsonOk (VObj [(js "pdfUrl", VStr (signedLocation req))]) /\
          (exists signedBytes,
             In (EvGcsSave (BUCKET_NAME W) (signedName req) signedBytes) ev) /\
          (fetchImport W = None ->
           In (EvFetch WEBHOOK_URL
                 (signWebhookPayload W req pdfData (signedLocation req))) ev))
  | Throw _ => True
  end.


End Outcomes.

(* ================================================================== *)
(** ** Start-up, and more vocabulary *)
(* ================================================================== *)

(** [error.code === 'ENOENT'] *)
Definition isEnoent (e : JsError) : bool := strictEqStr (code e) (js "ENOENT").

Section Startup.

Variable W : World.

(** [JSON.parse] of the text of [pdfStore.json]. *)
Variable jsonParse : Bytes -> JsError + list (Str * JsVal).

(** [loadInitialPdfStore()] (lines 251-271) *)
Definition loadInitialPdfStore : M unit :=
  tryCatch
    (data <- readFileAt W PDF_STORE_PATH ;;
     store <- liftSum (jsonParse data) ;;
     setStore store ;;;
     console LLog (js "PDF store loaded successfully.") None)
    (fun error =>
       if isEnoent error then
         console LLog
           (js "pdfStore.json not found, starting with an empty store.")
           None ;;;
         tryCatch
           (writeStoreAt W PDF_STORE_PATH [])
           (fun writeError =>
              console LError (js "Error creating initial pdfStore.json:")
                (Some writeError))
       else
         console LError (js "CRITICAL: Error loading PDF store on startup:")
           (Some error)).

End Startup.

Section MoreVocabulary.

Variable W : World.

(** Whether a file can be read. *)
Definition readable (path : Str) : bool :=
  match fsReadFile W path with inr _ => true | inl _ => false end.

(** Everything a call of [addSignatureToPage] needs from outside to
    return: the page exists, pdf-lib accepts every text of the block, the
    font file of a typed signature can be read and the image of a drawn
    one decodes. *)
Definition composable (pg : option nat) (cfg : SignatureConfig)
    (signatureData : JsVal) (fields : Fields) (font : Font) : bool :=
  match pg with
  | None => false
  | Some _ =>
      drawable W (composedBlock W cfg signatureData fields font)
      && (if typedActive fields
          then readable (chosenFontFile W (keyboardSignature fields))
          else true)
      && (if truthy signatureData then decodable W signatureData else true)
  end.

(** The same world with another webhook behaviour. *)
Definition withWebhook (fetchImport' : option JsError)
    (fetchPost' : Str -> JsVal -> JsError + FetchResponse) : World :=
  mkWorld (BUCKET_NAME W) (MAKE_PUBLIC W) (API_KEY W) (dirname W) (layout W)
    (fsReadFile W) (fsWriteFile W) (pdfLoad W) (embedStandardFont W)
    (drawTextError W) (embedPngError W) (pdfSave W) (base64Decode W)
    (dataUriToBuffer W) (gcsDownload W) (gcsSave W) (gcsMakePublic W)
    (today W) (nowIso W) (uuidv4 W) (urlSearchParams W)
    fetchImport' fetchPost'.

(** The record [/api/pdf-upload] stores for a document. *)
Definition uploadRecord (pdfUrl : Str) (params : JsVal * JsVal * JsVal)
    : JsVal :=
  let '(vorname, card_id, email) := params in
  VObj [(js "pdfUrl", VStr pdfUrl);
        (js "signUrl", VStr (js "/sign/" ++ uuidv4 W));
        (js "webhookUrl", VStr WEBHOOK_URL);
        (js "vorname", jsNullable vorname);
        (js "card_id", jsNullable card_id);
        (js "email", jsNullable email)].

(** The name under which [/api/pdf-upload] stores a document. *)
Definition uploadedName : Str := js "uploads/uploaded_" ++ uuidv4 W ++ js ".pdf".

End MoreVocabulary.

(** The name under which [/api/pdf-config] stores a contract. *)
Definition contractName (W : World) : Str :=
  js "contracts/ausbildungsvertrag_" ++ uuidv4 W ++ js ".pdf".

(** The block [/api/pdf-config] composes: the signature is the drawn one,
    the date the one of the request or, without one, of the day. *)
Definition configBlock (W : World) (req : RequestBody) (b : Block)
    : list DrawOp :=
  composedBlock W (blockConfig W b) (drawnOf req b) (configFields W req)
    Helvetica.

Definition isConsole (e : Event) : bool :=
  match e with EvConsole _ _ _ => true | _ => false end.

(** The process after a restart: [let pdfStore = {}] again, no document
    open, [pdfStore.json] as it was left. *)
Definition restarted (s : St) : St := mkSt [] (storeFile s) [].

(** The document of a request to [/api/pdf-upload]: the file of the
    form, else the decoded [base64] field, else nothing. *)
Definition uploadedBytes (W : World) (req : UploadRequest)
    : option (JsError + Bytes) :=
  match file req with
  | Some buffer => Some (inr buffer)
  | None =>
      if truthy (base64 (uploadBody req))
      then Some (dataUriToBuffer W (base64 (uploadBody req)))
      else None
  end.

(** The answer of [/api/pdf-upload] to a document it has stored. *)
Definition uploadAnswer (W : World) (pdfUrl : Str) : Response :=
  jsonOk (VObj [(js "pdfUrl", VStr pdfUrl);
                (js "signUrl", VStr (js "/sign/" ++ uuidv4 W))]).

(** What [/api/pdf-upload] has done once the key was right and the
    document [bytes] was at hand: the save comes first, no file is
    written, and the answer is the error of the failed save, the error
    of the rejected [webhookUrl], or the location with the record kept
    in memory and the refused write of the store logged. *)
Definition uploaded (W : World) (req : UploadRequest) (s : St)
    (bytes : Bytes) (response : Response) (s' : St) (ev : list Event)
    : Prop :=
  hd_error ev = Some (EvGcsSave (BUCKET_NAME W) (uploadedName W) bytes) /\
  existsb isWriteFile ev = false /\
  storeFile s' = storeFile s /\ doc s' = doc s /\
  match result (storePdfInBucket W bytes (uploadedName W) s) with
  | Throw e => response = jsonError 500 (message e) /\ s' = s
  | Ok u =>
      match urlSearchParams W (webhookUrl (uploadBody req)) with
      | inl e => response = jsonError 500 (message e) /\ s' = s
      | inr params =>
          response = uploadAnswer W u /\
          pdfStore s'
          = storeSet (pdfStore s) (uuidv4 W) (uploadRecord W u params) /\
          In (EvConsole LError (js "Error saving PDF store:")
                (Some invalidPathError)) ev
      end
  end.

(** The three text fields [/api/sign] requires. *)
Definition hasTextFields (req : RequestBody) : bool :=
  truthy (fullName req) && truthy (location req) && truthy (email req).

(** The same request with another drawn signature for a block. *)
Definition withDrawn (req : RequestBody) (b : Block) (drawn : JsVal)
    : RequestBody :=
  mkRequestBody (fullName req) (location req) (email req)
    (match b with Contract => drawn | Withdrawal => signature req end)
    (withdrawalAccepted req)
    (match b with Contract => withdrawalSignature req | Withdrawal => drawn end)
    (pdfId req) (contractKeyboardSignature req)
    (withdrawalKeyboardSignature req) (date req) (base64 req)
    (webhookUrl req).

(** What [/api/sign] hands to [addSignatureToPage] for a block, drawn. *)
Definition signedBlock (W : World) (req : RequestBody) (b : Block)
    : list DrawOp :=
  composedBlock W (blockConfig W b) (signSignatureData req b)
    (signFields W req b) Helvetica.

(** The same request with other withdrawal signatures. *)
Definition withWithdrawalSignatures (req : RequestBody)
    (drawnSignature typedSignature : JsVal) : RequestBody :=
  mkRequestBody (fullName req) (location req) (email req) (signature req)
    (withdrawalAccepted req) drawnSignature (pdfId req)
    (contractKeyboardSignature req) typedSignature (date req) (base64 req)
    (webhookUrl req).

(** Two runs that return the same and leave the same state. *)
Definition sameOutcome {A} (o o' : Out A) : Prop :=
  result o = result o' /\ final o = final o'.

(** A name that survives the codec: not empty, and without a line
    terminator; a bucket name: not empty, and without a slash. *)
Definition pathOk (path : Str) : Prop :=
  path <> [] /\ Forall (fun c => isLineTerminator c = false) path.
Definition bucketOk (bucket : Str) : Prop :=
  bucket <> [] /\ Forall (fun c => c <> slash) bucket.

(** The same world with another storage backend, another environment. *)
Definition withStorage (W : World)
    (gcsDownload' : Str -> Str -> JsError + Bytes)
    (gcsSave' : Str -> Str -> Bytes -> option JsError)
    (gcsMakePublic' : Str -> Str -> option JsError) : World :=
  mkWorld (BUCKET_NAME W) (MAKE_PUBLIC W) (API_KEY W) (dirname W) (layout W)
    (fsReadFile W) (fsWriteFile W) (pdfLoad W) (embedStandardFont W)
    (drawTextError W) (embedPngError W) (pdfSave W) (base64Decode W)
    (dataUriToBuffer W) gcsDownload' gcsSave' gcsMakePublic'
    (today W) (nowIso W) (uuidv4 W) (urlSearchParams W)
    (fetchImport W) (fetchPost W).

Definition withEnv (W : World) (makePublic : bool) (apiKey' : option Str)
    (urlSearchParams' : JsVal -> JsError + (JsVal * JsVal * JsVal)) : World :=
  mkWorld (BUCKET_NAME W) makePublic apiKey' (dirname W) (layout W)
    (fsReadFile W) (fsWriteFile W) (pdfLoad W) (embedStandardFont W)
    (drawTextError W) (embedPngError W) (pdfSave W) (base64Decode W)
    (dataUriToBuffer W) (gcsDownload W) (gcsSave W) (gcsMakePublic W)
    (today W) (nowIso W) (uuidv4 W) urlSearchParams'
    (fetchImport W) (fetchPost W).

(** Variations of the sample deployment. *)
Module Scene.

Definition objectGone : World :=
  withStorage Sample.world
    (fun _ _ => inl (mkError (VNum 404) (js "No such object")))
    (gcsSave Sample.world) (gcsMakePublic Sample.world).

Definition bucketFull : World :=
  withStorage Sample.world (gcsDownload Sample.world)
    (fun _ _ _ => Some (mkError (VNum 507) (js "Insufficient storage")))
    (gcsMakePublic Sample.world).

Definition badWebhookUrl : World :=
  withEnv Sample.world false (Some (js "secret"))
    (fun _ => inl (newError (js "Invalid URL"))).

Definition noApiKey : World :=
  withEnv Sample.world false None (urlSearchParams Sample.world).

Definition webhookDown : World :=
  withWebhook Sample.world None
    (fun _ _ => inl (newError (js "connect ECONNREFUSED"))).

(** An upload of a file with the right key. *)
Definition upload (apiKey : option Str) (file : option Bytes)
    (base64 : JsVal) : UploadRequest :=
  mkUploadRequest apiKey file
    (mkRequestBody VUndefined VUndefined VUndefined VUndefined VUndefined
       VUndefined VUndefined VUndefined VUndefined VUndefined base64
       (VStr (js "https://hook.example/?vorname=Jane"))).

End Scene.

(* ================================================================== *)
(** * Properties *)
(* ================================================================== *)

(** ** Strings and the regular expressions *)

Lemma str_eqb_refl (a : Str) : str_eqb a a = true.
Proof.
  induction a as [|x a IH]; simpl; [reflexivity|].
  now rewrite N.eqb_refl, IH.
Qed.

Lemma str_eqb_eq (a b : Str) : str_eqb a b = true <-> a = b.
Proof.
  split; [|intros ->; apply str_eqb_refl].
  revert b; induction a as [|x a IH]; intros [|y b]; simpl; try discriminate; auto.
  intros H. apply andb_true_iff in H as [H1 H2].
  apply N.eqb_eq in H1. apply IH in H2. now subst.
Qed.

Lemma str_eqb_neq (a b : Str) : str_eqb a b = false <-> a <> b.
Proof.
  split.
  - intros H E. apply str_eqb_eq in E. congruence.
  - intros H. destruct (str_eqb a b) eqn:E; [|reflexivity].
    apply str_eqb_eq in E. contradiction.
Qed.

Lemma stripPrefix_app (p s : Str) : stripPrefix p (p ++ s) = Some s.
Proof.
  induction p as [|x p IH]; simpl; [reflexivity|].
  now rewrite N.eqb_refl.
Qed.

Lemma stripPrefix_Some (p s r : Str) : stripPrefix p s = Some r -> s = p ++ r.
Proof.
  revert s; induction p as [|x p IH]; intros s; simpl.
  - now intros [= ->].
  - destruct s as [|y s]; [discriminate|].
    destruct (N.eqb x y) eqn:E; [|discriminate].
    apply N.eqb_eq in E. subst y. intros H. now rewrite (IH _ H).
Qed.

Lemma startsWith_app (p s : Str) : startsWith p (p ++ s) = true.
Proof. unfold startsWith. now rewrite stripPrefix_app. Qed.

Lemma span_notSlash_bucket (b p : Str) :
  Forall (fun c => c <> slash) b ->
  span notSlash (b ++ slash :: p) = (b, slash :: p).
Proof.
  induction 1 as [|c b Hc Hb IH]; simpl.
  - reflexivity.
  - unfold notSlash at 1. apply N.eqb_neq in Hc. rewrite Hc. simpl.
    now rewrite IH.
Qed.

Lemma span_notSlash_inv (s b r : Str) :
  span notSlash s = (b, r) ->
  s = b ++ r /\ Forall (fun c => c <> slash) b.
Proof.
  revert b r; induction s as [|c s IH]; simpl; intros b r.
  - intros [= <- <-]. split; [reflexivity | constructor].
  - unfold notSlash at 1. destruct (N.eqb c slash) eqn:E; simpl.
    + intros [= <- <-]. split; [reflexivity | constructor].
    + destruct (span notSlash s) as [a b'] eqn:Es. intros [= <- <-].
      destruct (IH _ _ eq_refl) as [-> Hf]. split; [reflexivity|].
      constructor; [now apply N.eqb_neq | assumption].
Qed.

Lemma forallb_dotChar (p : Str) :
  forallb dotChar p = true <-> Forall (fun c => isLineTerminator c = false) p.
Proof.
  rewrite forallb_forall, Forall_forall. unfold dotChar.
  split; intros H c Hc; specialize (H c Hc).
  - now apply negb_true_iff in H.
  - now rewrite H.
Qed.

(** The matcher computes the meaning of the regular expression, and the
    capture groups are determined by the subject. *)
Lemma matchBucketPath_spec (prefix rest b p : Str) :
  matchBucketPath rest = Some (b, p) <-> regexMatches prefix (prefix ++ rest) b p.
Proof.
  unfold matchBucketPath, regexMatches. split.
  - destruct (span notSlash rest) as [b' r] eqn:Es.
    destruct (span_notSlash_inv _ Es) as [-> Hb].
    destruct b' as [|c0 b']; [discriminate|].
    destruct r as [|c [|c1 p']]; try discriminate.
    destruct (N.eqb c slash) eqn:Ec; cbn [andb]; [|discriminate].
    destruct (forallb dotChar (c1 :: p')) eqn:Ed; [|discriminate].
    intros [= <- <-]. apply N.eqb_eq in Ec. subst c.
    repeat split; try discriminate; try assumption.
    now apply forallb_dotChar.
  - intros (E & Hb0 & Hb & Hp0 & Hp).
    apply app_inv_head in E. subst rest.
    rewrite (span_notSlash_bucket p Hb).
    destruct b as [|c0 b]; [contradiction|].
    destruct p as [|c1 p]; [contradiction|].
    rewrite N.eqb_refl. apply forallb_dotChar in Hp. now rewrite Hp.
Qed.

Lemma matchGs_spec (u b p : Str) :
  matchGs u = Some (b, p) <-> regexMatches gsPrefix u b p.
Proof.
  unfold matchGs. split.
  - destruct (stripPrefix gsPrefix u) as [rest|] eqn:E; [|discriminate].
    apply stripPrefix_Some in E. subst u. apply matchBucketPath_spec.
  - intros H. pose proof H as (E & _). rewrite E, stripPrefix_app.
    rewrite E in H. now apply (matchBucketPath_spec gsPrefix).
Qed.

Lemma matchHttps_spec (u b p : Str) :
  matchHttps u = Some (b, p) <-> regexMatches httpsPrefix u b p.
Proof.
  unfold matchHttps. split.
  - destruct (stripPrefix httpsPrefix u) as [rest|] eqn:E; [|discriminate].
    apply stripPrefix_Some in E. subst u. apply matchBucketPath_spec.
  - intros H. pose proof H as (E & _). rewrite E, stripPrefix_app.
    rewrite E in H. now apply (matchBucketPath_spec httpsPrefix).
Qed.

(** ** Reasoning about computations *)

Lemma wp_conseq {A} (m : M A) s (Q Q' : Res A -> St -> list Event -> Prop) :
  wp m s Q -> (forall r s' ev, Q r s' ev -> Q' r s' ev) -> wp m s Q'.
Proof. unfold wp. auto. Qed.

Lemma wp_ret {A} (a : A) s (Q : Res A -> St -> list Event -> Prop) :
  Q (Ok a) s [] -> wp (ret a) s Q.
Proof. exact (fun H => H). Qed.

Lemma wp_throw {A} e s (Q : Res A -> St -> list Event -> Prop) :
  Q (Throw e) s [] -> wp (throw e) s Q.
Proof. exact (fun H => H). Qed.

Lemma wp_bind {A B} (m : M A) (k : A -> M B) s
    (Q : Res B -> St -> list Event -> Prop) :
  wp m s (fun r s' ev =>
            match r with
            | Ok a => wp (k a) s' (fun r' s'' ev' => Q r' s'' (ev ++ ev'))
            | Throw e => Q (Throw e) s' ev
            end) ->
  wp (bind m k) s Q.
Proof.
  unfold wp, bind. destruct (m s) as [[a|e] s' ev]; cbn; auto.
Qed.

Lemma wp_tryCatch {A} (m : M A) (h : JsError -> M A) s
    (Q : Res A -> St -> list Event -> Prop) :
  wp m s (fun r s' ev =>
            match r with
            | Ok a => Q (Ok a) s' ev
            | Throw e => wp (h e) s' (fun r' s'' ev' => Q r' s'' (ev ++ ev'))
            end) ->
  wp (tryCatch m h) s Q.
Proof.
  unfold wp, tryCatch. destruct (m s) as [[a|e] s' ev]; cbn; auto.
Qed.

Lemma wp_emit e s (Q : Res unit -> St -> list Event -> Prop) :
  Q (Ok tt) s [e] -> wp (emit e) s Q.
Proof. exact (fun H => H). Qed.

Lemma wp_liftSum {A} (r : JsError + A) s
    (Q : Res A -> St -> list Event -> Prop) :
  (forall e, r = inl e -> Q (Throw e) s []) ->
  (forall a, r = inr a -> Q (Ok a) s []) ->
  wp (liftSum r) s Q.
Proof. destruct r; intros H1 H2; [apply H1 | apply H2]; reflexivity. Qed.

Lemma wp_liftErr (r : option JsError) s
    (Q : Res unit -> St -> list Event -> Prop) :
  (forall e, r = Some e -> Q (Throw e) s []) ->
  (r = None -> Q (Ok tt) s []) ->
  wp (liftErr r) s Q.
Proof. destruct r; intros H1 H2; [apply H1 | apply H2]; reflexivity. Qed.

Lemma sameStore_refl s : sameStore s s.
Proof. split; reflexivity. Qed.

Lemma sameStore_trans s1 s2 s3 :
  sameStore s1 s2 -> sameStore s2 s3 -> sameStore s1 s3.
Proof. intros [A B] [C D]. split; congruence. Qed.

#[local] Hint Resolve sameStore_refl : core.

(** Using the specification of a sub-computation. *)
Ltac wp_use lemma := eapply wp_conseq; [apply lemma | cbv beta].

Lemma addOps_nil s : addOps s [] = s.
Proof. destruct s. unfold addOps; cbn. now rewrite app_nil_r. Qed.

Lemma addOps_app s a b : addOps (addOps s a) b = addOps s (a ++ b).
Proof. unfold addOps; cbn. now rewrite app_assoc. Qed.

Lemma sameStore_addOps s ops : sameStore s (addOps s ops).
Proof. split; reflexivity. Qed.

Lemma onPage_app p a b : onPage p (a ++ b) = onPage p a ++ onPage p b.
Proof. apply map_app. Qed.

Lemma noImage_onPage p ops :
  forallb isTextOp ops = true -> existsb isImageOp (onPage p ops) = false.
Proof.
  induction ops as [|o ops IH]; intros H; [reflexivity|].
  cbn in H. apply andb_true_iff in H as [H1 H2].
  change (isImageOp (p, o) || existsb isImageOp (onPage p ops) = false).
  rewrite (IH H2). destruct o; [reflexivity | discriminate].
Qed.

Section Specs.

Variable W : World.

(** A [drawText] on an existing page adds its operation or throws what
    pdf-lib throws, and does nothing else. *)
Lemma drawText_spec p text x y size font s :
  wp (drawText W (Some p) text x y size font) s (fun r s' ev =>
    ev = [] /\
    match r with
    | Ok _ => drawTextError W font text = None /\
        s' = addOps s (onPage p [DrawText text x y size font black])
    | Throw e => drawTextError W font text = Some e /\ s' = s
    end).
Proof.
  unfold drawText. apply wp_bind. apply wp_liftErr.
  - intros e He. auto.
  - intros He. unfold wp, addOp; cbn. auto.
Qed.

Lemma drawText_nopage text x y size font s :
  wp (drawText W None text x y size font) s (fun r s' ev =>
    ev = [] /\ s' = s /\ exists e, r = Throw e).
Proof. apply wp_throw. eauto. Qed.

(** One [drawText] inside a sequence: either it throws and the sequence
    stops, or its operation is added and the sequence goes on. *)
Lemma wp_drawText {B} p text x y size font (k : unit -> M B) s
    (Q : Res B -> St -> list Event -> Prop) :
  (forall e, drawTextError W font text = Some e -> Q (Throw e) s []) ->
  (drawTextError W font text = None ->
   wp (k tt) (addOps s (onPage p [DrawText text x y size font black])) Q) ->
  wp (bind (drawText W (Some p) text x y size font) k) s Q.
Proof.
  intros H1 H2. apply wp_bind. wp_use drawText_spec.
  intros r s' ev [-> Hr]. destruct r as [[]|e]; destruct Hr as [Hd ->].
  - eapply wp_conseq; [apply (H2 Hd)|]. auto.
  - auto.
Qed.

Lemma drawFields_spec p font fields names y s :
  wp (drawFields W (Some p) font fields names y) s (fun r s' ev =>
    ev = [] /\
    match r with
    | Ok y' =>
        y' = (y - 25 * Z.of_nat (List.length names))%Z /\
        s' = addOps s (onPage p (fieldLines W fields font names y))
    | Throw _ =>
        exists ops, forallb isTextOp ops = true /\ s' = addOps s (onPage p ops)
    end).
Proof.
  revert y s. induction names as [|name rest IH]; intros y s.
  - apply wp_ret. split; [reflexivity|]. split; [cbn; lia|].
    now rewrite addOps_nil.
  - cbn [drawFields]. apply wp_drawText.
    { intros e He. split; [reflexivity|]. exists []. now rewrite addOps_nil. }
    intros Hl. apply wp_drawText.
    { intros e He. split; [reflexivity|]. eexists [_]. split; [|reflexivity].
      reflexivity. }
    intros Hv. rewrite addOps_app. wp_use IH.
    intros r s' ev [-> Hr]. split; [reflexivity|].
    destruct r as [y'|e].
    + destruct Hr as [-> ->]. split.
      * unfold spacing. cbn [List.length]. lia.
      * rewrite addOps_app. reflexivity.
    + destruct Hr as (ops & Hops & ->). rewrite addOps_app.
      exists (fieldLine W fields font name y ++ ops). split.
      * rewrite forallb_app, Hops. reflexivity.
      * unfold onPage. now rewrite map_app.
Qed.

Lemma readFile_spec path s :
  wp (readFile W path) s (fun r s' ev =>
    ev = [EvReadFile path] /\ s' = s /\
    r = match fsReadFile W path with inl e => Throw e | inr b => Ok b end).
Proof.
  unfold readFile. apply wp_bind, wp_emit.
  destruct (fsReadFile W path); [apply wp_throw | apply wp_ret]; auto.
Qed.

Lemma drawKeyboardSignature_spec p fields font y s :
  wp (drawKeyboardSignature W (Some p) fields font y) s (fun r s' ev =>
    let kb := keyboardSignature fields in
    if typedActive fields then
      ev = [EvReadFile (chosenFontFile W kb)] /\
      match r with
      | Ok y' =>
          y' = (y - 50)%Z /\
          (exists bytes, fsReadFile W (chosenFontFile W kb) = inr bytes) /\
          s' = addOps s (onPage p (typedBlock kb font font y))
      | Throw e =>
          exists ops, forallb isTextOp ops = true /\
            s' = addOps s (onPage p ops) /\
            (forall e0, fsReadFile W (chosenFontFile W kb) = inl e0 ->
               e = e0 /\ ops = [])
      end
    else ev = [] /\ r = Ok y /\ s' = s).
Proof.
  unfold drawKeyboardSignature, typedActive.
  destruct (truthy (optGet (keyboardSignature fields) (js "text"))) eqn:Ht;
    cbv zeta; [|apply wp_ret; auto].
  fold (chosenFontFile W (keyboardSignature fields)).
  apply wp_bind. wp_use readFile_spec. intros r s1 ev (-> & -> & ->).
  destruct (fsReadFile W (chosenFontFile W (keyboardSignature fields)))
    as [e0|bytes] eqn:Hr.
  { split; [reflexivity|]. exists []. rewrite addOps_nil.
    repeat split; auto; now inversion H. }
  apply wp_drawText.
  { intros e He. split; [reflexivity|]. exists []. rewrite addOps_nil.
    repeat split; auto; discriminate. }
  intros Hl. apply wp_drawText.
  { intros e He. split; [reflexivity|]. eexists [_].
    repeat split; auto; discriminate. }
  intros Ht'. apply wp_ret. rewrite addOps_app. split; [reflexivity|].
  split; [unfold spacing; lia|]. split; [eauto|]. reflexivity.
Qed.

Lemma signatureBytes_run signatureData s :
  signatureBytes W signatureData s =
  mkOut (result (signatureBytes W signatureData s)) s [].
Proof.
  unfold signatureBytes. destruct signatureData; try reflexivity.
  destruct (nth_error (split comma s0) 1); reflexivity.
Qed.

Lemma drawSignaturePad_spec p cfg signatureData font y s :
  wp (drawSignaturePad W (Some p) cfg signatureData font y) s (fun r s' ev =>
    ev = [] /\
    if truthy signatureData then
      match r with
      | Ok _ =>
          decodable W signatureData = true /\
          s' = addOps s (onPage p (drawnBlock W cfg signatureData font y))
      | Throw _ =>
          exists ops, forallb isTextOp ops = true /\
            s' = addOps s (onPage p ops)
      end
    else r = Ok tt /\ s' = s).
Proof.
  unfold drawSignaturePad. destruct (truthy signatureData) eqn:Hs;
    [|apply wp_ret; auto].
  apply wp_drawText.
  { intros e He. split; [reflexivity|]. exists []. now rewrite addOps_nil. }
  intros Hl. apply wp_bind. unfold wp at 1. rewrite signatureBytes_run.
  cbn [result final effects].
  assert (Hfail : exists ops, forallb isTextOp ops = true /\
            addOps s (onPage p [DrawText (VStr labelDrawn) 150 y 12 font black])
            = addOps s (onPage p ops))
    by (eexists [_]; split; [|reflexivity]; reflexivity).
  unfold signatureBytes, decodable, drawnBlock, imageBytes.
  destruct signatureData as [| |b|n|d|xs|fs];
    try (cbn [result]; split; [reflexivity | exact Hfail]).
  destruct (nth_error (split comma d) 1) as [b64|];
    [|cbn [result]; split; [reflexivity | exact Hfail]].
  cbn [result ret]. apply wp_bind. apply wp_liftErr.
  - intros e He. split; [reflexivity | exact Hfail].
  - intros He. unfold drawImage, wp, addOp. cbn [result final effects].
    rewrite He. split; [reflexivity|]. split; [reflexivity|].
    unfold addOps. cbn. rewrite <- app_assoc. reflexivity.
Qed.

Lemma header_lines cfg fields font :
  textLine (VStr (labelText cfg)) (textBlockY cfg) font
  :: fieldLines W fields font fieldOrder (textBlockY cfg - spacing)
  = blockHeader W cfg fields font.
Proof.
  unfold blockHeader, fieldOrder, spacing. cbn [fieldLines].
  replace (textBlockY cfg - 25 - 25)%Z with (textBlockY cfg - 50)%Z by lia.
  replace (textBlockY cfg - 50 - 25)%Z with (textBlockY cfg - 75)%Z by lia.
  replace (textBlockY cfg - 75 - 25)%Z with (textBlockY cfg - 100)%Z by lia.
  now rewrite app_nil_r.
Qed.

(** What a call of [addSignatureToPage] does. When it returns, the page
    exists, the block is drawn in full, the font file chosen by a typed
    signature was readable and the image of a drawn one decoded. When it
    throws, the error is the wrapped one and no image was drawn. *)
Lemma addSignatureToPage_spec pg cfg signatureData fields font s :
  wp (addSignatureToPage W pg cfg signatureData fields font) s
    (fun r s' ev =>
       let kb := keyboardSignature fields in
       (ev = [] \/ ev = [EvReadFile (chosenFontFile W kb)]) /\
       match r with
       | Ok _ =>
           (exists p, pg = Some p /\
              s' = addOps s
                     (onPage p (composedBlock W cfg signatureData fields font)))
           /\ (typedActive fields = true ->
               exists bytes, fsReadFile W (chosenFontFile W kb) = inr bytes)
           /\ (truthy signatureData = true ->
               decodable W signatureData = true)
           /\ ev = (if typedActive fields
                    then [EvReadFile (chosenFontFile W kb)] else [])
       | Throw e =>
           (exists m, e = newError (msgSignatureInsert ++ m)) /\
           exists ops, existsb isImageOp ops = false /\ s' = addOps s ops
       end).
Proof.
  unfold addSignatureToPage. cbv zeta. apply wp_tryCatch.
  assert (Hthrow : forall e s1 ev1 ops,
    (ev1 = [] \/ ev1 = [EvReadFile (chosenFontFile W (keyboardSignature fields))]) ->
    forallb isTextOp ops = true ->
    forall p, s1 = addOps s (onPage p ops) ->
    wp (throw (newError (msgSignatureInsert ++ message e))) s1
      (fun (r' : Res unit) s'' ev' =>
         (ev1 ++ ev' = [] \/
          ev1 ++ ev' = [EvReadFile (chosenFontFile W (keyboardSignature fields))])
         /\ match r' with
            | Ok _ => False
            | Throw e' =>
                (exists m, e' = newError (msgSignatureInsert ++ m)) /\
                exists ops, existsb isImageOp ops = false /\ s'' = addOps s ops
            end)).
  { intros e s1 ev1 ops Hev Hops p ->. apply wp_throw.
    rewrite app_nil_r. split; [exact Hev|]. split; [eauto|].
    exists (onPage p ops). split; [now apply noImage_onPage | reflexivity]. }
  assert (Hweak : forall e s1 ev1,
    wp (throw (newError (msgSignatureInsert ++ message e))) s1
      (fun (r' : Res unit) s'' ev' =>
         (ev1 ++ ev' = [] \/
          ev1 ++ ev' = [EvReadFile (chosenFontFile W (keyboardSignature fields))])
         /\ match r' with
            | Ok _ => False
            | Throw e' =>
                (exists m, e' = newError (msgSignatureInsert ++ m)) /\
                exists ops, existsb isImageOp ops = false /\ s'' = addOps s ops
            end) ->
    wp (throw (newError (msgSignatureInsert ++ message e))) s1
      (fun (r' : Res unit) s'' ev' =>
         (ev1 ++ ev' = [] \/
          ev1 ++ ev' = [EvReadFile (chosenFontFile W (keyboardSignature fields))])
         /\ match r' with
            | Ok _ =>
                (exists p, pg = Some p /\
                   s'' = addOps s
                     (onPage p (composedBlock W cfg signatureData fields font)))
                /\ (typedActive fields = true ->
                    exists bytes,
                      fsReadFile W (chosenFontFile W (keyboardSignature fields))
                      = inr bytes)
                /\ (truthy signatureData = true ->
                    decodable W signatureData = true)
                /\ ev1 ++ ev' =
                   (if typedActive fields
                    then [EvReadFile (chosenFontFile W (keyboardSignature fields))]
                    else [])
            | Throw e' =>
                (exists m, e' = newError (msgSignatureInsert ++ m)) /\
                exists ops, existsb isImageOp ops = false /\ s'' = addOps s ops
            end)).
  { intros e s1 ev1 H. eapply wp_conseq; [exact H|].
    intros [[]|e'] s'' ev' [H1 H2]; [contradiction | auto]. }
  destruct pg as [p|].
  2:{ apply wp_bind. wp_use drawText_nopage.
      intros r s1 ev1 (-> & -> & e & ->).
      apply Hweak, (Hthrow e s [] [] (or_introl eq_refl) eq_refl 0%nat).
      now rewrite addOps_nil. }
  apply wp_drawText.
  { intros e He. apply Hweak, (Hthrow e s [] [] (or_introl eq_refl) eq_refl p).
    now rewrite addOps_nil. }
  intros Htitle. apply wp_bind. wp_use drawFields_spec.
  intros r s1 ev1 [-> Hr]. destruct r as [y1|e].
  2:{ destruct Hr as (ops & Hops & ->). rewrite addOps_app, <- onPage_app.
      apply Hweak. eapply (Hthrow e _ [] _ (or_introl eq_refl)); [|reflexivity].
      cbn [app forallb isTextOp andb]. exact Hops. }
  destruct Hr as [-> ->]. rewrite addOps_app, <- onPage_app.
  cbn [app].
  change (DrawText (VStr (labelText cfg)) 150 (textBlockY cfg) 12 font black)
    with (textLine (VStr (labelText cfg)) (textBlockY cfg) font).
  rewrite header_lines.
  apply wp_bind. wp_use drawKeyboardSignature_spec.
  intros r s1 ev1. cbv zeta.
  assert (Hhead : forallb isTextOp (blockHeader W cfg fields font) = true)
    by reflexivity.
  unfold composedBlock. destruct (typedActive fields) eqn:Hty.
  - intros [-> Hr]. destruct r as [y2|e].
    2:{ destruct Hr as (ops & Hops & -> & _). rewrite addOps_app, <- onPage_app.
        apply Hweak. eapply (Hthrow e _ _ _ (or_intror eq_refl)); [|reflexivity].
        now rewrite forallb_app, Hhead, Hops. }
    destruct Hr as (-> & Hread & ->). rewrite addOps_app, <- onPage_app.
    wp_use drawSignaturePad_spec. intros r s2 ev2 [-> Hr].
    destruct (truthy signatureData) eqn:Hsd.
    + destruct r as [[]|e].
      * destruct Hr as [Hdec ->]. rewrite addOps_app, <- onPage_app.
        split; [now right|]. split.
        { exists p. split; [reflexivity|]. rewrite <- app_assoc.
          unfold spacing.
          replace (textBlockY cfg - 25 - 25 * Z.of_nat (List.length fieldOrder) - 50)%Z
            with (textBlockY cfg - 175)%Z by (cbn; lia).
          replace (textBlockY cfg - 25 - 25 * Z.of_nat (List.length fieldOrder))%Z
            with (textBlockY cfg - 125)%Z by (cbn; lia).
          reflexivity. }
        auto.
      * destruct Hr as (ops & Hops & ->). rewrite addOps_app, <- onPage_app.
        apply Hweak. eapply (Hthrow e _ _ _ (or_intror eq_refl)); [|reflexivity].
        now rewrite !forallb_app, Hhead, Hops.
    + destruct Hr as [-> ->]. split; [now right|]. split.
      { exists p. split; [reflexivity|]. rewrite app_nil_r. unfold spacing.
        replace (textBlockY cfg - 25 - 25 * Z.of_nat (List.length fieldOrder))%Z
          with (textBlockY cfg - 125)%Z by (cbn; lia).
        reflexivity. }
      split; [auto|]. split; [discriminate | reflexivity].
  - intros (-> & -> & ->).
    wp_use drawSignaturePad_spec. intros r s2 ev2 [-> Hr].
    destruct (truthy signatureData) eqn:Hsd.
    + destruct r as [[]|e].
      * destruct Hr as [Hdec ->]. rewrite addOps_app, <- onPage_app.
        split; [now left|]. split.
        { exists p. split; [reflexivity|]. unfold spacing. cbn [app].
          replace (textBlockY cfg - 25 - 25 * Z.of_nat (List.length fieldOrder))%Z
            with (textBlockY cfg - 125)%Z by (cbn; lia).
          reflexivity. }
        split; [discriminate|]. auto.
      * destruct Hr as (ops & Hops & ->). rewrite addOps_app, <- onPage_app.
        apply Hweak. eapply (Hthrow e _ [] _ (or_introl eq_refl)); [|reflexivity].
        now rewrite !forallb_app, Hhead, Hops.
    + destruct Hr as [-> ->]. split; [now left|]. split.
      { exists p. split; [reflexivity|]. now rewrite !app_nil_r. }
      split; [discriminate|]. split; [discriminate | reflexivity].
Qed.

End Specs.

(** ** The blob location codec *)

Lemma matchGs_None (u : Str) :
  matchGs u = None -> forall b p, ~ regexMatches gsPrefix u b p.
Proof. intros H b p Hm. apply matchGs_spec in Hm. congruence. Qed.

Lemma matchHttps_None (u : Str) :
  matchHttps u = None -> forall b p, ~ regexMatches httpsPrefix u b p.
Proof. intros H b p Hm. apply matchHttps_spec in Hm. congruence. Qed.

Lemma startsWith_false_no_match (prefix u b p : Str) :
  startsWith prefix u = false -> ~ regexMatches prefix u b p.
Proof.
  intros H (E & _). rewrite E, startsWith_app in H. discriminate.
Qed.

Lemma matchGs_startsWith (u : Str) bp :
  matchGs u = Some bp -> startsWith gsPrefix u = true.
Proof.
  unfold matchGs, startsWith. now destruct (stripPrefix gsPrefix u).
Qed.

Lemma matchHttps_startsWith (u : Str) bp :
  matchHttps u = Some bp -> startsWith httpsPrefix u = true.
Proof.
  unfold matchHttps, startsWith. now destruct (stripPrefix httpsPrefix u).
Qed.

(** Parsing has no effect but the warning of line 652, and leaves the
    state alone. *)
Lemma parseLocation_spec W u s :
  wp (parseLocation W u) s (fun r s' ev =>
    s' = s /\
    match r with
    | Ok (b, p) =>
        ev = [] /\ locationParts u = Some (b, p) /\
        (startsWith gsPrefix u = false -> b = BUCKET_NAME W)
    | Throw e =>
        match locationParts u with
        | Some (b, p) =>
            startsWith gsPrefix u = false /\ b <> BUCKET_NAME W /\
            e = newError msgInvalidBucketPublic /\
            ev = [EvConsole LWarn
                    (js "Attempted download from unexpected bucket via public URL: "
                       ++ b) None]
        | None =>
            ev = [] /\
            (e = newError (msgInvalidGsUri u)
             \/ e = newError (msgInvalidPublicUrl u)
             \/ e = newError (msgUnsupportedFormat u))
        end
    end).
Proof.
  unfold parseLocation, locationParts.
  destruct (startsWith gsPrefix u) eqn:Hg.
  - destruct (matchGs u) as [[b p]|] eqn:Hm.
    + apply wp_ret. repeat split; auto. discriminate.
    + apply wp_throw. auto.
  - destruct (startsWith httpsPrefix u) eqn:Hh.
    + destruct (matchHttps u) as [[b p]|] eqn:Hm.
      * destruct (str_eqb b (BUCKET_NAME W)) eqn:Hb; cbn [negb].
        -- apply wp_ret. apply str_eqb_eq in Hb. auto.
        -- apply wp_bind, wp_emit, wp_throw. apply str_eqb_neq in Hb. auto.
      * apply wp_throw. auto.
    + apply wp_throw. auto 6.
Qed.

(** The storage backend is asked for the object of the configured bucket
    only; the computation changes no state. *)
Lemma downloadBody_spec W v s :
  wp (downloadBody W v) s (fun r s' ev =>
    s' = s /\
    (existsb isDownload ev = true ->
     exists u p, v = VStr u /\ locationParts u = Some (BUCKET_NAME W, p) /\
       In (EvGcsDownload (BUCKET_NAME W) p) ev) /\
    forallb (fun e => isLocal e || isDownload e) ev = true).
Proof.
  unfold downloadBody. destruct v as [| |b|n|u|xs|fs];
    try (apply wp_throw; repeat split; auto; discriminate).
  apply wp_bind. wp_use parseLocation_spec.
  intros r s1 ev1 [-> Hr]. destruct r as [[b p]|e].
  - destruct Hr as (-> & Hl & _).
    destruct (str_eqb b (BUCKET_NAME W)) eqn:Hb; cbn [negb].
    + apply str_eqb_eq in Hb. subst b.
      apply wp_bind, wp_emit. apply wp_bind, wp_liftSum.
      * intros e He. cbn. repeat split; eauto 6.
      * intros a Ha. apply wp_bind, wp_emit, wp_ret. cbn. repeat split; eauto 6.
    + apply wp_bind, wp_emit, wp_throw. cbn. repeat split; auto; discriminate.
  - destruct (locationParts u) as [[b p]|].
    + destruct Hr as (_ & _ & _ & ->). cbn. repeat split; auto; discriminate.
    + destruct Hr as [-> _]. cbn. repeat split; auto; discriminate.
Qed.

Lemma downloadCatch_spec v e s :
  wp (downloadCatch v e) s (fun r s' ev =>
    s' = s /\ (exists e', r = Throw e') /\ forallb isLocal ev = true /\
    existsb isDownload ev = false).
Proof.
  unfold downloadCatch. apply wp_bind, wp_emit.
  destruct (_ || _); [|destruct (_ || _)]; apply wp_throw; cbn; eauto.
Qed.

Lemma downloadPdfFromGcs_spec W v s :
  wp (downloadPdfFromGcs W v) s (fun r s' ev =>
    s' = s /\ forallb (fun e => isLocal e || isDownload e) ev = true).
Proof.
  unfold downloadPdfFromGcs. apply wp_tryCatch. wp_use downloadBody_spec.
  intros r s1 ev1 (-> & _ & Hev). destruct r as [a|e]; [auto|].
  wp_use downloadCatch_spec. intros r s2 ev2 (-> & _ & Hl & _).
  split; [reflexivity|]. rewrite forallb_app, Hev. cbn.
  rewrite forallb_forall in *. intros x Hx. now rewrite (Hl x Hx).
Qed.

(** ** The handlers *)

Lemma forallb_weaken {A} (P Q : A -> bool) (l : list A) :
  (forall x, P x = true -> Q x = true) ->
  forallb P l = true -> forallb Q l = true.
Proof.
  intros H. rewrite !forallb_forall. auto.
Qed.

Lemma existsb_false_forallb {A} (P : A -> bool) (l : list A) :
  existsb P l = false <-> forallb (fun x => negb (P x)) l = true.
Proof.
  induction l as [|x l IH]; cbn; [tauto|].
  rewrite orb_false_iff, andb_true_iff, negb_true_iff. tauto.
Qed.

Lemma wp_self {A} (m : M A) s :
  wp m s (fun r s' ev =>
    r = result (m s) /\ s' = final (m s) /\ ev = effects (m s)).
Proof. unfold wp. auto. Qed.

Lemma wp_and {A} (m : M A) s (Q1 Q2 : Res A -> St -> list Event -> Prop) :
  wp m s Q1 -> wp m s Q2 -> wp m s (fun r s' ev => Q1 r s' ev /\ Q2 r s' ev).
Proof. unfold wp. auto. Qed.

Section HandlerSpecs.

Variable W : World.

Lemma loadPdf_spec bytes s :
  wp (loadPdf W bytes) s (fun r s' ev =>
    ev = [] /\
    match r with
    | Ok n => pdfLoad W bytes = inr n /\ s' = mkSt (pdfStore s) (storeFile s) []
    | Throw e => pdfLoad W bytes = inl e /\ s' = s
    end).
Proof.
  unfold loadPdf. apply wp_bind, wp_liftSum.
  - intros e He. auto.
  - intros n Hn. apply wp_bind. unfold wp at 1, newDoc. cbn [result final effects].
    apply wp_ret. auto.
Qed.

Lemma embedHelvetica_spec s :
  wp (embedHelvetica W) s (fun r s' ev =>
    ev = [] /\ s' = s /\
    match r with
    | Ok f => f = Helvetica /\ embedStandardFont W = None
    | Throw e => embedStandardFont W = Some e
    end).
Proof.
  unfold embedHelvetica. apply wp_bind, wp_liftErr.
  - intros e He. auto.
  - intros He. apply wp_ret. auto.
Qed.

Lemma savePdf_spec bytes s :
  wp (savePdf W bytes) s (fun r s' ev => ev = [] /\ s' = s).
Proof.
  unfold savePdf. apply wp_bind. unfold wp at 1, getDoc.
  cbn [result final effects]. apply wp_liftSum; auto.
Qed.

(** A block that is tried either is composed in full or gives the 500
    response that names the block; nothing leaves the process but the read
    of a font file and the log. *)
Lemma tryBlock_spec b signatureData fields n font s :
  wp (tryBlock W b signatureData fields n font) s (fun r s' ev =>
    forallb isLocal ev = true /\
    match r with
    | Ok None =>
        (exists p, pageAt n (page (blockConfig W b)) = Some p /\
           s' = addOps s
                  (onPage p
                     (composedBlock W (blockConfig W b) signatureData
                        fields font)))
        /\ (typedActive fields = true ->
            exists bytes,
              fsReadFile W (chosenFontFile W (keyboardSignature fields))
              = inr bytes)
        /\ (truthy signatureData = true -> decodable W signatureData = true)
    | Ok (Some response) =>
        (exists m,
           response = jsonError 500 (blockMessage b ++ msgSignatureInsert ++ m))
        /\ exists ops, existsb isImageOp ops = false /\ s' = addOps s ops
    | Throw _ => False
    end).
Proof.
  unfold tryBlock. apply wp_tryCatch, wp_bind.
  wp_use addSignatureToPage_spec. cbv zeta.
  intros r s1 ev1 [Hev Hr].
  assert (Hl : forallb isLocal ev1 = true)
    by (destruct Hev as [-> | ->]; reflexivity).
  destruct r as [[]|e].
  - apply wp_ret. rewrite app_nil_r. split; [exact Hl|].
    destruct Hr as (H1 & H2 & H3 & _). auto.
  - destruct Hr as [[m ->] Hops]. apply wp_bind, wp_emit, wp_ret.
    split.
    + rewrite forallb_app, Hl. reflexivity.
    + split; [|exact Hops]. exists m. reflexivity.
Qed.

Lemma storePdfInBucket_spec bytes dest s :
  wp (storePdfInBucket W bytes dest) s (fun r s' ev =>
    s' = s /\
    forallb (fun e => isLocal e || isUpload e || isMakePublic e) ev = true /\
    match r with
    | Ok u =>
        u = formatLocation (BUCKET_NAME W) dest (MAKE_PUBLIC W) /\
        In (EvGcsSave (BUCKET_NAME W) dest bytes) ev
    | Throw e => e = newError (msgUploadFailed W)
    end).
Proof.
  unfold storePdfInBucket. apply wp_tryCatch, wp_bind, wp_emit.
  apply wp_bind, wp_liftErr.
  { intros e He. apply wp_bind, wp_emit, wp_throw. cbn. auto. }
  intros Hs. apply wp_bind, wp_emit.
  destruct (MAKE_PUBLIC W).
  - apply wp_bind, wp_emit. apply wp_bind, wp_liftErr.
    { intros e He. apply wp_bind, wp_emit, wp_throw. cbn. auto. }
    intros Hp. apply wp_bind, wp_emit, wp_ret. cbn. auto.
  - apply wp_ret. cbn. auto.
Qed.

(** The webhook is fire-and-forget: it never throws, and whatever it posts
    is [payload], to the fixed address. *)
Lemma sendWebhook_spec payload check s :
  wp (sendWebhook W payload check) s (fun r s' ev =>
    r = Ok tt /\ s' = s /\
    forallb (fun e => isLocal e || isFetch e) ev = true /\
    (forall url pl, In (EvFetch url pl) ev ->
       url = WEBHOOK_URL /\ pl = payload) /\
    (fetchImport W = None -> In (EvFetch WEBHOOK_URL payload) ev)).
Proof.
  assert (Hin : forall tail,
    (forall url pl, ~ In (EvFetch url pl) tail) ->
    forall url pl, In (EvFetch url pl) (EvFetch WEBHOOK_URL payload :: tail) ->
    url = WEBHOOK_URL /\ pl = payload).
  { intros tail Ht url pl [H|H]; [now inversion H | now apply Ht in H]. }
  unfold sendWebhook. apply wp_tryCatch, wp_bind, wp_liftErr.
  { intros e He. apply wp_emit. cbn [app].
    split; [reflexivity|]. split; [reflexivity|]. split; [reflexivity|].
    split; [|congruence]. intros url pl [H|[]]. discriminate. }
  intros Hi. apply wp_bind, wp_emit. apply wp_bind, wp_liftSum.
  { intros e He. apply wp_emit. cbn [app].
    split; [reflexivity|]. split; [reflexivity|]. split; [reflexivity|].
    split; [|intros _; now left]. apply Hin. intros url pl [H|[]]. discriminate. }
  intros a Ha.
  destruct (check && negb (ok a)); [apply wp_emit | apply wp_ret]; cbn [app];
    (split; [reflexivity|]); (split; [reflexivity|]); (split; [reflexivity|]);
    (split; [|intros _; now left]); apply Hin.
  - intros url pl [H|[]]. discriminate.
  - intros url pl [].
Qed.

End HandlerSpecs.

Lemma existsb_none {A} (P Q : A -> bool) (l : list A) :
  (forall x, P x = true -> Q x = false) ->
  forallb P l = true -> existsb Q l = false.
Proof.
  intros H Hl. apply existsb_false_forallb.
  revert Hl. apply forallb_weaken. intros x Hx. now rewrite (H x Hx).
Qed.

Lemma existsb_app_false {A} (P : A -> bool) (l1 l2 : list A) :
  existsb P l1 = false -> existsb P l2 = false ->
  existsb P (l1 ++ l2) = false.
Proof. intros H1 H2. now rewrite existsb_app, H1, H2. Qed.

Lemma not_In_of_existsb {A} (P : A -> bool) (l : list A) (x : A) :
  existsb P l = false -> P x = true -> ~ In x l.
Proof.
  intros H Hx Hin. assert (existsb P l = true) by (apply existsb_exists; eauto).
  congruence.
Qed.

Lemma local_none (Q : Event -> bool) (l : list Event) :
  (forall x, isLocal x = true -> Q x = false) ->
  forallb isLocal l = true -> existsb Q l = false.
Proof. apply existsb_none. Qed.

Ltac conj := repeat match goal with |- _ /\ _ => split end.

Ltac event_class :=
  let x := fresh "x" in
  intros x; destruct x; cbn; intros; congruence.

Section SignSpecs.

Variable W : World.

Lemma signFinish_spec req pdfData bytes s :
  wp (signFinish W req pdfData bytes) s (fun r s' ev =>
    s' = s /\
    existsb isWriteFile ev = false /\ existsb isDownload ev = false /\
    (forall url pl, In (EvFetch url pl) ev ->
       url = WEBHOOK_URL /\
       pl = signWebhookPayload W req pdfData (signedLocation W req)) /\
    match r with
    | Ok response =>
        response = jsonOk (VObj [(js "pdfUrl", VStr (signedLocation W req))]) /\
        (exists signedBytes,
           In (EvGcsSave (BUCKET_NAME W) (signedName req) signedBytes) ev) /\
        (fetchImport W = None ->
         In (EvFetch WEBHOOK_URL
               (signWebhookPayload W req pdfData (signedLocation W req))) ev)
    | Throw _ => True
    end).
Proof.
  unfold signFinish. apply wp_bind. wp_use savePdf_spec.
  intros r s1 ev1 [-> ->]. destruct r as [signedBytes|e].
  2:{ cbn. conj; auto. intros url pl []. }
  cbv zeta. fold (signedName req). apply wp_bind.
  wp_use storePdfInBucket_spec. intros r s1 ev1 (-> & Hev & Hr).
  assert (Hw : existsb isWriteFile ev1 = false)
    by (revert Hev; apply existsb_none; event_class).
  assert (Hd : existsb isDownload ev1 = false)
    by (revert Hev; apply existsb_none; event_class).
  assert (Hf : existsb isFetch ev1 = false)
    by (revert Hev; apply existsb_none; event_class).
  destruct r as [u|e].
  2:{ cbn [app]. conj; auto.
      intros url pl H. exfalso. revert H.
      now apply (not_In_of_existsb _ _ _ Hf). }
  destruct Hr as [-> Hsave]. fold (signedLocation W req).
  apply wp_bind. wp_use sendWebhook_spec.
  intros r s1 ev2 (-> & -> & Hev2 & Hfetch & Hsent).
  apply wp_ret. rewrite app_nil_r, (app_nil_l (ev1 ++ ev2)).
  split; [reflexivity|]. split.
  { apply existsb_app_false; [exact Hw|].
    revert Hev2. apply existsb_none. event_class. }
  split.
  { apply existsb_app_false; [exact Hd|].
    revert Hev2. apply existsb_none. event_class. }
  split.
  { intros url pl Hin. apply in_app_or in Hin as [Hin|Hin].
    - exfalso. revert Hin. now apply (not_In_of_existsb _ _ _ Hf).
    - now apply Hfetch. }
  split; [reflexivity|]. split.
  - exists signedBytes. apply in_or_app. now left.
  - intros Hi. apply in_or_app. right. now apply Hsent.
Qed.

Lemma composeOutcome_prefix req pdfData s s1 r s' ev1 ev :
  sameStore s s1 -> forallb isLocal ev1 = true ->
  composeOutcome W req pdfData s1 r s' ev ->
  composeOutcome W req pdfData s r s' (ev1 ++ ev).
Proof.
  intros Hs Hl (H1 & H2 & H3 & H4 & H5).
  assert (Hw := local_none isWriteFile ev1 ltac:(event_class) Hl).
  assert (Hd := local_none isDownload ev1 ltac:(event_class) Hl).
  assert (Hf := local_none isFetch ev1 ltac:(event_class) Hl).
  assert (Hu := local_none isUpload ev1 ltac:(event_class) Hl).
  unfold composeOutcome. conj.
  - eapply sameStore_trans; eassumption.
  - now apply existsb_app_false.
  - now apply existsb_app_false.
  - intros url pl Hin. apply in_app_or in Hin as [Hin|Hin]; [|now apply H4].
    exfalso. revert Hin. now apply (not_In_of_existsb _ _ _ Hf).
  - destruct r as [response|e]; [|exact I].
    destruct H5 as [[Hm Hup]|(Hr & [sb Hsb] & Hfe)].
    + left. split; [exact Hm | now apply existsb_app_false].
    + right. conj; [exact Hr | |].
      * exists sb. apply in_or_app. now right.
      * intros Hi. apply in_or_app. right. now apply Hfe.
Qed.

Lemma composeOutcome_failed req pdfData s s' msg ev :
  sameStore s s' -> forallb isLocal ev = true ->
  composeOutcome W req pdfData s (Ok (jsonError 500 msg)) s' ev.
Proof.
  intros Hs Hl. unfold composeOutcome. conj; auto.
  - revert Hl. apply local_none. event_class.
  - revert Hl. apply local_none. event_class.
  - intros url pl Hin. exfalso. revert Hin.
    apply (not_In_of_existsb isFetch); [|reflexivity].
    revert Hl. apply local_none. event_class.
  - left. split; [eauto|]. revert Hl. apply local_none. event_class.
Qed.

Lemma signFinish_outcome req pdfData bytes s :
  wp (signFinish W req pdfData bytes) s (composeOutcome W req pdfData s).
Proof.
  wp_use signFinish_spec. intros r s' ev (-> & Hw & Hd & Hf & Hr).
  unfold composeOutcome. conj; auto.
  destruct r as [response|e]; [|exact I]. now right.
Qed.

Lemma signCompose_spec req pdfData bytes n font s :
  wp (signCompose W req pdfData bytes n font) s (composeOutcome W req pdfData s).
Proof.
  unfold signCompose, signBlock. apply wp_bind. wp_use tryBlock_spec.
  intros r s1 ev1 [Hl Hr]. destruct r as [[response|]|e]; [| |contradiction].
  { destruct Hr as [[m ->] (ops & _ & ->)]. apply wp_ret. rewrite app_nil_r.
    apply composeOutcome_failed; [apply sameStore_addOps | exact Hl]. }
  destruct Hr as [(p & _ & ->) _].
  match goal with |- wp _ ?s1 _ =>
    apply (@wp_conseq _ _ _ (composeOutcome W req pdfData s1));
      [|intros r s' ev H; eapply composeOutcome_prefix;
          [apply sameStore_addOps | exact Hl | exact H]]
  end.
  apply wp_bind.
  destruct (truthy (withdrawalAccepted req)).
  - wp_use tryBlock_spec. intros r s2 ev2 [Hl2 Hr].
    destruct r as [[response|]|e]; [| |contradiction].
    { destruct Hr as [[m ->] (ops & _ & ->)]. apply wp_ret. rewrite app_nil_r.
      apply composeOutcome_failed; [apply sameStore_addOps | exact Hl2]. }
    destruct Hr as [(p2 & _ & ->) _].
    match goal with |- wp _ ?s2 _ =>
      apply (@wp_conseq _ _ _ (composeOutcome W req pdfData s2));
        [|intros r s' ev H; eapply composeOutcome_prefix;
            [apply sameStore_addOps | exact Hl2 | exact H]]
    end.
    apply signFinish_outcome.
  - apply wp_ret. cbn [app]. apply signFinish_outcome.
Qed.



End SignSpecs.

Lemma pageAt_Some n i p : pageAt n i = Some p -> p = i.
Proof.
  unfold pageAt. destruct (Nat.ltb i n); [now intros [= <-] | discriminate].
Qed.

Lemma signFinish_uploads W req pdfData bytes s :
  wp (signFinish W req pdfData bytes) s (fun r s' ev =>
    s' = s /\
    forall response, r = Ok response ->
      exists signed,
        pdfSave W bytes (doc s) = inr signed /\
        In (EvGcsSave (BUCKET_NAME W) (signedName req) signed) ev).
Proof.
  unfold signFinish, savePdf. apply wp_bind, wp_bind.
  unfold wp at 1, getDoc. cbn [result final effects].
  apply wp_liftSum.
  { intros e He. split; [reflexivity | discriminate]. }
  intros signed Hsigned. cbv zeta. fold (signedName req).
  apply wp_bind. wp_use storePdfInBucket_spec.
  intros r s1 ev1 (-> & _ & Hr). destruct r as [u|e].
  2:{ split; [reflexivity | discriminate]. }
  destruct Hr as [_ Hin].
  apply wp_bind. wp_use sendWebhook_spec. intros r s1 ev2 (-> & -> & _).
  apply wp_ret. split; [reflexivity|]. intros response _.
  exists signed. split; [exact Hsigned|].
  cbn [app]. apply in_or_app. now left.
Qed.

(** An exception on the way to an answer that is not the 500 of the
    handler's [catch]. *)
Ltac caught :=
  cbv beta iota; apply wp_bind, wp_emit, wp_ret;
  let H := fresh in intros H; inversion H.

(** What a successful [/api/sign] has produced: the document that was
    fetched, the blocks on it and the upload. *)
Lemma apiSign_produced
    (W : World) (req : RequestBody) (s : St) (u : Str) :
  let o := apiSign W req s in
  let stored := optGet (storeGet (pdfStore s) (pdfId req)) (js "pdfUrl") in
  let block b :=
    composedBlock W (blockConfig W b) (signSignatureData req b)
      (signFields W req b) Helvetica in
  result o = Ok (jsonOk (VObj [(js "pdfUrl", VStr u)])) ->
  exists original n pc,
    result (downloadPdfFromGcs W stored s) = Ok original /\
    pdfLoad W original = inr n /\
    pageAt n (page (blockConfig W Contract)) = Some pc /\
    (truthy (withdrawalAccepted req) = false ->
     doc (final o) = onPage pc (block Contract)) /\
    (truthy (withdrawalAccepted req) = true ->
     exists pw,
       pageAt n (page (blockConfig W Withdrawal)) = Some pw /\
       doc (final o)
       = onPage pc (block Contract) ++ onPage pw (block Withdrawal)) /\
    exists signed,
      pdfSave W original (doc (final o)) = inr signed /\
      In (EvGcsSave (BUCKET_NAME W) (signedName req) signed) (effects o).
Proof.
  intros o stored block. subst o.
  change (wp (apiSign W req) s (fun r s' ev =>
    r = Ok (jsonOk (VObj [(js "pdfUrl", VStr u)])) ->
    exists original n pc,
      result (downloadPdfFromGcs W stored s) = Ok original /\
      pdfLoad W original = inr n /\
      pageAt n (page (blockConfig W Contract)) = Some pc /\
      (truthy (withdrawalAccepted req) = false ->
       doc s' = onPage pc (block Contract)) /\
      (truthy (withdrawalAccepted req) = true ->
       exists pw,
         pageAt n (page (blockConfig W Withdrawal)) = Some pw /\
         doc s' = onPage pc (block Contract) ++ onPage pw (block Withdrawal)) /\
      exists signed,
        pdfSave W original (doc s') = inr signed /\
        In (EvGcsSave (BUCKET_NAME W) (signedName req) signed) ev)).
  unfold apiSign. apply wp_tryCatch.
  destruct (negb (truthy (fullName req)) || negb (truthy (location req))
            || negb (truthy (email req))).
  { apply wp_ret. intros H. inversion H. }
  destruct (negb (truthy (pdfId req))).
  { apply wp_ret. intros H. inversion H. }
  apply wp_bind. unfold wp at 1, getStore. cbn [result final effects].
  cbv zeta.
  destruct (negb (truthy (storeGet (pdfStore s) (pdfId req)))).
  { apply wp_ret. intros H. inversion H. }
  fold stored. destruct (negb (truthy stored)).
  { apply wp_bind, wp_emit, wp_ret. intros H. inversion H. }
  cbn [app]. apply wp_bind.
  eapply wp_conseq;
    [apply wp_and; [apply wp_self | apply downloadPdfFromGcs_spec]|].
  cbv beta. intros r s1 ev1 [(-> & _ & _) [-> _]].
  destruct (result (downloadPdfFromGcs W stored s)) as [original|e] eqn:Hdl;
    [|caught].
  apply wp_bind. wp_use loadPdf_spec. intros r s1 ev2 [-> Hr].
  destruct r as [n|e]; [|caught].
  destruct Hr as [Hload ->].
  apply wp_bind. wp_use embedHelvetica_spec. intros r s1 ev2 (-> & -> & Hr).
  destruct r as [font|e]; [|caught].
  destruct Hr as [-> _]. cbn [app].
  unfold signCompose, signBlock. apply wp_bind. wp_use tryBlock_spec.
  intros r s1 ev2 [_ Hr].
  destruct r as [[response|]|e]; [| |contradiction].
  { destruct Hr as [[m ->] _]. apply wp_ret. intros H. inversion H. }
  destruct Hr as [(pc & Hpc & ->) _]. apply wp_bind.
  destruct (truthy (withdrawalAccepted req)) eqn:Hwa.
  - wp_use tryBlock_spec. intros r s2 ev3 [_ Hr].
    destruct r as [[response|]|e]; [| |contradiction].
    { destruct Hr as [[m ->] _]. apply wp_ret. intros H. inversion H. }
    destruct Hr as [(pw & Hpw & ->) _].
    wp_use signFinish_uploads. intros r s3 ev4 [-> Hup].
    destruct r as [response|e]; [|caught].
    intros _. destruct (Hup response eq_refl) as (signed & Hs & Hin).
    exists original, n, pc. conj; [reflexivity | exact Hload | exact Hpc | | |].
    + discriminate.
    + intros _. exists pw. split; [exact Hpw | reflexivity].
    + exists signed. split; [exact Hs|].
      apply in_or_app. right. apply in_or_app. right.
      apply in_or_app. now right.
  - apply wp_ret.
    wp_use signFinish_uploads. intros r s3 ev4 [-> Hup].
    destruct r as [response|e]; [|caught].
    intros _. destruct (Hup response eq_refl) as (signed & Hs & Hin).
    exists original, n, pc. conj; [reflexivity | exact Hload | exact Hpc | | |].
    + intros _. reflexivity.
    + discriminate.
    + exists signed. split; [exact Hs|].
      apply in_or_app. right. apply in_or_app. right. exact Hin.
Qed.

(** ** The handlers at work *)

(** Jane Doe signs document [doc-1] with a drawn signature: the document
    is fetched from the configured bucket, the contract block is drawn on
    page 9, the signed document is stored and announced. *)
Example sign_with_drawn_signature :
  let req := Sample.request Sample.png VUndefined VUndefined VUndefined
               VUndefined in
  let o := apiSign Sample.world req Sample.state in
  result o
  = Ok (jsonOk (VObj [(js "pdfUrl",
                       VStr (js "gs://good/signed/signed_doc-1.pdf"))])) /\
  doc (final o)
  = onPage 9
      (composedBlock Sample.world (pdfConfig.contractSignature Sample.config)
         Sample.png (Sample.fields VUndefined) Helvetica) /\
  map isDownload (effects o) = [true; false; false; false; false] /\
  map isUpload (effects o) = [false; false; true; false; false] /\
  map isFetch (effects o) = [false; false; false; false; true].
Proof.
  cbv zeta. conj; vm_compute; reflexivity.
Qed.

(** The three early answers of [/api/sign]: a missing field, the test mode
    without a document id, an unknown document id. *)
Example sign_early_answers :
  let answer req := result (apiSign Sample.world req Sample.state) in
  let req := Sample.request Sample.png VUndefined VUndefined VUndefined
               VUndefined in
  answer (mkRequestBody (VStr []) (location req) (email req) (signature req)
            VUndefined VUndefined (pdfId req) VUndefined VUndefined
            VUndefined VUndefined VUndefined)
  = Ok (jsonError 400 msgAllFields) /\
  statusCode
    (match answer (mkRequestBody (fullName req) (location req) (email req)
                     (signature req) VUndefined VUndefined VUndefined
                     VUndefined VUndefined VUndefined VUndefined VUndefined)
     with Ok r => r | Throw _ => jsonError 0 [] end) = 200%Z /\
  answer (mkRequestBody (fullName req) (location req) (email req)
            (signature req) VUndefined VUndefined (VStr (js "doc-2"))
            VUndefined VUndefined VUndefined VUndefined VUndefined)
  = Ok (jsonError 404 msgPdfNotFound) /\
  answer (mkRequestBody (fullName req) (location req) (email req)
            (signature req) VUndefined VUndefined (VStr (js "constructor"))
            VUndefined VUndefined VUndefined VUndefined VUndefined)
  = Ok (jsonError 500 msgNoLocation).
Proof.
  cbv zeta. conj; vm_compute; reflexivity.
Qed.

(** The conditions of the round trip are needed: a path with a line break
    and a bucket with a slash do not come back. *)
Example format_with_breaking_characters :
  let parsed u := result (parseLocation Sample.world u Sample.state) in
  parsed (formatLocation (js "good") (js "a" ++ [10%N] ++ js "b") false)
  = Throw (newError
             (msgInvalidGsUri (js "gs://good/a" ++ [10%N] ++ js "b"))) /\
  parsed (formatLocation (js "go/od") (js "a.pdf") false)
  = Ok (js "go", js "od/a.pdf").
Proof.
  cbv zeta. conj; vm_compute; reflexivity.
Qed.

(** The [catch] block of [downloadPdfFromGcs] looks for "Not Found" in the
    text of the error, and the untrusted-bucket error quotes the bucket of
    the location: such a bucket is reported as a missing document. *)
Example untrusted_bucket_reported_as_not_found :
  result (downloadPdfFromGcs Sample.world (VStr (js "gs://Not Found/a.pdf"))
            Sample.state)
  = Throw (newError (msgNotFound (js "gs://Not Found/a.pdf"))).
Proof. vm_compute. reflexivity. Qed.

(* ================================================================== *)
(** * The claims of the specification *)
(* ================================================================== *)

(** C1 (as amended). For every location whose parsed bucket differs from
    the configured bucket, [downloadPdfFromGcs] throws, changes no state
    and never calls the storage backend. The untrusted-bucket error is
    raised inside the function and logged, but it is not what the caller
    receives: the [catch] block replaces it, and when its text matches none
    of the two patterns the block looks for, the caller receives the
    general "Failed to download PDF from GCS" error. *)
Theorem C1_untrusted_bucket_never_downloaded
    (W : World) (u b p : Str) (s : St) :
  locationParts u = Some (b, p) ->
  b <> BUCKET_NAME W ->
  let o := downloadPdfFromGcs W (VStr u) s in
  (exists e, result o = Throw e) /\
  final o = s /\
  existsb isDownload (effects o) = false /\
  (exists text,
     In (EvConsole LError text (Some (untrustedBucketError W u b)))
        (effects o)) /\
  (mentionsGcsFailure (message (untrustedBucketError W u b)) = false ->
   result o = Throw (newError (msgDownloadFailed u))).
Proof.
  intros Hparts Hb o. subst o.
  apply str_eqb_neq in Hb.
  unfold mentionsGcsFailure, untrustedBucketError.
  unfold downloadPdfFromGcs, tryCatch, downloadBody, bind, parseLocation.
  unfold locationParts in Hparts.
  destruct (startsWith gsPrefix u) eqn:Hg.
  - rewrite Hparts. cbn [ret result final effects]. rewrite Hb.
    cbn [negb result final effects console emit throw app].
    unfold downloadCatch, bind, codeIs. cbn [console emit result final effects
      newError code message orb toStr throw app].
    destruct (includes (js "Not Found") (msgUntrustedBucket W b)) eqn:H1;
      [|destruct (includes (js "does not have storage.objects.get access")
                   (msgUntrustedBucket W b)) eqn:H2];
      cbn [result final effects app existsb isDownload orb];
      (conj; [eexists; reflexivity | reflexivity | reflexivity
             | eexists; right; left; reflexivity
             | intros Hm; try discriminate Hm; reflexivity ]).
  - destruct (startsWith httpsPrefix u) eqn:Hh; [|discriminate].
    rewrite Hparts. rewrite Hb.
    cbn [negb result final effects console emit throw app bind].
    unfold bind, emit, throw. cbn [result final effects app].
    unfold downloadCatch, bind, codeIs. cbn [console emit result final effects
      newError code message orb toStr throw app].
    replace (includes (js "Not Found") msgInvalidBucketPublic) with false
      by (vm_compute; reflexivity).
    replace (includes (js "does not have storage.objects.get access")
               msgInvalidBucketPublic) with false by (vm_compute; reflexivity).
    cbn [result final effects app existsb isDownload orb].
    conj; [eexists; reflexivity | reflexivity | reflexivity | | reflexivity].
    eexists. right. left. reflexivity.
Qed.

(** C1, witness: the location [gs://evil/a.pdf] in a deployment whose
    bucket is [good]. *)
Lemma C1_witness :
  let o := downloadPdfFromGcs Sample.world (VStr (js "gs://evil/a.pdf"))
             Sample.state in
  (exists e, result o = Throw e) /\
  final o = Sample.state /\
  existsb isDownload (effects o) = false /\
  (exists text,
     In (EvConsole LError text
           (Some (untrustedBucketError Sample.world (js "gs://evil/a.pdf")
                    (js "evil"))))
        (effects o)) /\
  (mentionsGcsFailure
     (message (untrustedBucketError Sample.world (js "gs://evil/a.pdf")
                 (js "evil"))) = false ->
   result o = Throw (newError (msgDownloadFailed (js "gs://evil/a.pdf")))).
Proof.
  apply (@C1_untrusted_bucket_never_downloaded Sample.world
           (js "gs://evil/a.pdf") (js "evil") (js "a.pdf") Sample.state).
  - vm_compute. reflexivity.
  - vm_compute. discriminate.
Defined.

(** C1 as the specification states it fails: for [gs://evil/a.pdf] the
    parsed bucket [evil] is not the configured [good], and the error
    [downloadPdfFromGcs] fails with is "Failed to download PDF from GCS:
    gs://evil/a.pdf.", the one it gives for any failure, not the
    untrusted-bucket error. *)
Lemma C1_counterexample :
  locationParts (js "gs://evil/a.pdf") = Some (js "evil", js "a.pdf") /\
  js "evil" <> BUCKET_NAME Sample.world /\
  result (downloadPdfFromGcs Sample.world (VStr (js "gs://evil/a.pdf"))
            Sample.state)
  = Throw (newError (js "Failed to download PDF from GCS: gs://evil/a.pdf.")) /\
  result (downloadPdfFromGcs Sample.world (VStr (js "gs://evil/a.pdf"))
            Sample.state)
  <> Throw (untrustedBucketError Sample.world (js "gs://evil/a.pdf")
              (js "evil")).
Proof.
  conj; vm_compute; (reflexivity || discriminate).
Qed.

(** C2. Take a request to [/api/sign] that supplies, for a block, a typed
    signature with a non-empty text. The handler then passes [null] as
    the drawn signature of that block to [addSignatureToPage], whatever
    drawn signature came with the request, and the typed payload in
    [fields.keyboardSignature]: what it composes for the block is the
    title, the four field lines and the typed signature, all text and no
    image; the call for the block draws no image either when it fails on
    the way. Once the request names a document, the drawn signature of
    the block has no influence on it: answer, state and effects are the
    same for any other one, and for none. And when the request is
    answered with the location of the signed document, that document
    carries for the block exactly these lines, and besides them only the
    other block. *)
Theorem C2_typed_signature_takes_precedence
    (W : World) (req : RequestBody) (b : Block) (s : St) :
  truthy (optGet (typedOf req b) (js "text")) = true ->
  let o := apiSign W req s in
  let typedOps :=
    blockHeader W (blockConfig W b) (signFields W req b) Helvetica
    ++ typedBlock (typedOf req b) Helvetica Helvetica
         (textBlockY (blockConfig W b) - 125) in
  signSignatureData req b = VNull /\
  keyboardSignature (signFields W req b) = typedOf req b /\
  signedBlock W req b = typedOps /\
  forallb isTextOp typedOps = true /\
  (forall n font s0,
     exists ops,
       final (signBlock W req b n font s0) = addOps s0 ops /\
       existsb isImageOp ops = false) /\
  (truthy (pdfId req) = true ->
   forall drawn, apiSign W (withDrawn req b drawn) s = o) /\
  (forall u,
     result o = Ok (jsonOk (VObj [(js "pdfUrl", VStr u)])) ->
     exists n pc,
       pageAt n (page (blockConfig W Contract)) = Some pc /\
       match b with
       | Contract =>
           (truthy (withdrawalAccepted req) = false ->
            doc (final o) = onPage pc typedOps) /\
           (truthy (withdrawalAccepted req) = true ->
            exists pw,
              pageAt n (page (blockConfig W Withdrawal)) = Some pw /\
              doc (final o)
              = onPage pc typedOps
                ++ onPage pw (signedBlock W req Withdrawal))
       | Withdrawal =>
           truthy (withdrawalAccepted req) = true ->
           exists pw,
             pageAt n (page (blockConfig W Withdrawal)) = Some pw /\
             doc (final o)
             = onPage pc (signedBlock W req Contract) ++ onPage pw typedOps
       end).
Proof.
  intros Ht o typedOps.
  assert (Hsd : signSignatureData req b = VNull)
    by (unfold signSignatureData; now rewrite Ht).
  assert (Hkb : keyboardSignature (signFields W req b) = typedOf req b)
    by (unfold signFields; cbn [keyboardSignature]; now rewrite Ht).
  assert (Hty : typedActive (signFields W req b) = true)
    by (unfold typedActive; now rewrite Hkb).
  assert (Hblock : signedBlock W req b = typedOps).
  { unfold signedBlock, composedBlock. rewrite Hty, Hkb, Hsd.
    cbn [truthy]. now rewrite app_nil_r. }
  conj; [exact Hsd | exact Hkb | exact Hblock | | | |].
  - subst typedOps. rewrite forallb_app.
    unfold blockHeader, fieldLine, textLine, typedBlock. reflexivity.
  - intros n font s0. unfold signBlock. rewrite Hsd.
    pose proof (tryBlock_spec W b VNull (signFields W req b) n font s0) as H.
    unfold wp in H. destruct H as [_ H].
    destruct (result (tryBlock W b VNull (signFields W req b) n font s0))
      as [[response|]|e]; [| |contradiction].
    + destruct H as [_ (ops & Hops & Hs)]. eauto.
    + destruct H as [(p & Hp & Hs) _].
      unfold composedBlock in Hs. rewrite Hty, Hkb in Hs.
      cbn [truthy] in Hs. rewrite app_nil_r in Hs.
      eexists. split; [exact Hs|]. apply noImage_onPage.
      rewrite forallb_app. reflexivity.
  - intros Hid drawn. subst o. clear Hblock typedOps Hsd Hkb Hty.
    destruct b; cbn [typedOf] in Ht;
      unfold apiSign, signCompose, signFinish, signWebhookPayload, signBlock,
        signSignatureData, signFields, typedOf, drawnOf, withDrawn;
      cbn [fullName location email signature withdrawalAccepted
           withdrawalSignature pdfId contractKeyboardSignature
           withdrawalKeyboardSignature];
      rewrite Ht, Hid; reflexivity.
  - intros u Hu.
    destruct (@apiSign_produced W req s u Hu)
      as (original & n & pc & _ & _ & Hpc & Hno & Hyes & _).
    fold o in Hno, Hyes.
    change (composedBlock W (blockConfig W Contract)
              (signSignatureData req Contract) (signFields W req Contract)
              Helvetica)
      with (signedBlock W req Contract) in Hno, Hyes.
    change (composedBlock W (blockConfig W Withdrawal)
              (signSignatureData req Withdrawal)
              (signFields W req Withdrawal) Helvetica)
      with (signedBlock W req Withdrawal) in Hyes.
    exists n, pc. split; [exact Hpc|].
    destruct b; rewrite Hblock in *; [split|]; assumption.
Qed.

(** C2, witness: a request with both a typed and a drawn signature for the
    contract; the signed document has the eleven lines of text of the
    typed block and no image. *)
Lemma C2_witness :
  let req := Sample.request Sample.png (Sample.typed "DancingScript-Regular")
               VUndefined VUndefined VUndefined in
  let o := apiSign Sample.world req Sample.state in
  truthy (drawnOf req Contract) = true /\
  doc (final o)
  = onPage 9
      (blockHeader Sample.world (pdfConfig.contractSignature Sample.config)
         (signFields Sample.world req Contract) Helvetica
       ++ typedBlock (Sample.typed "DancingScript-Regular") Helvetica
            Helvetica 575).
Proof.
  intros req o. split; [reflexivity|].
  assert (Hu : result o
    = Ok (jsonOk (VObj [(js "pdfUrl",
                         VStr (js "gs://good/signed/signed_doc-1.pdf"))])))
    by (vm_compute; reflexivity).
  destruct (@C2_typed_signature_takes_precedence Sample.world req Contract
              Sample.state eq_refl)
    as (_ & _ & _ & _ & _ & _ & H).
  destruct (H _ Hu) as (n & pc & Hpc & Hdoc & _).
  fold o in Hdoc. rewrite (Hdoc eq_refl).
  apply pageAt_Some in Hpc. subst pc. reflexivity.
Defined.

(** C3 (as amended). A composition with a typed signature reads the font
    file the payload chooses, and a file that is missing or unreadable
    aborts it: [addSignatureToPage] throws the composition error, which
    wraps the failure of the read when the title and the field lines could
    be drawn; the signature is not drawn. *)
Theorem C3_unreadable_font_file_aborts_composition
    (W : World) (pg : option nat) (cfg : SignatureConfig)
    (signatureData : JsVal) (fields : Fields) (font : Font) (s : St)
    (e0 : JsError) :
  typedActive fields = true ->
  fsReadFile W (chosenFontFile W (keyboardSignature fields)) = inl e0 ->
  let o := addSignatureToPage W pg cfg signatureData fields font s in
  (exists m, result o = Throw (newError (msgSignatureInsert ++ m))) /\
  (forall p, pg = Some p ->
     drawable W (blockHeader W cfg fields font) = true ->
     result o = Throw (newError (msgSignatureInsert ++ message e0)) /\
     final o = addOps s (onPage p (blockHeader W cfg fields font)) /\
     effects o = [EvReadFile (chosenFontFile W (keyboardSignature fields))]).
Proof.
  intros Hty Hread o. subst o. split.
  - pose proof (addSignatureToPage_spec W pg cfg signatureData fields font s)
      as H. unfold wp in H. cbv zeta in H. destruct H as [_ H].
    destruct (result (addSignatureToPage W pg cfg signatureData fields font s))
      as [[]|e].
    + destruct H as (_ & Hr & _). destruct (Hr Hty) as [bytes Hb]. congruence.
    + destruct H as [[m ->] _]. eauto.
  - intros p -> Hd.
    change (wp (addSignatureToPage W (Some p) cfg signatureData fields font) s
              (fun r s' ev =>
                 r = Throw (newError (msgSignatureInsert ++ message e0)) /\
                 s' = addOps s (onPage p (blockHeader W cfg fields font)) /\
                 ev = [EvReadFile (chosenFontFile W (keyboardSignature fields))])).
    unfold addSignatureToPage. cbv zeta. apply wp_tryCatch.
    unfold drawable, blockHeader, fieldLine, textLine in Hd.
    cbn [forallb app] in Hd.
    repeat match type of Hd with
           | (match ?x with None => true | Some _ => false end && _) = true =>
               let E := fresh "E" in
               destruct x eqn:E; [discriminate Hd|]; cbn [andb] in Hd
           end.
    unfold fieldOrder. cbn [drawFields]. unfold spacing.
    replace (textBlockY cfg - 25 - 25)%Z with (textBlockY cfg - 50)%Z by lia.
    replace (textBlockY cfg - 50 - 25)%Z with (textBlockY cfg - 75)%Z by lia.
    replace (textBlockY cfg - 75 - 25)%Z with (textBlockY cfg - 100)%Z by lia.
    apply wp_drawText; [intros e He; congruence | intros _].
    apply wp_bind.
    do 8 (apply wp_drawText; [intros e He; congruence | intros _]).
    apply wp_ret. rewrite !addOps_app.
    apply wp_bind. wp_use drawKeyboardSignature_spec.
    intros r s1 ev1. cbv zeta. rewrite Hty. intros [-> Hr].
    destruct r as [y|e].
    + destruct Hr as (_ & [bytes Hb] & _). congruence.
    + destruct Hr as (ops & _ & -> & He). destruct (He e0 Hread) as [-> ->].
      apply wp_throw. rewrite addOps_nil. conj; reflexivity.
Qed.

(** C3, witness: the decorative font is chosen and its file is missing. *)
Lemma C3_witness :
  let kb := Sample.typed "DancingScript-Regular" in
  let o := addSignatureToPage Sample.worldNoScriptFont (Some 9%nat)
             (pdfConfig.contractSignature Sample.config) VNull
             (Sample.fields kb) Helvetica Sample.state in
  (exists m, result o = Throw (newError (msgSignatureInsert ++ m))) /\
  (forall p, Some 9%nat = Some p ->
     drawable Sample.worldNoScriptFont
       (blockHeader Sample.worldNoScriptFont
          (pdfConfig.contractSignature Sample.config) (Sample.fields kb)
          Helvetica) = true ->
     result o = Throw (newError (msgSignatureInsert ++ message Sample.enoent)) /\
     final o = addOps Sample.state
                 (onPage p
                    (blockHeader Sample.worldNoScriptFont
                       (pdfConfig.contractSignature Sample.config)
                       (Sample.fields kb) Helvetica)) /\
     effects o = [EvReadFile
                    (chosenFontFile Sample.worldNoScriptFont
                       (keyboardSignature (Sample.fields kb)))]).
Proof.
  apply (@C3_unreadable_font_file_aborts_composition Sample.worldNoScriptFont
           (Some 9%nat) (pdfConfig.contractSignature Sample.config) VNull
           (Sample.fields (Sample.typed "DancingScript-Regular")) Helvetica
           Sample.state Sample.enoent).
  - vm_compute. reflexivity.
  - vm_compute. reflexivity.
Defined.

(** C3 as the specification states it fails: with the file of the
    decorative font missing, the composition of a block with a typed
    signature in that font throws "Fehler beim Einfuegen der Unterschrift:
    ENOENT: no such file or directory", while the same call returns when
    the file is there. *)
Lemma C3_counterexample :
  let kb := Sample.typed "DancingScript-Regular" in
  let compose (W : World) :=
    addSignatureToPage W (Some 9%nat)
      (pdfConfig.contractSignature Sample.config) VNull (Sample.fields kb)
      Helvetica Sample.state in
  fsReadFile Sample.worldNoScriptFont
    (js "/app/public/fonts/DancingScript-Regular.ttf") = inl Sample.enoent /\
  result (compose Sample.worldNoScriptFont)
  = Throw (newError (msgSignatureInsert
                       ++ js "ENOENT: no such file or directory")) /\
  result (compose Sample.world) = Ok tt.
Proof.
  cbv zeta. conj; vm_compute; reflexivity.
Qed.

Lemma truthy_optGet (v : JsVal) (k : Str) :
  truthy (optGet v k) = true -> truthy v = true.
Proof. destruct v; cbn; congruence. Qed.

(** A block of [/api/sign] whose drawn signature is the one in force and
    cannot be decoded is not composed. *)
Lemma signBlock_undecodable W req b n font s :
  truthy (optGet (typedOf req b) (js "text")) = false ->
  truthy (drawnOf req b) = true ->
  decodable W (drawnOf req b) = false ->
  wp (signBlock W req b n font) s (fun r s' ev =>
    forallb isLocal ev = true /\ sameStore s s' /\
    exists m,
      r = Ok (Some (jsonError 500 (blockMessage b ++ msgSignatureInsert ++ m)))).
Proof.
  intros Hty Hdr Hdec. unfold signBlock, signSignatureData. rewrite Hty.
  wp_use tryBlock_spec. intros r s' ev [Hl Hr]. split; [exact Hl|].
  destruct r as [[response|]|e]; [| |contradiction].
  - destruct Hr as [[m ->] (ops & _ & ->)]. split; [apply sameStore_addOps|].
    eauto.
  - destruct Hr as (_ & _ & Hd). rewrite (Hd Hdr) in Hdec. discriminate.
Qed.

(** C4 (as amended). Take a request to [/api/sign] that reaches the
    composition (the three text fields and the document id are there, the
    record has a location, the document is downloaded and loaded) and a
    block that is composed from its drawn signature: no typed signature
    with a non-empty text is supplied for the block, and for the
    withdrawal block the withdrawal is accepted and the contract block was
    composed. If the image of that drawn signature cannot be decoded, the
    caller receives a 500 response whose message names the block and wraps
    the composition error, nothing is uploaded, and the document store is
    as before. *)
Theorem C4_undecodable_drawn_signature_fails_the_request
    (W : World) (req : RequestBody) (b : Block) (s : St) (bytes : Bytes)
    (n : nat) :
  truthy (fullName req) = true ->
  truthy (location req) = true ->
  truthy (email req) = true ->
  truthy (pdfId req) = true ->
  truthy (optGet (storeGet (pdfStore s) (pdfId req)) (js "pdfUrl")) = true ->
  result (downloadPdfFromGcs W
            (optGet (storeGet (pdfStore s) (pdfId req)) (js "pdfUrl")) s)
  = Ok bytes ->
  pdfLoad W bytes = inr n ->
  embedStandardFont W = None ->
  (b = Withdrawal ->
   truthy (withdrawalAccepted req) = true /\
   result (signBlock W req Contract n Helvetica
             (mkSt (pdfStore s) (storeFile s) [])) = Ok None) ->
  truthy (optGet (typedOf req b) (js "text")) = false ->
  truthy (drawnOf req b) = true ->
  decodable W (drawnOf req b) = false ->
  let o := apiSign W req s in
  (exists m,
     result o
     = Ok (jsonError 500 (blockMessage b ++ msgSignatureInsert ++ m))) /\
  existsb isUpload (effects o) = false /\
  pdfStore (final o) = pdfStore s /\
  storeFile (final o) = storeFile s.
Proof.
  intros Hn Hl He Hid Hurl Hdl Hload Hfont Hb Hty Hdr Hdec o. subst o.
  change (wp (apiSign W req) s (fun r s' ev =>
    (exists m,
       r = Ok (jsonError 500 (blockMessage b ++ msgSignatureInsert ++ m))) /\
    existsb isUpload ev = false /\
    pdfStore s' = pdfStore s /\ storeFile s' = storeFile s)).
  unfold apiSign. apply wp_tryCatch.
  rewrite Hn, Hl, He, Hid. cbn [negb orb].
  apply wp_bind. unfold wp at 1, getStore. cbn [result final effects].
  cbv zeta. rewrite (truthy_optGet _ _ Hurl), Hurl. cbn [negb app].
  apply wp_bind.
  eapply wp_conseq;
    [apply wp_and; [apply wp_self | apply downloadPdfFromGcs_spec]|].
  cbv beta. intros r s1 ev1 [(-> & _ & _) [-> Hev]]. rewrite Hdl.
  assert (Hu1 : existsb isUpload ev1 = false)
    by (revert Hev; apply existsb_none; event_class).
  apply wp_bind. wp_use loadPdf_spec. intros r s1 ev2 [-> Hr].
  destruct r as [n'|e]; [|destruct Hr; congruence].
  destruct Hr as [Hn' ->]. assert (n' = n) by congruence. subst n'.
  apply wp_bind. wp_use embedHelvetica_spec. intros r s1 ev2 (-> & -> & Hr).
  destruct r as [font|e]; [|congruence]. destruct Hr as [-> _].
  cbn [app]. unfold signCompose. apply wp_bind.
  assert (Hdone : forall m s' ev,
    forallb isLocal ev = true ->
    sameStore (mkSt (pdfStore s) (storeFile s) []) s' ->
    (exists m0,
       Ok (jsonError 500 (blockMessage b ++ msgSignatureInsert ++ m))
       = Ok (jsonError 500 (blockMessage b ++ msgSignatureInsert ++ m0))) /\
    existsb isUpload (ev1 ++ ev) = false /\
    pdfStore s' = pdfStore s /\ storeFile s' = storeFile s).
  { intros m s' ev Hlev [Hs1 Hs2]. conj; [eauto | | exact Hs1 | exact Hs2].
    apply existsb_app_false; [exact Hu1|].
    revert Hlev. apply local_none. event_class. }
  destruct b.
  - wp_use signBlock_undecodable; try assumption.
    intros r s' ev (Hlev & Hs & m & ->). apply wp_ret. rewrite app_nil_r.
    now apply Hdone.
  - destruct (Hb eq_refl) as [Hwa Hc].
    eapply wp_conseq; [apply wp_and; [apply wp_self | apply tryBlock_spec]|].
    cbv beta. intros r s2 ev2 [(-> & _ & _) [Hlev Hr]].
    rewrite Hc in *.
    destruct Hr as [(p & _ & ->) _]. apply wp_bind. rewrite Hwa.
    wp_use signBlock_undecodable; try assumption.
    intros r s' ev (Hlev' & Hs & m & ->). apply wp_ret. rewrite app_nil_r.
    apply (Hdone m s' (ev2 ++ ev)).
    + now rewrite forallb_app, Hlev, Hlev'.
    + eapply sameStore_trans; [apply sameStore_addOps | exact Hs].
Qed.

(** C4, witness: Jane Doe's drawn contract signature is not an image;
    and, with a good contract signature, her drawn withdrawal signature is
    not an image. *)
Lemma C4_witness :
  let outcome req b :=
    let o := apiSign Sample.world req Sample.state in
    (exists m,
       result o
       = Ok (jsonError 500 (blockMessage b ++ msgSignatureInsert ++ m))) /\
    existsb isUpload (effects o) = false /\
    pdfStore (final o) = pdfStore Sample.state /\
    storeFile (final o) = storeFile Sample.state in
  outcome (Sample.request Sample.brokenImage VUndefined VUndefined VUndefined
             VUndefined) Contract /\
  outcome (Sample.request Sample.png VUndefined (VBool true)
             Sample.brokenImage VUndefined) Withdrawal.
Proof.
  split.
  - apply (@C4_undecodable_drawn_signature_fails_the_request Sample.world
             (Sample.request Sample.brokenImage VUndefined VUndefined
                VUndefined VUndefined)
             Contract Sample.state Sample.pdfBytes 11%nat);
      try (vm_compute; reflexivity).
    intros H. discriminate H.
  - apply (@C4_undecodable_drawn_signature_fails_the_request Sample.world
             (Sample.request Sample.png VUndefined (VBool true)
                Sample.brokenImage VUndefined)
             Withdrawal Sample.state Sample.pdfBytes 11%nat);
      try (vm_compute; reflexivity).
    intros _. split; vm_compute; reflexivity.
Defined.

(** C4 as the specification states it fails: a request whose drawn
    contract signature cannot be decoded, and which also carries a typed
    contract signature, is answered with the location of the signed
    document, and the document is uploaded; the drawn signature is never
    looked at. *)
Lemma C4_counterexample :
  let req := Sample.request Sample.brokenImage
               (Sample.typed "DancingScript-Regular") VUndefined VUndefined
               VUndefined in
  let o := apiSign Sample.world req Sample.state in
  truthy (signature req) = true /\
  decodable Sample.world (signature req) = false /\
  result o
  = Ok (jsonOk (VObj [(js "pdfUrl",
                       VStr (js "gs://good/signed/signed_doc-1.pdf"))])) /\
  existsb isUpload (effects o) = true.
Proof.
  cbv zeta. conj; vm_compute; reflexivity.
Qed.

Lemma downloadPdfFromGcs_rejected W u s :
  locationParts u = None ->
  wp (downloadPdfFromGcs W (VStr u)) s (fun r s' ev =>
    (exists e, r = Throw e) /\ existsb isDownload ev = false).
Proof.
  intros Hparts. unfold downloadPdfFromGcs, downloadBody.
  apply wp_tryCatch, wp_bind. wp_use parseLocation_spec.
  intros r s1 ev1 [-> Hr]. destruct r as [[b p]|e].
  - destruct Hr as (_ & H & _). congruence.
  - rewrite Hparts in Hr. destruct Hr as [-> _].
    wp_use downloadCatch_spec. intros r s1 ev1 (_ & He & _ & Hd).
    split; [exact He | exact Hd].
Qed.

(** C5. For a non-empty bucket name without a slash and a non-empty path
    without a line terminator (the characters that would break the scheme),
    parsing the [gs://] URI that the format operation builds gives back
    the bucket and the path, without an effect. *)
Theorem C5_parse_inverts_format
    (W : World) (bucket path : Str) (s : St) :
  bucket <> [] ->
  Forall (fun c => c <> slash) bucket ->
  path <> [] ->
  Forall (fun c => isLineTerminator c = false) path ->
  locationParts (formatLocation bucket path false) = Some (bucket, path) /\
  parseLocation W (formatLocation bucket path false) s
  = mkOut (Ok (bucket, path)) s [].
Proof.
  intros Hb0 Hb Hp0 Hp.
  assert (Hm : matchGs (formatLocation bucket path false) = Some (bucket, path)).
  { apply matchGs_spec. unfold regexMatches, formatLocation.
    conj; try assumption.
    change (js "/" ++ path) with (slash :: path). reflexivity. }
  assert (Hs : startsWith gsPrefix (formatLocation bucket path false) = true)
    by (eapply matchGs_startsWith; exact Hm).
  unfold locationParts, parseLocation. rewrite Hs, Hm. split; reflexivity.
Qed.

(** C5, witness: the location of an uploaded document. *)
Lemma C5_witness :
  parseLocation Sample.world
    (formatLocation (js "good") (js "uploads/uploaded_doc-1.pdf") false)
    Sample.state
  = mkOut (Ok (js "good", js "uploads/uploaded_doc-1.pdf")) Sample.state [].
Proof.
  apply (@C5_parse_inverts_format Sample.world (js "good")
           (js "uploads/uploaded_doc-1.pdf") Sample.state).
  - discriminate.
  - repeat constructor; discriminate.
  - discriminate.
  - repeat constructor.
Defined.

(** C6. The parsing step of [downloadPdfFromGcs] (lines 638-657) accepts
    exactly the two schemes. A location string that matches neither of
    the two regular expressions is rejected with one of the three
    invalid-format errors, without an effect, and [downloadPdfFromGcs]
    then throws without calling the storage backend. A string that
    matches the [gs://] expression is accepted, with the bucket and the
    path of the capture groups; so is a string that matches the
    public-URL expression and names the configured bucket (for another
    bucket the step refuses it by the bucket rule, not as a format
    error). Nothing else is accepted. *)
Theorem C6_parse_accepts_exactly_two_schemes (W : World) (u : Str) (s : St) :
  let o := parseLocation W u s in
  ((forall b p, ~ regexMatches gsPrefix u b p) ->
   (forall b p, ~ regexMatches httpsPrefix u b p) ->
   (result o = Throw (newError (msgInvalidGsUri u))
    \/ result o = Throw (newError (msgInvalidPublicUrl u))
    \/ result o = Throw (newError (msgUnsupportedFormat u))) /\
   final o = s /\ effects o = [] /\
   (exists e, result (downloadPdfFromGcs W (VStr u) s) = Throw e) /\
   existsb isDownload (effects (downloadPdfFromGcs W (VStr u) s)) = false) /\
  (forall b p,
     regexMatches gsPrefix u b p ->
     result o = Ok (b, p) /\ final o = s /\ effects o = []) /\
  (forall b p,
     regexMatches httpsPrefix u b p ->
     (b = BUCKET_NAME W ->
      result o = Ok (b, p) /\ final o = s /\ effects o = []) /\
     (b <> BUCKET_NAME W ->
      result o = Throw (newError msgInvalidBucketPublic) /\ final o = s)) /\
  (forall b p,
     result o = Ok (b, p) ->
     regexMatches gsPrefix u b p
     \/ (regexMatches httpsPrefix u b p /\ b = BUCKET_NAME W)).
Proof.
  intros o.
  pose proof (parseLocation_spec W u s) as H. unfold wp in H.
  fold o in H. destruct H as [Hs H]. conj.
  - intros Hg Hh.
    assert (Hparts : locationParts u = None).
    { unfold locationParts.
      destruct (startsWith gsPrefix u).
      - destruct (matchGs u) as [[b p]|] eqn:E; [|reflexivity].
        apply matchGs_spec in E. now apply Hg in E.
      - destruct (startsWith httpsPrefix u); [|reflexivity].
        destruct (matchHttps u) as [[b p]|] eqn:E; [|reflexivity].
        apply matchHttps_spec in E. now apply Hh in E. }
    assert (Hthrow : exists e, result o = Throw e /\ effects o = [] /\
              (e = newError (msgInvalidGsUri u)
               \/ e = newError (msgInvalidPublicUrl u)
               \/ e = newError (msgUnsupportedFormat u))).
    { destruct (result o) as [[b p]|e].
      - destruct H as (_ & H & _). congruence.
      - rewrite Hparts in H. destruct H as [H1 H2]. eauto. }
    destruct Hthrow as (e & He & Hev & Hkind).
    conj; [ | exact Hs | exact Hev | | ].
    + rewrite He. destruct Hkind as [-> | [-> | ->]]; auto.
    + exact (proj1 (@downloadPdfFromGcs_rejected W u s Hparts)).
    + exact (proj2 (@downloadPdfFromGcs_rejected W u s Hparts)).
  - intros b p Hm. apply matchGs_spec in Hm.
    pose proof (matchGs_startsWith _ Hm) as Hsw.
    subst o. unfold parseLocation. rewrite Hsw, Hm. conj; reflexivity.
  - intros b p Hm.
    assert (Hgs : startsWith gsPrefix u = false)
      by (destruct Hm as [-> _]; reflexivity).
    apply matchHttps_spec in Hm.
    pose proof (matchHttps_startsWith _ Hm) as Hsw.
    subst o. unfold parseLocation. rewrite Hgs, Hsw, Hm. split.
    + intros ->. rewrite str_eqb_refl. conj; reflexivity.
    + intros Hb. apply str_eqb_neq in Hb. rewrite Hb. conj; reflexivity.
  - intros b p Hr. rewrite Hr in H. destruct H as (_ & Hparts & Hb).
    unfold locationParts in Hparts.
    destruct (startsWith gsPrefix u).
    + left. now apply matchGs_spec.
    + destruct (startsWith httpsPrefix u); [|discriminate].
      right. split; [now apply matchHttps_spec | now apply Hb].
Qed.

(** C6, witness: an [ftp] address is rejected; a [gs://] URI and a public
    URL of the configured bucket are parsed. *)
Lemma C6_witness :
  result (parseLocation Sample.world (js "ftp://good/a.pdf") Sample.state)
  = Throw (newError (msgUnsupportedFormat (js "ftp://good/a.pdf"))) /\
  result (parseLocation Sample.world (js "gs://good/a.pdf") Sample.state)
  = Ok (js "good", js "a.pdf") /\
  result (parseLocation Sample.world
            (js "https://storage.googleapis.com/good/a.pdf") Sample.state)
  = Ok (js "good", js "a.pdf").
Proof.
  conj.
  - destruct (@C6_parse_accepts_exactly_two_schemes Sample.world
                (js "ftp://good/a.pdf") Sample.state) as [H _].
    destruct H as (Hk & _).
    + apply matchGs_None. vm_compute. reflexivity.
    + apply matchHttps_None. vm_compute. reflexivity.
    + destruct Hk as [Hk | [Hk | Hk]].
      * vm_compute in Hk. discriminate Hk.
      * vm_compute in Hk. discriminate Hk.
      * exact Hk.
  - destruct (@C6_parse_accepts_exactly_two_schemes Sample.world
                (js "gs://good/a.pdf") Sample.state) as (_ & H & _).
    apply (H (js "good") (js "a.pdf")).
    apply matchGs_spec. vm_compute. reflexivity.
  - destruct (@C6_parse_accepts_exactly_two_schemes Sample.world
                (js "https://storage.googleapis.com/good/a.pdf")
                Sample.state) as (_ & _ & H & _).
    apply (H (js "good") (js "a.pdf")); [|reflexivity].
    apply matchHttps_spec. vm_compute. reflexivity.
Defined.

(** C7 (the code departs from the claim). Jane Doe signs the contract
    with a drawn signature, the data URL of a PNG file of one pixel,
    accepts the withdrawal waiver and supplies neither a drawn nor a typed
    withdrawal signature. [/api/sign] does not reject the request: it
    composes the contract block and a withdrawal block without a
    signature, uploads the document and answers with its location. The
    same body sent to [/api/pdf-config] is rejected with the validation
    error of lines 350-352, before any effect. *)
Theorem C7_sign_accepts_withdrawal_without_signature :
  let req := Sample.request Sample.png VUndefined (VBool true) VUndefined
               VUndefined in
  let o := apiSign Sample.world req Sample.state in
  truthy (withdrawalAccepted req) = true /\
  truthy (withdrawalSignature req) = false /\
  truthy (optGet (withdrawalKeyboardSignature req) (js "text")) = false /\
  imageBytes Sample.world Sample.png = Sample.pngBytes /\
  embedPngError Sample.world Sample.pngBytes = None /\
  result o
  = Ok (jsonOk (VObj [(js "pdfUrl",
                       VStr (js "gs://good/signed/signed_doc-1.pdf"))])) /\
  existsb isUpload (effects o) = true /\
  doc (final o)
  = onPage 9
      (composedBlock Sample.world (pdfConfig.contractSignature Sample.config)
         Sample.png (Sample.fields VUndefined) Helvetica)
    ++ onPage 8
         (blockHeader Sample.world
            (pdfConfig.withdrawalSignature Sample.config)
            (Sample.fields VUndefined) Helvetica) /\
  result (apiPdfConfig Sample.world req Sample.state)
  = Ok (jsonError 400 msgWithdrawalMissing) /\
  effects (apiPdfConfig Sample.world req Sample.state) = [].
Proof.
  cbv zeta. conj; vm_compute; reflexivity.
Qed.

(** C8. A call of [addSignatureToPage] that returns has drawn, on the page
    of the block and in this order: the title line at [textBlockY]; the
    four field lines [fullName], [email], [location], [date], each with
    its label at x = 150 and its value at x = 250, each 25 units below the
    line before; then no signature block, or the typed one, or the drawn
    one. The callers never hand over a typed and a drawn signature
    together: [/api/sign] replaces the drawn one by [null] when a typed
    text is there, and [/api/pdf-config] has no typed signature. *)
Theorem C8_block_is_title_four_fields_signature (W : World) :
  (forall pg cfg signatureData fields font s,
     typedActive fields && truthy signatureData = false ->
     let o := addSignatureToPage W pg cfg signatureData fields font s in
     let y := textBlockY cfg in
     let label name := VStr (pdfConfig.labels (layout W) name) in
     result o = Ok tt ->
     exists p sig,
       pg = Some p /\
       final o = addOps s (onPage p
         ([DrawText (VStr (labelText cfg)) 150 y 12 font black;
           DrawText (label FullName) 150 (y - 25) 12 font black;
           DrawText (fFullName fields) 250 (y - 25) 12 font black;
           DrawText (label Email) 150 (y - 50) 12 font black;
           DrawText (fEmail fields) 250 (y - 50) 12 font black;
           DrawText (label Location) 150 (y - 75) 12 font black;
           DrawText (fLocation fields) 250 (y - 75) 12 font black;
           DrawText (label Date) 150 (y - 100) 12 font black;
           DrawText (fDate fields) 250 (y - 100) 12 font black]
          ++ sig)) /\
       (sig = []
        \/ sig = [DrawText (VStr labelTyped) 150 (y - 125) 12 font black;
                  DrawText (optGet (keyboardSignature fields) (js "text"))
                    150 (y - 150) 16 font black]
        \/ sig = [DrawText (VStr labelDrawn) 150 (y - 125) 12 font black;
                  DrawImage (imageBytes W signatureData) (sigX cfg) (sigY cfg)
                    (sigWidth cfg) (sigHeight cfg)])) /\
  (forall req b,
     typedActive (signFields W req b) && truthy (signSignatureData req b)
     = false) /\
  (forall req signatureData,
     typedActive (configFields W req) && truthy signatureData = false).
Proof.
  conj.
  - intros pg cfg signatureData fields font s Hone o y label Hok.
    pose proof (addSignatureToPage_spec W pg cfg signatureData fields font s)
      as H. unfold wp in H. cbv zeta in H. destruct H as [_ H].
    fold o in H. rewrite Hok in H. destruct H as [(p & -> & Hs) _].
    exists p. unfold composedBlock in Hs.
    change (blockHeader W cfg fields font) with
      ([DrawText (VStr (labelText cfg)) 150 y 12 font black;
        DrawText (label FullName) 150 (y - 25) 12 font black;
        DrawText (fFullName fields) 250 (y - 25) 12 font black;
        DrawText (label Email) 150 (y - 50) 12 font black;
        DrawText (fEmail fields) 250 (y - 50) 12 font black;
        DrawText (label Location) 150 (y - 75) 12 font black;
        DrawText (fLocation fields) 250 (y - 75) 12 font black;
        DrawText (label Date) 150 (y - 100) 12 font black;
        DrawText (fDate fields) 250 (y - 100) 12 font black]) in Hs.
    destruct (typedActive fields); destruct (truthy signatureData);
      try discriminate Hone; eexists; (split; [reflexivity|]);
      (split; [exact Hs|]).
    + right. left. rewrite app_nil_r. unfold typedBlock, textLine. subst y.
      replace (textBlockY cfg - 125 - 25)%Z with (textBlockY cfg - 150)%Z
        by lia.
      reflexivity.
    + right. right. reflexivity.
    + left. reflexivity.
  - intros req b. unfold typedActive, signFields, signSignatureData.
    cbn [keyboardSignature].
    destruct (truthy (optGet (typedOf req b) (js "text"))) eqn:E.
    + apply andb_false_r.
    + reflexivity.
  - intros req signatureData. reflexivity.
Qed.

(** C8, witness: the contract block of Jane Doe with a drawn signature. *)
Lemma C8_witness :
  let o := addSignatureToPage Sample.world (Some 9%nat)
             (pdfConfig.contractSignature Sample.config) Sample.png
             (Sample.fields VUndefined) Helvetica Sample.state in
  result o = Ok tt /\ List.length (doc (final o)) = 11%nat.
Proof.
  assert (Hok : result (addSignatureToPage Sample.world (Some 9%nat)
             (pdfConfig.contractSignature Sample.config) Sample.png
             (Sample.fields VUndefined) Helvetica Sample.state) = Ok tt)
    by (vm_compute; reflexivity).
  split; [exact Hok|].
  destruct (C8_block_is_title_four_fields_signature Sample.world) as [H _].
  destruct (H (Some 9%nat) (pdfConfig.contractSignature Sample.config)
              Sample.png (Sample.fields VUndefined) Helvetica Sample.state
              eq_refl Hok) as (p & sig & _ & Hs & Hsig).
  cbv zeta in Hs. rewrite Hs.
  destruct Hsig as [-> | [-> | ->]]; [discriminate | discriminate | reflexivity].
Defined.

(** C9 (as amended). When [addSignatureToPage] returns for a payload with
    a typed signature of non-empty text, it has read the font file the
    payload's font choice selects and has drawn, after the field lines, the
    typed-signature label line at 12 units and then the text at 16 units
    (4/3 of the body size), both in the font it was given as
    [helveticaFont]: the font choice selects the file that is read, not the
    font of the text. *)
Theorem C9_typed_signature_is_drawn_in_helvetica
    (W : World) (pg : option nat) (cfg : SignatureConfig)
    (signatureData : JsVal) (fields : Fields) (helveticaFont : Font)
    (s : St) :
  typedActive fields = true ->
  let o := addSignatureToPage W pg cfg signatureData fields helveticaFont s in
  let kb := keyboardSignature fields in
  result o = Ok tt ->
  exists p rest,
    pg = Some p /\
    final o = addOps s (onPage p
      (blockHeader W cfg fields helveticaFont
       ++ [DrawText (VStr labelTyped) 150 (textBlockY cfg - 125) 12
             helveticaFont black;
           DrawText (optGet kb (js "text")) 150 (textBlockY cfg - 150) 16
             helveticaFont black]
       ++ rest)) /\
    effects o = [EvReadFile (chosenFontFile W kb)] /\
    (3 * 16 = 4 * 12)%Z.
Proof.
  intros Hty o kb Hok.
  pose proof (addSignatureToPage_spec W pg cfg signatureData fields
                helveticaFont s) as H.
  unfold wp in H. cbv zeta in H. destruct H as [_ H].
  fold o in H. rewrite Hok in H. destruct H as ((p & -> & Hs) & _ & _ & Hev).
  unfold composedBlock in Hs. rewrite Hty in Hs, Hev.
  exists p. eexists. conj; [reflexivity | | exact Hev | reflexivity].
  rewrite Hs. unfold typedBlock, textLine.
  replace (textBlockY cfg - 125 - 25)%Z with (textBlockY cfg - 150)%Z by lia.
  reflexivity.
Qed.

(** C9, witness: Jane Doe types her name and chooses the decorative
    font. *)
Lemma C9_witness :
  let kb := Sample.typed "DancingScript-Regular" in
  let o := addSignatureToPage Sample.world (Some 9%nat)
             (pdfConfig.contractSignature Sample.config) VNull
             (Sample.fields kb) Helvetica Sample.state in
  result o = Ok tt /\
  effects o = [EvReadFile (js "/app/public/fonts/DancingScript-Regular.ttf")].
Proof.
  intros kb o.
  assert (Hok : result o = Ok tt) by (vm_compute; reflexivity).
  split; [exact Hok|].
  destruct (@C9_typed_signature_is_drawn_in_helvetica Sample.world
              (Some 9%nat) (pdfConfig.contractSignature Sample.config) VNull
              (Sample.fields kb) Helvetica Sample.state eq_refl Hok)
    as (p & rest & _ & _ & Hev & _).
  exact Hev.
Defined.

(** C9 as the specification states it fails: with the decorative font
    chosen, the text "Jane Doe" is drawn at 16 units in Helvetica and not
    in the font of the file [DancingScript-Regular.ttf]. *)
Lemma C9_counterexample :
  let kb := Sample.typed "DancingScript-Regular" in
  let o := addSignatureToPage Sample.world (Some 9%nat)
             (pdfConfig.contractSignature Sample.config) VNull
             (Sample.fields kb) Helvetica Sample.state in
  let text font :=
    (9%nat, DrawText (VStr (js "Jane Doe")) 150 550 16 font black) in
  result o = Ok tt /\
  specSelectedFont Sample.world kb Helvetica
  = Embedded (js "/app/public/fonts/DancingScript-Regular.ttf") /\
  In (text Helvetica) (doc (final o)) /\
  ~ In (text (specSelectedFont Sample.world kb Helvetica)) (doc (final o)).
Proof.
  cbv zeta. conj; try (vm_compute; reflexivity).
  - vm_compute. do 10 right. left. reflexivity.
  - vm_compute. intros H.
    repeat (destruct H as [H|H]; [discriminate H|]). exact H.
Qed.



(** For contrast, an upload does change the store, in memory: the write
    of the file is refused for its [undefined] path. *)
Example upload_changes_the_store :
  let req := mkUploadRequest (Some (js "secret")) (Some Sample.pdfBytes)
               (Sample.request VUndefined VUndefined VUndefined VUndefined
                  VUndefined) in
  let o := apiPdfUpload Sample.world req Sample.state in
  List.length (pdfStore (final o)) = 2%nat /\
  storeFile (final o) = storeFile Sample.state /\
  existsb isWriteFile (effects o) = false.
Proof.
  cbv zeta. conj; vm_compute; reflexivity.
Qed.

(* ================================================================== *)
(** * Further properties of the code *)
(* ================================================================== *)



(** ** Blob storage *)

(** The four ways [storePdfInBucket] can go. *)
Lemma storePdfInBucket_cases W bytes dest s :
  wp (storePdfInBucket W bytes dest) s (fun r s' ev =>
    let B := BUCKET_NAME W in
    let save := EvGcsSave B dest bytes in
    s' = s /\
    match gcsSave W B dest bytes with
    | Some e =>
        r = Throw (newError (msgUploadFailed W)) /\
        exists t, ev = [save; EvConsole LError t (Some e)]
    | None =>
        if MAKE_PUBLIC W then
          match gcsMakePublic W B dest with
          | Some e =>
              r = Throw (newError (msgUploadFailed W)) /\
              exists t t',
                ev = [save; EvConsole LLog t None; EvGcsMakePublic B dest;
                      EvConsole LError t' (Some e)]
          | None =>
              r = Ok (formatLocation B dest true) /\
              exists t t',
                ev = [save; EvConsole LLog t None; EvGcsMakePublic B dest;
                      EvConsole LLog t' None]
          end
        else
          r = Ok (formatLocation B dest false) /\
          exists t, ev = [save; EvConsole LLog t None]
    end).
Proof.
  unfold storePdfInBucket. cbv zeta.
  apply wp_tryCatch, wp_bind, wp_emit. apply wp_bind, wp_liftErr.
  { intros e He. apply wp_bind, wp_emit, wp_throw. rewrite He.
    split; [reflexivity|]. split; [reflexivity|]. eexists. reflexivity. }
  intros Hs. rewrite Hs. apply wp_bind, wp_emit.
  destruct (MAKE_PUBLIC W).
  - apply wp_bind, wp_emit. apply wp_bind, wp_liftErr.
    { intros e He. apply wp_bind, wp_emit, wp_throw. rewrite He.
      split; [reflexivity|]. split; [reflexivity|].
      eexists. eexists. reflexivity. }
    intros Hp. rewrite Hp. apply wp_bind, wp_emit, wp_ret.
    split; [reflexivity|]. split; [reflexivity|].
    eexists. eexists. reflexivity.
  - apply wp_ret. split; [reflexivity|]. split; [reflexivity|].
    eexists. reflexivity.
Qed.

(** X1. [storePdfInBucket] first saves the bytes under the given name in
    the configured bucket, and nowhere else. It returns exactly when the
    save succeeds and, for a public deployment, [makePublic] succeeds
    too; what it returns is the location in the form the deployment
    uses. Whatever fails, the caller gets "Failed to upload PDF to bucket
    <bucket>." and not the cause; that also holds when the save went
    through and only [makePublic] failed. [makePublic] is called only in a
    public deployment, after a successful save. *)
Theorem X1_storePdfInBucket_outcome
    (W : World) (bytes : Bytes) (dest : Str) (s : St) :
  let o := storePdfInBucket W bytes dest s in
  let B := BUCKET_NAME W in
  final o = s /\
  hd_error (effects o) = Some (EvGcsSave B dest bytes) /\
  (forall b p c, In (EvGcsSave b p c) (effects o) ->
     b = B /\ p = dest /\ c = bytes) /\
  (forall e, result o = Throw e -> e = newError (msgUploadFailed W)) /\
  (forall u, result o = Ok u <->
     u = formatLocation B dest (MAKE_PUBLIC W) /\
     gcsSave W B dest bytes = None /\
     (MAKE_PUBLIC W = true -> gcsMakePublic W B dest = None)) /\
  (existsb isMakePublic (effects o) = true <->
     MAKE_PUBLIC W = true /\ gcsSave W B dest bytes = None).
Proof.
  intros o B. subst B.
  pose proof (storePdfInBucket_cases W bytes dest s) as H.
  unfold wp in H. fold o in H. cbv zeta in H.
  destruct o as [r s' ev]. cbn [result final effects] in *.
  destruct H as [-> H].
  destruct (gcsSave W (BUCKET_NAME W) dest bytes) as [e1|].
  - destruct H as [-> [t ->]]. cbn [hd_error].
    conj; [reflexivity | reflexivity | | | | ].
    + intros b p c [H|[H|[]]]; [now inversion H | discriminate H].
    + now intros e [= <-].
    + intros u. split; [discriminate | intros (_ & H & _); discriminate H].
    + cbn. split; [discriminate | intros [_ H]; discriminate H].
  - destruct (MAKE_PUBLIC W).
    + destruct (gcsMakePublic W (BUCKET_NAME W) dest) as [e2|].
      * destruct H as (-> & t & t' & ->). cbn [hd_error].
        conj; [reflexivity | reflexivity | | | | ].
        -- intros b p c [H|[H|[H|[H|[]]]]];
             [now inversion H | discriminate H..].
        -- now intros e [= <-].
        -- intros u. split; [discriminate|].
           intros (_ & _ & H). specialize (H eq_refl). discriminate H.
        -- cbn. split; auto.
      * destruct H as (-> & t & t' & ->). cbn [hd_error].
        conj; [reflexivity | reflexivity | | | | ].
        -- intros b p c [H|[H|[H|[H|[]]]]];
             [now inversion H | discriminate H..].
        -- discriminate.
        -- intros u. split; [intros [= <-]; auto | now intros (-> & _)].
        -- cbn. split; auto.
    + destruct H as [-> [t ->]]. cbn [hd_error].
      conj; [reflexivity | reflexivity | | | | ].
      * intros b p c [H|[H|[]]]; [now inversion H | discriminate H].
      * discriminate.
      * intros u. split; [intros [= <-]; conj; auto; discriminate
                         | now intros (-> & _)].
      * cbn. split; [discriminate | intros [H _]; discriminate H].
Qed.

(** X1, witness: the signed document of Jane Doe is stored in the private
    bucket [good]. *)
Lemma X1_witness :
  result (storePdfInBucket Sample.world Sample.pdfBytes
            (js "signed/signed_doc-1.pdf") Sample.state)
  = Ok (js "gs://good/signed/signed_doc-1.pdf").
Proof.
  apply (@X1_storePdfInBucket_outcome Sample.world Sample.pdfBytes
           (js "signed/signed_doc-1.pdf") Sample.state).
  conj; [vm_compute; reflexivity | reflexivity | discriminate].
Defined.
Lemma locationParts_format (bucket path : Str) (makePublic : bool) :
  bucketOk bucket -> pathOk path ->
  locationParts (formatLocation bucket path makePublic) = Some (bucket, path).
Proof.
  intros [Hb0 Hb] [Hp0 Hp]. unfold locationParts, formatLocation.
  destruct makePublic.
  - assert (Hm : matchHttps (httpsPrefix ++ bucket ++ js "/" ++ path)
                 = Some (bucket, path)).
    { apply matchHttps_spec. unfold regexMatches. conj; try assumption.
      reflexivity. }
    change (js "https://storage.googleapis.com/") with httpsPrefix.
    replace (startsWith gsPrefix (httpsPrefix ++ bucket ++ js "/" ++ path))
      with false by reflexivity.
    now rewrite (matchHttps_startsWith _ Hm), Hm.
  - assert (Hm : matchGs (gsPrefix ++ bucket ++ js "/" ++ path)
                 = Some (bucket, path)).
    { apply matchGs_spec. unfold regexMatches. conj; try assumption.
      reflexivity. }
    change (js "gs://") with gsPrefix.
    now rewrite (matchGs_startsWith _ Hm), Hm.
Qed.

(** What the [try] block of [downloadPdfFromGcs] asks the storage backend
    for: nothing, when the location does not name an object of the
    configured bucket, and otherwise once for that object. *)
Lemma downloadBody_calls W v s :
  wp (downloadBody W v) s (fun r s' ev =>
    s' = s /\
    (filter isDownload ev = [] /\ (exists e, r = Throw e) /\
     (forall u p, v = VStr u -> locationParts u <> Some (BUCKET_NAME W, p))
     \/ exists u p,
          v = VStr u /\ locationParts u = Some (BUCKET_NAME W, p) /\
          filter isDownload ev = [EvGcsDownload (BUCKET_NAME W) p] /\
          hd_error ev = Some (EvGcsDownload (BUCKET_NAME W) p) /\
          r = match gcsDownload W (BUCKET_NAME W) p with
              | inl e => Throw e
              | inr c => Ok c
              end)).
Proof.
  unfold downloadBody. destruct v as [| |b|n|u|xs|fs];
    try (apply wp_throw; split; [reflexivity|]; left; conj;
         [reflexivity | eauto | intros u p H; discriminate H]).
  apply wp_bind. wp_use parseLocation_spec.
  intros r s1 ev1 [-> Hr]. destruct r as [[b p]|e].
  - destruct Hr as (-> & Hl & _).
    destruct (str_eqb b (BUCKET_NAME W)) eqn:Hb; cbn [negb].
    + apply str_eqb_eq in Hb. subst b.
      apply wp_bind, wp_emit. apply wp_bind, wp_liftSum.
      * intros e He. split; [reflexivity|]. right. exists u, p.
        rewrite He. conj; auto.
      * intros a Ha. apply wp_bind, wp_emit, wp_ret.
        split; [reflexivity|]. right. exists u, p. rewrite Ha. conj; auto.
    + apply wp_bind, wp_emit, wp_throw. split; [reflexivity|]. left.
      apply str_eqb_neq in Hb.
      conj; [reflexivity | eauto |]. intros u' p' [= <-]. congruence.
  - split; [reflexivity|]. left.
    destruct (locationParts u) as [[b p]|] eqn:Hparts.
    + destruct Hr as (_ & Hne & _ & ->).
      conj; [reflexivity | eauto |]. intros u' p' [= <-]. congruence.
    + destruct Hr as [-> _].
      conj; [reflexivity | eauto |]. intros u' p' [= <-]. congruence.
Qed.

Lemma filter_download_local (ev : list Event) :
  forallb isLocal ev = true -> filter isDownload ev = [].
Proof.
  induction ev as [|e ev IH]; [reflexivity|]. cbn.
  intros H. apply andb_true_iff in H as [H1 H2].
  destruct e; try discriminate H1; cbn; auto.
Qed.

(** X2. The location [storePdfInBucket] returns, private or public, leads
    [downloadPdfFromGcs] back to the object that was stored: for a bucket
    name without a slash and an object name without a line terminator,
    the first effect of the download is the backend call for that name in
    the configured bucket, and when the call returns its content is the
    result. *)
Theorem X2_stored_location_is_downloaded
    (W : World) (bytes : Bytes) (dest u : Str) (s s' : St) :
  bucketOk (BUCKET_NAME W) ->
  pathOk dest ->
  result (storePdfInBucket W bytes dest s) = Ok u ->
  let o := downloadPdfFromGcs W (VStr u) s' in
  final o = s' /\
  hd_error (effects o) = Some (EvGcsDownload (BUCKET_NAME W) dest) /\
  filter isDownload (effects o) = [EvGcsDownload (BUCKET_NAME W) dest] /\
  (forall content,
     gcsDownload W (BUCKET_NAME W) dest = inr content ->
     result o = Ok content).
Proof.
  intros HB Hd Hu.
  assert (Hloc : u = formatLocation (BUCKET_NAME W) dest (MAKE_PUBLIC W)).
  { pose proof (storePdfInBucket_spec W bytes dest s) as H. unfold wp in H.
    rewrite Hu in H. now destruct H as (_ & _ & -> & _). }
  pose proof (locationParts_format (MAKE_PUBLIC W) HB Hd) as Hparts.
  rewrite <- Hloc in Hparts. clear Hu Hloc.
  change (wp (downloadPdfFromGcs W (VStr u)) s' (fun r s1 ev =>
    s1 = s' /\
    hd_error ev = Some (EvGcsDownload (BUCKET_NAME W) dest) /\
    filter isDownload ev = [EvGcsDownload (BUCKET_NAME W) dest] /\
    (forall content,
       gcsDownload W (BUCKET_NAME W) dest = inr content -> r = Ok content))).
  unfold downloadPdfFromGcs. apply wp_tryCatch. wp_use downloadBody_calls.
  intros r s1 ev1 [-> [(_ & _ & Hno)|(u' & p & Hv & Hp & Hf & Hh & ->)]].
  - exfalso. exact (Hno u dest eq_refl Hparts).
  - inversion Hv. subst u'. rewrite Hparts in Hp. inversion Hp. subst p.
    destruct (gcsDownload W (BUCKET_NAME W) dest) as [e|c].
    + wp_use downloadCatch_spec. intros r s1 ev2 (-> & _ & Hl & _).
      conj; [reflexivity | | | discriminate].
      * destruct ev1; [discriminate Hh | exact Hh].
      * rewrite filter_app, Hf, (filter_download_local _ Hl). reflexivity.
    + conj; auto. intros content Hc. congruence.
Qed.

(** X2, witness: the signed document of Jane Doe, stored and fetched
    again. *)
Lemma X2_witness :
  result (downloadPdfFromGcs Sample.world
            (VStr (js "gs://good/signed/signed_doc-1.pdf")) Sample.state)
  = Ok Sample.pdfBytes.
Proof.
  assert (HB : bucketOk (BUCKET_NAME Sample.world))
    by (split; [discriminate | repeat constructor; discriminate]).
  assert (Hd : pathOk (js "signed/signed_doc-1.pdf"))
    by (split; [discriminate | repeat constructor]).
  apply (@X2_stored_location_is_downloaded Sample.world Sample.pdfBytes
           (js "signed/signed_doc-1.pdf")
           (js "gs://good/signed/signed_doc-1.pdf") Sample.state
           Sample.state HB Hd eq_refl).
  reflexivity.
Defined.

Lemma download_error_shapes W v s e :
  result (downloadPdfFromGcs W v s) = Throw e ->
  (e = newError (msgNotFound (toStr v))
   \/ e = newError (msgPermissionDenied (toStr v))
   \/ e = newError (msgDownloadFailed (toStr v))) /\
  exists text cause,
    result (downloadBody W v s) = Throw cause /\
    effects (downloadPdfFromGcs W v s)
    = effects (downloadBody W v s) ++ [EvConsole LError text (Some cause)].
Proof.
  unfold downloadPdfFromGcs, tryCatch.
  destruct (downloadBody W v s) as [[c|cause] s1 ev1];
    cbn [result final effects]; [discriminate|].
  unfold downloadCatch, bind, console, emit, throw.
  cbn [result final effects].
  destruct (codeIs cause 404 || includes (js "Not Found") (message cause));
    [|destruct (codeIs cause 403
                || includes (js "does not have storage.objects.get access")
                     (message cause))];
    cbn [result final effects]; intros [= <-]; (split; [auto|]);
    eexists; exists cause; rewrite !app_nil_r; split; reflexivity.
Qed.

(** X3. Take a value that a template literal prints as [toStr] does
    ([printable]: every string, and every other value but an object with
    an own [toString] and a number beyond the safe integers). Whatever
    goes wrong in [downloadPdfFromGcs] for it (a value that is not a
    string, a malformed location, a foreign bucket, a failure of the
    backend), the error the caller gets is one of three, each quoting the
    location: "PDF not found at GCS location", "Permission denied to
    download PDF from GCS" or "Failed to download PDF from GCS"; the cause
    is logged by [console.error], as the last effect. *)
Theorem X3_download_errors_are_rewrapped
    (W : World) (v : JsVal) (s : St) (e : JsError) :
  printable v = true ->
  let o := downloadPdfFromGcs W v s in
  result o = Throw e ->
  (e = newError (msgNotFound (toStr v))
   \/ e = newError (msgPermissionDenied (toStr v))
   \/ e = newError (msgDownloadFailed (toStr v))) /\
  exists text cause,
    result (downloadBody W v s) = Throw cause /\
    effects o
    = effects (downloadBody W v s) ++ [EvConsole LError text (Some cause)].
Proof.
  intros _ o. subst o. apply download_error_shapes.
Qed.

(** X3, witness: a number where the location should be. *)
Lemma X3_witness :
  result (downloadPdfFromGcs Sample.world (VNum 5) Sample.state)
  = Throw (newError (js "Failed to download PDF from GCS: 5.")).
Proof.
  assert (H : result (downloadPdfFromGcs Sample.world (VNum 5) Sample.state)
              = Throw (newError (js "Failed to download PDF from GCS: 5.")))
    by (vm_compute; reflexivity).
  destruct (@X3_download_errors_are_rewrapped Sample.world (VNum 5)
              Sample.state _ eq_refl H) as [_ _].
  exact H.
Defined.

(** X4. How [downloadPdfFromGcs] reports a failure of the storage backend
    for a location of the configured bucket: an error with code 404, or
    whose text contains "Not Found", as a missing document; otherwise an
    error with code 403, or whose text contains "does not have
    storage.objects.get access", as a denied permission; any other error
    as the general failure. The test on the text comes first: a 403 whose
    text contains "Not Found" is reported as a missing document. *)
Theorem X4_backend_failures_are_classified
    (W : World) (u p : Str) (s : St) (cause : JsError) :
  locationParts u = Some (BUCKET_NAME W, p) ->
  gcsDownload W (BUCKET_NAME W) p = inl cause ->
  let o := downloadPdfFromGcs W (VStr u) s in
  let notFound :=
    codeIs cause 404 || includes (js "Not Found") (message cause) in
  let denied :=
    codeIs cause 403
    || includes (js "does not have storage.objects.get access")
         (message cause) in
  (notFound = true -> result o = Throw (newError (msgNotFound u))) /\
  (notFound = false -> denied = true ->
   result o = Throw (newError (msgPermissionDenied u))) /\
  (notFound = false -> denied = false ->
   result o = Throw (newError (msgDownloadFailed u))) /\
  filter isDownload (effects o) = [EvGcsDownload (BUCKET_NAME W) p].
Proof.
  intros Hparts Hdl o notFound denied.
  assert (Hbody : result (downloadBody W (VStr u) s) = Throw cause /\
                  filter isDownload (effects (downloadBody W (VStr u) s))
                  = [EvGcsDownload (BUCKET_NAME W) p]).
  { pose proof (downloadBody_calls W (VStr u) s) as H. unfold wp in H.
    destruct H as [_ [(_ & _ & Hno)|(u' & p' & Hv & Hp & Hf & _ & Hr)]].
    - exfalso. exact (Hno u p eq_refl Hparts).
    - inversion Hv. subst u'. rewrite Hparts in Hp. inversion Hp. subst p'.
      rewrite Hdl in Hr. auto. }
  destruct Hbody as [Hr Hf]. subst o notFound denied.
  unfold downloadPdfFromGcs, tryCatch.
  destruct (downloadBody W (VStr u) s) as [r s1 ev1].
  cbn [result final effects] in *. subst r.
  unfold downloadCatch, bind, console, emit, throw.
  cbn [result final effects toStr].
  destruct (codeIs cause 404 || includes (js "Not Found") (message cause));
    [|destruct (codeIs cause 403
                || includes (js "does not have storage.objects.get access")
                     (message cause))];
    cbn [result final effects]; rewrite !app_nil_r, filter_app, Hf;
    (conj; [ | | | reflexivity]); intros; try discriminate; reflexivity.
Qed.

(** X4, witness: the object is gone from the bucket. *)
Lemma X4_witness :
  result (downloadPdfFromGcs Scene.objectGone (VStr (js "gs://good/a.pdf"))
            Sample.state)
  = Throw (newError (msgNotFound (js "gs://good/a.pdf"))).
Proof.
  apply (@X4_backend_failures_are_classified Scene.objectGone
           (js "gs://good/a.pdf") (js "a.pdf") Sample.state
           (mkError (VNum 404) (js "No such object")));
    reflexivity.
Defined.

(** X5. [downloadPdfFromGcs] never asks the storage backend for an object
    outside the configured bucket, whatever it is given: it makes at most
    one call, for the configured bucket and the path that the location
    names, and it changes no state. *)
Theorem X5_download_stays_in_the_configured_bucket
    (W : World) (v : JsVal) (s : St) :
  let o := downloadPdfFromGcs W v s in
  final o = s /\
  (filter isDownload (effects o) = []
   \/ exists u p,
        v = VStr u /\ locationParts u = Some (BUCKET_NAME W, p) /\
        filter isDownload (effects o) = [EvGcsDownload (BUCKET_NAME W) p]).
Proof.
  intros o. subst o.
  change (wp (downloadPdfFromGcs W v) s (fun r s' ev =>
    s' = s /\
    (filter isDownload ev = []
     \/ exists u p,
          v = VStr u /\ locationParts u = Some (BUCKET_NAME W, p) /\
          filter isDownload ev = [EvGcsDownload (BUCKET_NAME W) p]))).
  unfold downloadPdfFromGcs. apply wp_tryCatch. wp_use downloadBody_calls.
  intros r s1 ev1 [-> Hc].
  assert (Hev : filter isDownload ev1 = []
     \/ exists u p,
          v = VStr u /\ locationParts u = Some (BUCKET_NAME W, p) /\
          filter isDownload ev1 = [EvGcsDownload (BUCKET_NAME W) p]).
  { destruct Hc as [(Hf & _)|(u & p & Hv & Hp & Hf & _)]; [now left|].
    right. exists u, p. auto. }
  destruct r as [c|e]; [auto|].
  wp_use downloadCatch_spec. intros r s1 ev2 (-> & _ & Hl & _).
  split; [reflexivity|]. rewrite filter_app, (filter_download_local _ Hl).
  now rewrite app_nil_r.
Qed.

(** ** Composition of a block *)

Lemma composable_parts W p cfg signatureData fields font :
  composable W (Some p) cfg signatureData fields font = true <->
  drawable W (composedBlock W cfg signatureData fields font) = true /\
  (typedActive fields = true ->
   readable W (chosenFontFile W (keyboardSignature fields)) = true) /\
  (truthy signatureData = true -> decodable W signatureData = true).
Proof.
  unfold composable. rewrite !andb_true_iff.
  destruct (typedActive fields); destruct (truthy signatureData);
    intuition congruence.
Qed.

(** Closing a branch of the composition that failed: [H] says the block
    is composable, and one of the facts in the context says it is not. *)
Ltac not_composable H :=
  apply composable_parts in H;
  let Hd := fresh "Hd" in
  let Hr := fresh "Hr" in
  let Hi := fresh "Hi" in
  destruct H as (Hd & Hr & Hi);
  unfold drawable, composedBlock, blockHeader, fieldLine, typedBlock,
    drawnBlock, textLine in Hd;
  repeat match goal with
         | E : typedActive _ = _ |- _ => rewrite E in Hd
         | E : truthy _ = _ |- _ => rewrite E in Hd
         end;
  cbn [forallb app] in Hd;
  repeat match goal with
         | E : drawTextError _ _ _ = _ |- _ => rewrite E in Hd; clear E
         end;
  cbn [andb] in Hd; discriminate Hd.

Ltac failed_draw :=
  let e := fresh "e" in
  let He := fresh "He" in
  let H := fresh "H" in
  intros e He; cbv beta iota; apply wp_throw;
  split; [discriminate | intros H; not_composable H].

(** A [drawText] of the composition: it fails, and the block is not
    composable, or the composition goes on. *)
Ltac draw := apply wp_drawText; [failed_draw | intros ?E].

(** The text of a block that was drawn in full is drawable. *)
Ltac drawn_in_full :=
  unfold drawable, composedBlock, blockHeader, fieldLine, typedBlock,
    drawnBlock, textLine;
  repeat match goal with
         | E : typedActive _ = _ |- _ => rewrite E
         | E : truthy _ = _ |- _ => rewrite E
         end;
  cbn [forallb app];
  repeat match goal with
         | E : drawTextError _ _ _ = _ |- _ => rewrite E; clear E
         end;
  reflexivity.

Lemma signatureBytes_cases W signatureData s :
  wp (signatureBytes W signatureData) s (fun r s' ev =>
    ev = [] /\ s' = s /\
    ((exists d b64,
        signatureData = VStr d /\ nth_error (split comma d) 1 = Some b64 /\
        r = Ok (base64Decode W b64))
     \/ (decodable W signatureData = false /\ exists e, r = Throw e))).
Proof.
  unfold signatureBytes.
  destruct signatureData as [| |b|n|d|xs|fs];
    try (apply wp_throw; conj; [reflexivity | reflexivity |]; right;
         split; [reflexivity | eauto]).
  destruct (nth_error (split comma d) 1) as [b64|] eqn:Hnth.
  - apply wp_ret. conj; [reflexivity | reflexivity |]. left. eauto.
  - apply wp_throw. conj; [reflexivity | reflexivity |]. right.
    unfold decodable. rewrite Hnth. eauto.
Qed.

(** X6. The exact condition under which [addSignatureToPage] returns:
    the page exists, pdf-lib accepts every text of the block (title,
    labels, values, signature label and typed text), the font file of a
    typed signature can be read, and the image of a drawn signature has a
    part after its first comma that [embedPng] accepts. In every other
    case it throws. *)
Theorem X6_addSignatureToPage_returns_iff_composable
    (W : World) (pg : option nat) (cfg : SignatureConfig)
    (signatureData : JsVal) (fields : Fields) (font : Font) (s : St) :
  result (addSignatureToPage W pg cfg signatureData fields font s) = Ok tt
  <-> composable W pg cfg signatureData fields font = true.
Proof.
  change (wp (addSignatureToPage W pg cfg signatureData fields font) s
            (fun r _ _ =>
               r = Ok tt
               <-> composable W pg cfg signatureData fields font = true)).
  unfold addSignatureToPage. cbv zeta. apply wp_tryCatch.
  destruct pg as [p|].
  2:{ apply wp_bind. wp_use drawText_nopage.
      intros r s1 ev1 (-> & -> & e & ->). apply wp_throw.
      split; discriminate. }
  (* the title and the four field lines *)
  draw. apply wp_bind. unfold fieldOrder. cbn [drawFields].
  do 8 draw. apply wp_ret. apply wp_bind.
  (* the typed signature *)
  unfold drawKeyboardSignature.
  change (truthy (optGet (keyboardSignature fields) (js "text")))
    with (typedActive fields).
  fold (chosenFontFile W (keyboardSignature fields)).
  assert (Hreadable :
    forall bytes,
      fsReadFile W (chosenFontFile W (keyboardSignature fields)) = inr bytes ->
      typedActive fields = true ->
      readable W (chosenFontFile W (keyboardSignature fields)) = true)
    by (intros bytes Hb _; unfold readable; now rewrite Hb).
  destruct (typedActive fields) eqn:Hty.
  - apply wp_bind. wp_use readFile_spec. intros r s1 ev1 (-> & -> & ->).
    destruct (fsReadFile W (chosenFontFile W (keyboardSignature fields)))
      as [e0|bytes] eqn:Hread.
    { apply wp_throw. split; [discriminate|]. intros H.
      apply composable_parts in H. destruct H as (_ & Hr & _).
      specialize (Hr Hty). unfold readable in Hr. rewrite Hread in Hr.
      discriminate Hr. }
    specialize (Hreadable bytes eq_refl).
    do 2 draw. apply wp_ret.
    (* the drawn signature *)
    unfold drawSignaturePad. destruct (truthy signatureData) eqn:Hsd.
    + draw.
      assert (Hbad : decodable W signatureData = false ->
        ~ composable W (Some p) cfg signatureData fields font = true)
        by (intros Hdec H; apply composable_parts in H;
            destruct H as (_ & _ & Hi); rewrite (Hi Hsd) in Hdec;
            discriminate Hdec).
      apply wp_bind. wp_use signatureBytes_cases.
      intros r s1 ev1 (-> & -> & [(d & b64 & Hd & Hnth & ->)|(Hdec & e & ->)]).
      2:{ apply wp_throw. split; [discriminate|]. intros H.
          destruct (Hbad Hdec H). }
      apply wp_bind, wp_liftErr.
      { intros e He. apply wp_throw. split; [discriminate|]. intros H.
        destruct (Hbad ltac:(rewrite Hd; unfold decodable;
                             now rewrite Hnth, He) H). }
      intros Hpng. unfold drawImage, wp, addOp. cbn [result final effects].
      split; [intros _ | reflexivity]. apply composable_parts.
      conj; [drawn_in_full | intros _; now apply Hreadable |].
      intros _. rewrite Hd. unfold decodable. now rewrite Hnth, Hpng.
    + apply wp_ret. split; [intros _ | reflexivity]. apply composable_parts.
      conj; [drawn_in_full | intros _; now apply Hreadable | congruence].
  - apply wp_ret. clear Hreadable.
    unfold drawSignaturePad. destruct (truthy signatureData) eqn:Hsd.
    + draw.
      assert (Hbad : decodable W signatureData = false ->
        ~ composable W (Some p) cfg signatureData fields font = true)
        by (intros Hdec H; apply composable_parts in H;
            destruct H as (_ & _ & Hi); rewrite (Hi Hsd) in Hdec;
            discriminate Hdec).
      apply wp_bind. wp_use signatureBytes_cases.
      intros r s1 ev1 (-> & -> & [(d & b64 & Hd & Hnth & ->)|(Hdec & e & ->)]).
      2:{ apply wp_throw. split; [discriminate|]. intros H.
          destruct (Hbad Hdec H). }
      apply wp_bind, wp_liftErr.
      { intros e He. apply wp_throw. split; [discriminate|]. intros H.
        destruct (Hbad ltac:(rewrite Hd; unfold decodable;
                             now rewrite Hnth, He) H). }
      intros Hpng. unfold drawImage, wp, addOp. cbn [result final effects].
      split; [intros _ | reflexivity]. apply composable_parts.
      conj; [drawn_in_full | congruence |].
      intros _. rewrite Hd. unfold decodable. now rewrite Hnth, Hpng.
    + apply wp_ret. split; [intros _ | reflexivity]. apply composable_parts.
      conj; [drawn_in_full | congruence | congruence].
Qed.
(** X7. A block whose page index is past the last page of the document
    is not composed: [pages[i]] is undefined, the [TypeError] of the first
    [drawText] is rewrapped by [addSignatureToPage], logged once, and the
    block gives the 500 response that names it; nothing is drawn, read or
    sent. *)
Theorem X7_block_on_a_missing_page
    (W : World) (b : Block) (signatureData : JsVal) (fields : Fields)
    (n : nat) (font : Font) (s : St) :
  (n <= page (blockConfig W b))%nat ->
  let o := tryBlock W b signatureData fields n font s in
  let m :=
    msgSignatureInsert
      ++ js "Cannot read properties of undefined (reading 'drawText')" in
  result o = Ok (Some (jsonError 500 (blockMessage b ++ m))) /\
  final o = s /\
  effects o = [EvConsole LError (blockLogText b) (Some (newError m))].
Proof.
  intros Hn o m. subst o.
  change (wp (tryBlock W b signatureData fields n font) s
            (fun r s' ev =>
               r = Ok (Some (jsonError 500 (blockMessage b ++ m))) /\
               s' = s /\
               ev = [EvConsole LError (blockLogText b) (Some (newError m))])).
  unfold tryBlock, pageAt. apply Nat.ltb_ge in Hn. rewrite Hn.
  apply wp_tryCatch, wp_bind.
  unfold addSignatureToPage. cbv zeta. apply wp_tryCatch, wp_bind.
  apply wp_throw, wp_throw, wp_bind, wp_emit, wp_ret.
  conj; reflexivity.
Qed.

(** X7, witness: a document of five pages, the contract block on a later
    page. *)
Lemma X7_witness :
  final (tryBlock Sample.world Contract Sample.png (Sample.fields VUndefined)
           5 Helvetica Sample.state) = Sample.state.
Proof.
  apply (@X7_block_on_a_missing_page Sample.world Contract Sample.png
           (Sample.fields VUndefined) 5%nat Helvetica Sample.state).
  vm_compute. repeat constructor.
Defined.
(** X8. [addSignatureToPage] itself does not choose between the two
    signatures: called with a typed text and a drawn signature together,
    a call that returns has drawn both, the typed signature first and the
    label of the drawn one two lines (50 units) further down. *)
Theorem X8_both_signatures_are_drawn_when_both_are_passed
    (W : World) (pg : option nat) (cfg : SignatureConfig)
    (signatureData : JsVal) (fields : Fields) (font : Font) (s : St) :
  typedActive fields = true ->
  truthy signatureData = true ->
  let o := addSignatureToPage W pg cfg signatureData fields font s in
  let y := textBlockY cfg in
  result o = Ok tt ->
  exists p,
    pg = Some p /\
    final o = addOps s (onPage p
      (blockHeader W cfg fields font
       ++ [DrawText (VStr labelTyped) 150 (y - 125) 12 font black;
           DrawText (optGet (keyboardSignature fields) (js "text"))
             150 (y - 150) 16 font black;
           DrawText (VStr labelDrawn) 150 (y - 175) 12 font black;
           DrawImage (imageBytes W signatureData) (sigX cfg) (sigY cfg)
             (sigWidth cfg) (sigHeight cfg)])).
Proof.
  intros Hty Hsd o y Hok.
  pose proof (addSignatureToPage_spec W pg cfg signatureData fields font s)
    as H. unfold wp in H. cbv zeta in H. destruct H as [_ H].
  fold o in H. rewrite Hok in H. destruct H as [(p & -> & Hs) _].
  exists p. split; [reflexivity|]. rewrite Hs.
  unfold composedBlock, typedBlock, drawnBlock, textLine.
  rewrite Hty, Hsd. subst y.
  replace (textBlockY cfg - 125 - 25)%Z with (textBlockY cfg - 150)%Z by lia.
  reflexivity.
Qed.

(** X8, witness: a direct call with both signatures draws thirteen
    operations. *)
Lemma X8_witness :
  List.length
    (doc (final (addSignatureToPage Sample.world (Some 9%nat)
                   (pdfConfig.contractSignature Sample.config) Sample.png
                   (Sample.fields (Sample.typed "Barlow")) Helvetica
                   Sample.state))) = 13%nat.
Proof.
  destruct (@X8_both_signatures_are_drawn_when_both_are_passed Sample.world
              (Some 9%nat) (pdfConfig.contractSignature Sample.config)
              Sample.png (Sample.fields (Sample.typed "Barlow")) Helvetica
              Sample.state eq_refl eq_refl eq_refl) as (p & _ & Hs).
  rewrite Hs. reflexivity.
Defined.

(** X9. A composition that fails is not undone. What
    [addSignatureToPage] throws is always the wrapped error "Fehler beim
    Einfuegen der Unterschrift: <cause>"; what a failed call has added
    to the page stays there and is text only (the image is the last
    operation); it has read at most the one font file, and has not
    touched the document store. *)
Theorem X9_failed_composition
    (W : World) (pg : option nat) (cfg : SignatureConfig)
    (signatureData : JsVal) (fields : Fields) (font : Font) (s : St)
    (e : JsError) :
  let o := addSignatureToPage W pg cfg signatureData fields font s in
  result o = Throw e ->
  (exists cause, e = newError (msgSignatureInsert ++ cause)) /\
  (exists ops, final o = addOps s ops /\ existsb isImageOp ops = false) /\
  (effects o = []
   \/ effects o = [EvReadFile (chosenFontFile W (keyboardSignature fields))]).
Proof.
  intros o He.
  pose proof (addSignatureToPage_spec W pg cfg signatureData fields font s)
    as H. unfold wp in H. cbv zeta in H. fold o in H. rewrite He in H.
  destruct H as (Hev & Hm & ops & Hops & Hs). conj; eauto.
Qed.

(** X9, witness: the drawn signature of Jane Doe is not an image; the
    title, the field lines and the label of the signature stay on the
    page. *)
Lemma X9_witness :
  let o := addSignatureToPage Sample.world (Some 9%nat)
             (pdfConfig.contractSignature Sample.config) Sample.brokenImage
             (Sample.fields VUndefined) Helvetica Sample.state in
  (exists cause, result o = Throw (newError (msgSignatureInsert ++ cause))) /\
  List.length (doc (final o)) = 10%nat.
Proof.
  intros o.
  assert (He : result o
    = Throw (newError (msgSignatureInsert ++ js "The input is not a PNG file!")))
    by (vm_compute; reflexivity).
  destruct (@X9_failed_composition Sample.world (Some 9%nat)
              (pdfConfig.contractSignature Sample.config) Sample.brokenImage
              (Sample.fields VUndefined) Helvetica Sample.state _ He)
    as ([cause Hc] & _).
  split; [exists cause; rewrite He; now f_equal | vm_compute; reflexivity].
Defined.

(** ** [/api/sign] *)

Lemma hasTextFields_false (req : RequestBody) :
  hasTextFields req = false ->
  negb (truthy (fullName req)) || negb (truthy (location req))
  || negb (truthy (email req)) = true.
Proof.
  unfold hasTextFields.
  destruct (truthy (fullName req)), (truthy (location req)),
    (truthy (email req)); cbn; congruence.
Qed.

Lemma hasTextFields_true (req : RequestBody) :
  hasTextFields req = true ->
  negb (truthy (fullName req)) || negb (truthy (location req))
  || negb (truthy (email req)) = false.
Proof.
  unfold hasTextFields.
  destruct (truthy (fullName req)), (truthy (location req)),
    (truthy (email req)); cbn; congruence.
Qed.

(** The answers of [/api/sign], by the stage the request reaches. *)
Lemma apiSign_answers W req s :
  wp (apiSign W req) s (fun r s' ev =>
    exists response, r = Ok response /\
    let record := storeGet (pdfStore s) (pdfId req) in
    if negb (hasTextFields req) then
      response = jsonError 400 msgAllFields /\ ev = [] /\ s' = s
    else if negb (truthy (pdfId req)) then
      response = jsonOk (signTestData req) /\ ev = [] /\ s' = s
    else if negb (truthy record) then
      response = jsonError 404 msgPdfNotFound /\ ev = [] /\ s' = s
    else if negb (truthy (optGet record (js "pdfUrl"))) then
      response = jsonError 500 msgNoLocation /\ s' = s /\
      forallb isLocal ev = true
    else statusCode response = 200%Z \/ statusCode response = 500%Z).
Proof.
  cbv zeta. unfold apiSign.
  destruct (hasTextFields req) eqn:Hf; cbn [negb].
  2:{ rewrite (hasTextFields_false _ Hf). apply wp_tryCatch, wp_ret. eauto. }
  rewrite (hasTextFields_true _ Hf).
  destruct (truthy (pdfId req)); cbn [negb];
    [|apply wp_tryCatch, wp_ret; eauto].
  apply wp_tryCatch, wp_bind. unfold wp at 1, getStore.
  cbn [result final effects]. cbv zeta.
  destruct (truthy (storeGet (pdfStore s) (pdfId req))); cbn [negb];
    [|apply wp_ret; eauto].
  destruct (truthy (optGet (storeGet (pdfStore s) (pdfId req)) (js "pdfUrl")));
    cbn [negb]; [|apply wp_bind, wp_emit, wp_ret; eauto].
  apply (@wp_conseq _ _ _ (fun r _ _ =>
    match r with
    | Ok response => statusCode response = 200%Z \/ statusCode response = 500%Z
    | Throw _ => True
    end)).
  2:{ intros [response|e] s' ev H; [eauto|].
      apply wp_bind, wp_emit, wp_ret. eexists. split; [reflexivity|].
      right. reflexivity. }
  apply wp_bind. wp_use downloadPdfFromGcs_spec.
  intros r s1 ev1 _. destruct r as [bytes|e]; [|exact I].
  apply wp_bind. wp_use loadPdf_spec. intros r s2 ev2 _.
  destruct r as [n|e]; [|exact I].
  apply wp_bind. wp_use embedHelvetica_spec. intros r s3 ev3 _.
  destruct r as [font|e]; [|exact I].
  wp_use signCompose_spec. intros r s4 ev4 (_ & _ & _ & _ & Hr).
  destruct r as [response|e]; [|exact I].
  destruct Hr as [[[msg ->] _]|[-> _]]; auto.
Qed.

Ltac answer_cases H :=
  repeat match type of H with
         | _ /\ _ => let H1 := fresh "H" in destruct H as [H1 H]; try subst
         end;
  try subst; unfold jsonError, jsonOk; cbn [statusCode];
  conj;
  try solve [split; intros; try discriminate; intuition congruence
            | intros; try discriminate; intuition congruence ].

(** X10. [/api/sign] always answers. It answers 400 exactly when
    [fullName], [location] or [email] is missing or empty; that answer,
    and the test answer to a request without a document id (200, echoing
    what was received, nothing signed), come before any effect and leave
    the state alone. For a document id that is looked up as [toStr]
    prints it ([printable]: a string, in particular), it answers 404
    exactly when the three fields are there, the id is given and
    [pdfStore] has nothing under it, again without any effect; and a
    record without a [pdfUrl] is answered with 500 and a line of log. *)
Theorem X10_sign_answers_before_any_work
    (W : World) (req : RequestBody) (s : St) :
  let o := apiSign W req s in
  let record := storeGet (pdfStore s) (pdfId req) in
  exists response,
    result o = Ok response /\
    (statusCode response = 400%Z <-> hasTextFields req = false) /\
    (statusCode response = 400%Z -> effects o = [] /\ final o = s) /\
    (hasTextFields req = true -> truthy (pdfId req) = false ->
     response = jsonOk (signTestData req) /\ effects o = [] /\ final o = s) /\
    (printable (pdfId req) = true ->
     (statusCode response = 404%Z <->
      hasTextFields req = true /\ truthy (pdfId req) = true /\
      truthy record = false) /\
     (statusCode response = 404%Z -> effects o = [] /\ final o = s) /\
     (hasTextFields req = true -> truthy (pdfId req) = true ->
      truthy record = true -> truthy (optGet record (js "pdfUrl")) = false ->
      response = jsonError 500 msgNoLocation /\ final o = s /\
      forallb isLocal (effects o) = true)).
Proof.
  intros o record.
  pose proof (apiSign_answers W req s) as H. unfold wp in H.
  fold o in H. destruct H as (response & Hr & H). fold record in H.
  cbv zeta in H. exists response. split; [exact Hr|].
  destruct (hasTextFields req); cbn [negb] in H; [|answer_cases H].
  destruct (truthy (pdfId req)); cbn [negb] in H; [|answer_cases H].
  destruct (truthy record); cbn [negb] in H; [|answer_cases H].
  destruct (truthy (optGet record (js "pdfUrl"))); cbn [negb] in H;
    [|answer_cases H].
  destruct H as [H|H]; conj;
    solve [split; intros; try discriminate; intuition congruence
          | intros; try discriminate; intuition congruence ].
Qed.

(** X10, witness: a request without an e-mail address. *)
Lemma X10_witness :
  let req := Sample.request Sample.png VUndefined VUndefined VUndefined
               VUndefined in
  exists response,
    result (apiSign Sample.world
              (mkRequestBody (fullName req) (location req) VNull
                 (signature req) VUndefined VUndefined (pdfId req) VUndefined
                 VUndefined VUndefined VUndefined VUndefined)
              Sample.state)
    = Ok response /\ statusCode response = 400%Z.
Proof.
  intros req.
  destruct (@X10_sign_answers_before_any_work Sample.world
              (mkRequestBody (fullName req) (location req) VNull
                 (signature req) VUndefined VUndefined (pdfId req)
                 VUndefined VUndefined VUndefined VUndefined VUndefined)
              Sample.state) as (response & Hr & H400 & _).
  exists response. split; [exact Hr|]. apply H400. reflexivity.
Defined.

(** X11. The document store is a plain object, so an id that names a
    member of [Object.prototype] ("constructor", "toString", ...) and no
    stored document is not answered with 404: [pdfStore[pdfId]] is the
    inherited member, which is truthy and has no [pdfUrl], and the answer
    is the 500 of a record without location. *)
Theorem X11_sign_with_the_name_of_an_inherited_member
    (W : World) (req : RequestBody) (s : St) :
  hasTextFields req = true ->
  truthy (pdfId req) = true ->
  In (toStr (pdfId req)) objectPrototypeKeys ->
  lookup (toStr (pdfId req)) (pdfStore s) = None ->
  let o := apiSign W req s in
  result o = Ok (jsonError 500 msgNoLocation) /\ final o = s.
Proof.
  intros Hf Hp Hk Hl o.
  assert (Hget : storeGet (pdfStore s) (pdfId req) = VObj []).
  { unfold storeGet. rewrite Hl.
    replace (existsb (str_eqb (toStr (pdfId req))) objectPrototypeKeys)
      with true; [reflexivity|].
    symmetry. apply existsb_exists. exists (toStr (pdfId req)).
    split; [exact Hk | apply str_eqb_refl]. }
  pose proof (apiSign_answers W req s) as H. unfold wp in H.
  fold o in H. destruct H as (response & Hr & H). cbv zeta in H.
  rewrite Hf, Hp, Hget in H. cbn in H. destruct H as (-> & Hs & _).
  split; [exact Hr | exact Hs].
Qed.

(** X11, witness: Jane Doe signs the document "constructor". *)
Lemma X11_witness :
  let req := Sample.request Sample.png VUndefined VUndefined VUndefined
               VUndefined in
  result (apiSign Sample.world
            (mkRequestBody (fullName req) (location req) (email req)
               (signature req) VUndefined VUndefined
               (VStr (js "constructor")) VUndefined VUndefined VUndefined
               VUndefined VUndefined)
            Sample.state)
  = Ok (jsonError 500 msgNoLocation).
Proof.
  intros req.
  apply (@X11_sign_with_the_name_of_an_inherited_member Sample.world
           (mkRequestBody (fullName req) (location req) (email req)
              (signature req) VUndefined VUndefined
              (VStr (js "constructor")) VUndefined VUndefined VUndefined
              VUndefined VUndefined)
           Sample.state); try reflexivity.
  left. reflexivity.
Defined.
Lemma includes_middle (p a b : Str) : includes p (a ++ p ++ b) = true.
Proof.
  induction a as [|x a IH].
  - destruct (p ++ b) eqn:E; cbn [app includes];
      rewrite <- E, startsWith_app; reflexivity.
  - cbn [app includes]. rewrite IH. apply orb_true_r.
Qed.

(** X12. When the stored document cannot be fetched, [/api/sign] answers
    500 with the message of the download error, which quotes the stored
    location of the document; the state is as before, and nothing is
    uploaded or sent to the webhook. *)
Theorem X12_sign_reports_a_failed_download
    (W : World) (req : RequestBody) (s : St) (e : JsError) :
  let stored := optGet (storeGet (pdfStore s) (pdfId req)) (js "pdfUrl") in
  hasTextFields req = true ->
  truthy (pdfId req) = true ->
  truthy stored = true ->
  result (downloadPdfFromGcs W stored s) = Throw e ->
  let o := apiSign W req s in
  result o = Ok (jsonError 500 (message e)) /\
  includes (toStr stored) (message e) = true /\
  final o = s /\
  existsb isUpload (effects o) = false /\
  existsb isFetch (effects o) = false.
Proof.
  intros stored Hf Hid Hloc He o.
  assert (Hquote : includes (toStr stored) (message e) = true).
  { destruct (@download_error_shapes W stored s e He)
      as [[-> | [-> | ->]] _]; cbn [message newError];
      unfold msgNotFound, msgPermissionDenied, msgDownloadFailed;
      apply includes_middle. }
  subst o.
  change (wp (apiSign W req) s (fun r s' ev =>
    r = Ok (jsonError 500 (message e)) /\
    includes (toStr stored) (message e) = true /\
    s' = s /\ existsb isUpload ev = false /\ existsb isFetch ev = false)).
  unfold apiSign. apply wp_tryCatch.
  rewrite (hasTextFields_true _ Hf), Hid. cbn [negb].
  apply wp_bind. unfold wp at 1, getStore. cbn [result final effects].
  cbv zeta. fold stored. rewrite (truthy_optGet _ _ Hloc), Hloc.
  cbn [negb app]. apply wp_bind.
  eapply wp_conseq;
    [apply wp_and; [apply wp_self | apply downloadPdfFromGcs_spec]|].
  cbv beta. intros r s1 ev1 [(-> & _ & _) [-> Hev]]. rewrite He.
  apply wp_bind, wp_emit, wp_ret. rewrite app_nil_r.
  conj; [reflexivity | exact Hquote | reflexivity | |].
  - apply existsb_app_false; [|reflexivity].
    revert Hev. apply existsb_none. event_class.
  - apply existsb_app_false; [|reflexivity].
    revert Hev. apply existsb_none. event_class.
Qed.

(** X12, witness: the document of Jane Doe is gone from the bucket. *)
Lemma X12_witness :
  result (apiSign Scene.objectGone
            (Sample.request Sample.png VUndefined VUndefined VUndefined
               VUndefined) Sample.state)
  = Ok (jsonError 500
          (js "PDF not found at GCS location: gs://good/uploads/uploaded_doc-1.pdf.")).
Proof.
  apply (@X12_sign_reports_a_failed_download Scene.objectGone
           (Sample.request Sample.png VUndefined VUndefined VUndefined
              VUndefined) Sample.state
           (newError (js "PDF not found at GCS location: gs://good/uploads/uploaded_doc-1.pdf.")));
    vm_compute; reflexivity.
Defined.

(** X13. What a successful [/api/sign] has produced. The stored document
    was fetched and loaded, and the pages received exactly the contract
    block and, when the withdrawal was accepted, after it the withdrawal
    block, each with the signature resolved for it and the date of the
    day; nothing else was drawn. The bytes uploaded under
    [signed/signed_<pdfId>.pdf] are the serialisation of that document. *)
Theorem X13_what_a_successful_sign_has_produced
    (W : World) (req : RequestBody) (s : St) (u : Str) :
  let o := apiSign W req s in
  let stored := optGet (storeGet (pdfStore s) (pdfId req)) (js "pdfUrl") in
  let block b :=
    composedBlock W (blockConfig W b) (signSignatureData req b)
      (signFields W req b) Helvetica in
  result o = Ok (jsonOk (VObj [(js "pdfUrl", VStr u)])) ->
  exists original n pc,
    result (downloadPdfFromGcs W stored s) = Ok original /\
    pdfLoad W original = inr n /\
    pageAt n (page (blockConfig W Contract)) = Some pc /\
    (truthy (withdrawalAccepted req) = false ->
     doc (final o) = onPage pc (block Contract)) /\
    (truthy (withdrawalAccepted req) = true ->
     exists pw,
       pageAt n (page (blockConfig W Withdrawal)) = Some pw /\
       doc (final o)
       = onPage pc (block Contract) ++ onPage pw (block Withdrawal)) /\
    exists signed,
      pdfSave W original (doc (final o)) = inr signed /\
      In (EvGcsSave (BUCKET_NAME W) (signedName req) signed) (effects o).
Proof.
  intros o stored block Hu. exact (@apiSign_produced W req s u Hu).
Qed.

(** X13, witness: Jane Doe signs document [doc-1] with a drawn signature;
    the upload carries the serialisation of the document with the
    contract block on it. *)
Lemma X13_witness :
  let req := Sample.request Sample.png VUndefined VUndefined VUndefined
               VUndefined in
  let o := apiSign Sample.world req Sample.state in
  exists pc signed,
    doc (final o)
    = onPage pc
        (composedBlock Sample.world (blockConfig Sample.world Contract)
           (signSignatureData req Contract)
           (signFields Sample.world req Contract) Helvetica) /\
    In (EvGcsSave (BUCKET_NAME Sample.world) (signedName req) signed)
      (effects o).
Proof.
  intros req o.
  assert (H : result o
    = Ok (jsonOk (VObj [(js "pdfUrl",
                         VStr (js "gs://good/signed/signed_doc-1.pdf"))])))
    by (vm_compute; reflexivity).
  destruct (@X13_what_a_successful_sign_has_produced Sample.world req
              Sample.state _ H)
    as (original & n & pc & _ & _ & _ & Hdoc & _ & signed & _ & Hin).
  exists pc, signed. split; [apply Hdoc; reflexivity | exact Hin].
Defined.
(** X14. When the withdrawal was not accepted, [/api/sign] never looks at
    the two withdrawal signatures: for a request with a document id, the
    run (answer, state and effects) is the same whatever they are. *)
Theorem X14_unaccepted_withdrawal_signatures_are_ignored
    (W : World) (req : RequestBody) (drawnSignature typedSignature : JsVal)
    (s : St) :
  truthy (withdrawalAccepted req) = false ->
  truthy (pdfId req) = true ->
  apiSign W (withWithdrawalSignatures req drawnSignature typedSignature) s
  = apiSign W req s.
Proof.
  intros Hwa Hid.
  unfold apiSign, signCompose, signFinish, signWebhookPayload, signBlock,
    signSignatureData, signFields, typedOf, drawnOf, withWithdrawalSignatures.
  cbn [fullName location email signature withdrawalAccepted
       withdrawalSignature pdfId contractKeyboardSignature
       withdrawalKeyboardSignature].
  rewrite Hwa, Hid. reflexivity.
Qed.

(** X14, witness: Jane Doe sends a withdrawal signature without accepting
    the withdrawal. *)
Lemma X14_witness :
  let req := Sample.request Sample.png VUndefined VUndefined VUndefined
               VUndefined in
  apiSign Sample.world
    (withWithdrawalSignatures req Sample.brokenImage (Sample.typed "Barlow"))
    Sample.state
  = apiSign Sample.world req Sample.state.
Proof.
  intros req.
  apply (@X14_unaccepted_withdrawal_signatures_are_ignored Sample.world req
           Sample.brokenImage (Sample.typed "Barlow") Sample.state);
    reflexivity.
Defined.
(** ** The webhook *)

Lemma sameOutcome_refl {A} (o : Out A) : sameOutcome o o.
Proof. split; reflexivity. Qed.

Lemma sameOutcome_bind {A B} (m : M A) (k k' : A -> M B) s :
  (forall a s1, sameOutcome (k a s1) (k' a s1)) ->
  sameOutcome (bind m k s) (bind m k' s).
Proof.
  intros H. unfold sameOutcome, bind.
  destruct (m s) as [[a|e] s1 ev]; cbn [result final].
  - apply H.
  - split; reflexivity.
Qed.

Lemma sameOutcome_tryCatch {A} (m m' : M A) (h : JsError -> M A) s :
  sameOutcome (m s) (m' s) ->
  sameOutcome (tryCatch m h s) (tryCatch m' h s).
Proof.
  unfold sameOutcome, tryCatch.
  destruct (m s) as [[a|e] s1 ev], (m' s) as [[a'|e'] s1' ev'];
    cbn [result final]; intros [Hr Hs]; try discriminate Hr.
  - split; assumption.
  - injection Hr as ->. subst s1'. split; reflexivity.
Qed.

(** Whatever the webhook does, [sendWebhook] returns and leaves the state
    alone. *)
Lemma sendWebhook_sameOutcome W W' payload payload' check check' s :
  sameOutcome (sendWebhook W payload check s)
    (sendWebhook W' payload' check' s).
Proof.
  pose proof (sendWebhook_spec W payload check s) as H.
  pose proof (sendWebhook_spec W' payload' check' s) as H'.
  unfold wp in H, H'. destruct H as (Hr & Hs & _), H' as (Hr' & Hs' & _).
  split; congruence.
Qed.

Lemma sameOutcome_seq {A B} (m m' : M A) (k k' : A -> M B) s :
  sameOutcome (m s) (m' s) ->
  (forall a s1, sameOutcome (k a s1) (k' a s1)) ->
  sameOutcome (bind m k s) (bind m' k' s).
Proof.
  unfold sameOutcome, bind.
  destruct (m s) as [[a|e] s1 ev], (m' s) as [[a'|e'] s1' ev'];
    cbn [result final]; intros [Hr Hs] H; try discriminate Hr.
  - injection Hr as ->. subst s1'. apply H.
  - injection Hr as ->. subst s1'. split; reflexivity.
Qed.

(** The composition of a block does not use the webhook. *)
Lemma tryBlock_withWebhook W fetchImport' fetchPost' b signatureData fields
    n font :
  tryBlock (withWebhook W fetchImport' fetchPost') b signatureData fields n
    font
  = tryBlock W b signatureData fields n font.
Proof.
  unfold tryBlock, addSignatureToPage, drawFields, drawKeyboardSignature,
    drawSignaturePad.
  reflexivity.
Qed.

(** A step that does not depend on the webhook, then the rest. *)
Ltac same_step := apply sameOutcome_seq; [apply sameOutcome_refl|].

(** X15. The webhook is fire and forget. The answer of [/api/sign] and of
    [/api/pdf-config], and the state they leave, are the same whether
    node-fetch can be imported or not and whatever the webhook answers or
    throws. *)
Theorem X15_the_webhook_cannot_change_an_answer
    (W : World) (fetchImport' : option JsError)
    (fetchPost' : Str -> JsVal -> JsError + FetchResponse)
    (req : RequestBody) (s : St) :
  let W' := withWebhook W fetchImport' fetchPost' in
  sameOutcome (apiSign W' req s) (apiSign W req s) /\
  sameOutcome (apiPdfConfig W' req s) (apiPdfConfig W req s).
Proof.
  intros W'. subst W'. split.
  - unfold apiSign. apply sameOutcome_tryCatch.
    destruct (negb (truthy (fullName req)) || negb (truthy (location req))
              || negb (truthy (email req))); [apply sameOutcome_refl|].
    destruct (negb (truthy (pdfId req))); [apply sameOutcome_refl|].
    same_step. intros store s1. cbv zeta.
    destruct (negb (truthy (storeGet store (pdfId req))));
      [apply sameOutcome_refl|].
    destruct (negb (truthy (optGet (storeGet store (pdfId req)) (js "pdfUrl"))));
      [apply sameOutcome_refl|].
    same_step. intros bytes s2. same_step. intros n s3.
    same_step. intros font s4.
    unfold signCompose, signBlock. rewrite !tryBlock_withWebhook.
    same_step. intros [response|] s5;
      [apply sameOutcome_refl|].
    same_step. intros [response|] s6; [apply sameOutcome_refl|].
    unfold signFinish. same_step. intros signed s7. cbv zeta.
    same_step. intros u s8.
    apply sameOutcome_seq; [apply sendWebhook_sameOutcome|].
    intros [] s9. apply sameOutcome_refl.
  - unfold apiPdfConfig. apply sameOutcome_tryCatch.
    destruct (negb (truthy (fullName req)) || negb (truthy (location req))
              || negb (truthy (email req)) || negb (truthy (signature req)));
      [apply sameOutcome_refl|].
    destruct (truthy (withdrawalAccepted req)
              && negb (truthy (withdrawalSignature req)));
      [apply sameOutcome_refl|].
    same_step. intros template s1. same_step. intros n s2.
    same_step. intros font s3. cbv zeta. rewrite !tryBlock_withWebhook.
    same_step. intros [response|] s4; [apply sameOutcome_refl|].
    same_step. intros [response|] s5; [apply sameOutcome_refl|].
    same_step. intros bytes s6. cbv zeta. same_step. intros u s7.
    apply sameOutcome_seq; [apply sendWebhook_sameOutcome|].
    intros [] s8. apply sameOutcome_refl.
Qed.
(** ** [/api/pdf-config] *)

(** Computations that leave the document store alone and whose effects
    all satisfy [P] compose. *)
Section Framed.

Variable P : Event -> bool.

Lemma framed_ret {A} (a : A) s :
  wp (ret a) s (fun _ s' ev => sameStore s s' /\ forallb P ev = true).
Proof. apply wp_ret. auto. Qed.

Lemma framed_throw {A} e s :
  wp (@throw A e) s (fun _ s' ev => sameStore s s' /\ forallb P ev = true).
Proof. apply wp_throw. auto. Qed.

Lemma framed_emit e s :
  P e = true ->
  wp (emit e) s (fun _ s' ev => sameStore s s' /\ forallb P ev = true).
Proof. intros H. apply wp_emit. cbn. now rewrite H. Qed.

Lemma framed_liftSum {A} (r : JsError + A) s :
  wp (liftSum r) s (fun _ s' ev => sameStore s s' /\ forallb P ev = true).
Proof. apply wp_liftSum; auto. Qed.

Lemma framed_liftErr (r : option JsError) s :
  wp (liftErr r) s (fun _ s' ev => sameStore s s' /\ forallb P ev = true).
Proof. apply wp_liftErr; auto. Qed.

Lemma framed_bind {A B} (m : M A) (k : A -> M B) s :
  wp m s (fun _ s' ev => sameStore s s' /\ forallb P ev = true) ->
  (forall a s1,
     wp (k a) s1 (fun _ s' ev => sameStore s1 s' /\ forallb P ev = true)) ->
  wp (bind m k) s (fun _ s' ev => sameStore s s' /\ forallb P ev = true).
Proof.
  intros Hm Hk. apply wp_bind. wp_use Hm. intros r s1 ev1 [Hs Hev].
  destruct r as [a|e]; [|auto].
  wp_use Hk. intros r s2 ev2 [Hs2 Hev2]. split.
  - eapply sameStore_trans; eassumption.
  - now rewrite forallb_app, Hev, Hev2.
Qed.

Lemma framed_tryCatch {A} (m : M A) (h : JsError -> M A) s :
  wp m s (fun _ s' ev => sameStore s s' /\ forallb P ev = true) ->
  (forall e s1,
     wp (h e) s1 (fun _ s' ev => sameStore s1 s' /\ forallb P ev = true)) ->
  wp (tryCatch m h) s (fun _ s' ev => sameStore s s' /\ forallb P ev = true).
Proof.
  intros Hm Hh. apply wp_tryCatch. wp_use Hm. intros r s1 ev1 [Hs Hev].
  destruct r as [a|e]; [auto|].
  wp_use Hh. intros r s2 ev2 [Hs2 Hev2]. split.
  - eapply sameStore_trans; eassumption.
  - now rewrite forallb_app, Hev, Hev2.
Qed.

Lemma framed_weaken {A} (Q : Event -> bool) (m : M A) s :
  (forall e, Q e = true -> P e = true) ->
  wp m s (fun _ s' ev => sameStore s s' /\ forallb Q ev = true) ->
  wp m s (fun _ s' ev => sameStore s s' /\ forallb P ev = true).
Proof.
  intros H Hm. wp_use Hm. intros r s' ev [Hs Hev]. split; [exact Hs|].
  revert Hev. now apply forallb_weaken.
Qed.

End Framed.

Lemma framed_addOp P o s :
  wp (addOp o) s (fun _ s' ev => sameStore s s' /\ forallb P ev = true).
Proof. unfold wp, addOp. cbn. split; [split|]; reflexivity. Qed.

Lemma framed_getDoc P s :
  wp getDoc s (fun _ s' ev => sameStore s s' /\ forallb P ev = true).
Proof. unfold wp, getDoc. cbn. split; [split|]; reflexivity. Qed.

Lemma framed_newDoc P s :
  wp newDoc s (fun _ s' ev => sameStore s s' /\ forallb P ev = true).
Proof. unfold wp, newDoc. cbn. split; [split|]; reflexivity. Qed.

Lemma framed_getStore P s :
  wp getStore s (fun _ s' ev => sameStore s s' /\ forallb P ev = true).
Proof. unfold wp, getStore. cbn. split; [split|]; reflexivity. Qed.

(** One step of a framed computation. *)
Ltac framed_step :=
  first [ apply framed_ret | apply framed_throw | apply framed_liftSum
        | apply framed_liftErr | apply framed_addOp | apply framed_getDoc
        | apply framed_newDoc | apply framed_getStore
        | apply framed_emit; reflexivity
        | apply framed_bind; [|intros ? ?]
        | apply framed_tryCatch; [|intros ? ?] ].

Lemma framed_drawText P W pg text x y size font s :
  wp (drawText W pg text x y size font) s
    (fun _ s' ev => sameStore s s' /\ forallb P ev = true).
Proof. unfold drawText. destruct pg; repeat framed_step. Qed.

Lemma framed_drawImage P pg image x y w h s :
  wp (drawImage pg image x y w h) s
    (fun _ s' ev => sameStore s s' /\ forallb P ev = true).
Proof. unfold drawImage. destruct pg; repeat framed_step. Qed.

Lemma framed_signatureBytes P W signatureData s :
  wp (signatureBytes W signatureData) s
    (fun _ s' ev => sameStore s s' /\ forallb P ev = true).
Proof.
  wp_use signatureBytes_cases. intros r s' ev (-> & -> & _). auto.
Qed.

Lemma framed_readFile (P : Event -> bool) W path s :
  P (EvReadFile path) = true ->
  wp (readFile W path) s (fun _ s' ev => sameStore s s' /\ forallb P ev = true).
Proof.
  intros HP. unfold readFile.
  apply framed_bind; [now apply framed_emit | intros; apply framed_liftSum].
Qed.

(** [addSignatureToPage] has no effect but on the page, and the read of
    the font file of a typed signature. *)
Lemma framed_addSignatureToPage P W pg cfg signatureData fields font s :
  (typedActive fields = true ->
   P (EvReadFile (chosenFontFile W (keyboardSignature fields))) = true) ->
  wp (addSignatureToPage W pg cfg signatureData fields font) s
    (fun _ s' ev => sameStore s s' /\ forallb P ev = true).
Proof.
  intros Hty. unfold addSignatureToPage. cbv zeta.
  apply framed_tryCatch; [|intros; apply framed_throw].
  apply framed_bind; [apply framed_drawText | intros _ s1].
  apply framed_bind.
  { unfold fieldOrder. cbn [drawFields].
    repeat (apply framed_bind; [apply framed_drawText | intros _ ?]).
    apply framed_ret. }
  intros y s2. apply framed_bind.
  { unfold drawKeyboardSignature.
    change (truthy (optGet (keyboardSignature fields) (js "text")))
      with (typedActive fields).
    fold (chosenFontFile W (keyboardSignature fields)).
    destruct (typedActive fields); [|apply framed_ret]. cbv zeta.
    apply framed_bind; [apply framed_readFile; now apply Hty | intros _ ?].
    repeat (apply framed_bind; [apply framed_drawText | intros _ ?]).
    apply framed_ret. }
  intros y' s3. unfold drawSignaturePad.
  destruct (truthy signatureData); [|apply framed_ret].
  apply framed_bind; [apply framed_drawText | intros _ s4].
  apply framed_bind; [apply framed_signatureBytes | intros bytes s5].
  apply framed_bind; [apply framed_liftErr | intros _ s6].
  apply framed_drawImage.
Qed.

Lemma framed_tryBlock P W b signatureData fields n font s :
  (typedActive fields = true ->
   P (EvReadFile (chosenFontFile W (keyboardSignature fields))) = true) ->
  (forall l t e, P (EvConsole l t e) = true) ->
  wp (tryBlock W b signatureData fields n font) s
    (fun _ s' ev => sameStore s s' /\ forallb P ev = true).
Proof.
  intros Hty HP. unfold tryBlock.
  apply framed_tryCatch.
  - apply framed_bind; [now apply framed_addSignatureToPage|].
    intros; apply framed_ret.
  - intros e s1. apply framed_bind; [apply framed_emit, HP|].
    intros; apply framed_ret.
Qed.

Lemma framed_storePdfInBucket (P : Event -> bool) W bytes dest s :
  (forall l t e, P (EvConsole l t e) = true) ->
  P (EvGcsSave (BUCKET_NAME W) dest bytes) = true ->
  P (EvGcsMakePublic (BUCKET_NAME W) dest) = true ->
  wp (storePdfInBucket W bytes dest) s
    (fun _ s' ev => sameStore s s' /\ forallb P ev = true).
Proof.
  intros Hc Hs Hm. unfold storePdfInBucket.
  apply framed_tryCatch.
  - apply framed_bind; [now apply framed_emit | intros _ s1].
    apply framed_bind; [apply framed_liftErr | intros _ s2].
    apply framed_bind; [apply framed_emit, Hc | intros _ s3].
    destruct (MAKE_PUBLIC W); [|apply framed_ret].
    apply framed_bind; [now apply framed_emit | intros _ s4].
    apply framed_bind; [apply framed_liftErr | intros _ s5].
    apply framed_bind; [apply framed_emit, Hc | intros _ s6].
    apply framed_ret.
  - intros e s1. apply framed_bind; [apply framed_emit, Hc | intros _ s2].
    apply framed_throw.
Qed.

Lemma framed_sendWebhook (P : Event -> bool) W payload check s :
  (forall l t e, P (EvConsole l t e) = true) ->
  P (EvFetch WEBHOOK_URL payload) = true ->
  wp (sendWebhook W payload check) s
    (fun _ s' ev => sameStore s s' /\ forallb P ev = true).
Proof.
  intros Hc Hf. unfold sendWebhook.
  apply framed_tryCatch.
  - apply framed_bind; [apply framed_liftErr | intros _ s1].
    apply framed_bind; [now apply framed_emit | intros _ s2].
    apply framed_bind; [apply framed_liftSum | intros response s3].
    destruct (check && negb (ok response));
      [apply framed_emit, Hc | apply framed_ret].
  - intros e s1. apply framed_emit, Hc.
Qed.
Lemma configFields_untyped W req (Q : Prop) :
  typedActive (configFields W req) = true -> Q.
Proof. discriminate. Qed.

(** X16. What [/api/pdf-config] touches. It leaves the document store
    and its file as they are and downloads nothing; the one file it
    reads is the template (never a font file: the contract it fills
    has no typed signature); what it uploads goes to the configured
    bucket under [contracts/ausbildungsvertrag_<uuid>.pdf]; what it posts
    goes to the fixed webhook address. *)
Theorem X16_what_pdf_config_touches
    (W : World) (req : RequestBody) (s : St) :
  let o := apiPdfConfig W req s in
  sameStore s (final o) /\
  (forall e, In e (effects o) ->
     match e with
     | EvConsole _ _ _ => True
     | EvReadFile p => p = templatePath W
     | EvGcsSave b d _ | EvGcsMakePublic b d =>
         b = BUCKET_NAME W /\ d = contractName W
     | EvFetch u _ => u = WEBHOOK_URL
     | EvWriteFile _ _ | EvGcsDownload _ _ => False
     end).
Proof.
  intros o.
  set (P := fun e =>
    match e with
    | EvConsole _ _ _ => true
    | EvReadFile p => str_eqb p (templatePath W)
    | EvGcsSave b d _ | EvGcsMakePublic b d =>
        str_eqb b (BUCKET_NAME W) && str_eqb d (contractName W)
    | EvFetch u _ => str_eqb u WEBHOOK_URL
    | EvWriteFile _ _ | EvGcsDownload _ _ => false
    end).
  assert (Hc : forall l t e, P (EvConsole l t e) = true) by reflexivity.
  assert (H : wp (apiPdfConfig W req) s
                (fun _ s' ev => sameStore s s' /\ forallb P ev = true)).
  { unfold apiPdfConfig. apply framed_tryCatch.
    2:{ intros e s1. apply framed_bind; [apply framed_emit, Hc|].
        intros; apply framed_ret. }
    destruct (negb (truthy (fullName req)) || negb (truthy (location req))
              || negb (truthy (email req)) || negb (truthy (signature req)));
      [apply framed_ret|].
    destruct (truthy (withdrawalAccepted req)
              && negb (truthy (withdrawalSignature req)));
      [apply framed_ret|].
    apply framed_bind.
    { apply framed_readFile. cbn. apply str_eqb_refl. }
    intros template s1. apply framed_bind.
    { unfold loadPdf. repeat framed_step. }
    intros n s2. apply framed_bind.
    { unfold embedHelvetica. repeat framed_step. }
    intros font s3. cbv zeta. apply framed_bind.
    { destruct (truthy (withdrawalAccepted req)
                && truthy (withdrawalSignature req));
        [apply framed_tryBlock; [apply configFields_untyped | exact Hc]
        |apply framed_ret]. }
    intros [response|] s4; [apply framed_ret|]. apply framed_bind.
    { destruct (truthy (signature req));
        [apply framed_tryBlock; [apply configFields_untyped | exact Hc]
        |apply framed_ret]. }
    intros [response|] s5; [apply framed_ret|]. apply framed_bind.
    { unfold savePdf. repeat framed_step. }
    intros bytes s6. fold (contractName W). apply framed_bind.
    { apply framed_storePdfInBucket; [exact Hc | |];
        cbn; now rewrite !str_eqb_refl. }
    intros u s7. apply framed_bind.
    { apply framed_sendWebhook; [exact Hc | apply str_eqb_refl]. }
    intros; apply framed_ret. }
  unfold wp in H. fold o in H. destruct H as [Hs Hev].
  split; [exact Hs|]. intros e He.
  rewrite forallb_forall in Hev. specialize (Hev e He).
  destruct e as [l t err|p|p c|b p|b p c|b p|u pl]; cbn in Hev;
    try exact I; try discriminate Hev.
  - now apply str_eqb_eq.
  - apply andb_true_iff in Hev as [H1 H2]. split; now apply str_eqb_eq.
  - apply andb_true_iff in Hev as [H1 H2]. split; now apply str_eqb_eq.
  - now apply str_eqb_eq.
Qed.
Lemma config_missing (req : RequestBody) :
  negb (truthy (fullName req)) || negb (truthy (location req))
  || negb (truthy (email req)) || negb (truthy (signature req))
  = negb (hasTextFields req && truthy (signature req)).
Proof.
  unfold hasTextFields.
  destruct (truthy (fullName req)), (truthy (location req)),
    (truthy (email req)), (truthy (signature req)); reflexivity.
Qed.

(** The answers of [/api/pdf-config], by the stage the request reaches. *)
Lemma apiPdfConfig_answers W req s :
  wp (apiPdfConfig W req) s (fun r s' ev =>
    exists response, r = Ok response /\
    if negb (hasTextFields req && truthy (signature req)) then
      response = jsonError 400 msgAllFields /\ ev = [] /\ s' = s
    else if truthy (withdrawalAccepted req)
            && negb (truthy (withdrawalSignature req)) then
      response = jsonError 400 msgWithdrawalMissing /\ ev = [] /\ s' = s
    else
      hd_error ev = Some (EvReadFile (templatePath W)) /\
      (statusCode response = 200%Z \/ statusCode response = 500%Z) /\
      (statusCode response = 200%Z ->
       exists template n pc signed,
         fsReadFile W (templatePath W) = inr template /\
         pdfLoad W template = inr n /\
         pageAt n (page (blockConfig W Contract)) = Some pc /\
         (truthy (withdrawalAccepted req) = false ->
          doc s' = onPage pc (configBlock W req Contract)) /\
         (truthy (withdrawalAccepted req) = true ->
          exists pw,
            pageAt n (page (blockConfig W Withdrawal)) = Some pw /\
            doc s' = onPage pw (configBlock W req Withdrawal)
                     ++ onPage pc (configBlock W req Contract)) /\
         pdfSave W template (doc s') = inr signed /\
         In (EvGcsSave (BUCKET_NAME W) (contractName W) signed) ev /\
         response
         = jsonOk (VObj [(js "pdfUrl",
                          VStr (formatLocation (BUCKET_NAME W)
                                  (contractName W) (MAKE_PUBLIC W)))]))).
Proof.
  unfold apiPdfConfig. rewrite config_missing.
  destruct (hasTextFields req && truthy (signature req)) eqn:Hf; cbn [negb].
  2:{ apply wp_tryCatch, wp_ret. eauto. }
  destruct (truthy (withdrawalAccepted req)
            && negb (truthy (withdrawalSignature req))) eqn:Hw.
  { apply wp_tryCatch, wp_ret. eauto. }
  apply andb_true_iff in Hf as [_ Hsig]. rewrite Hsig.
  apply wp_tryCatch.
  (* what is left to show after the template was read *)
  apply (@wp_conseq _ _ _ (fun r s' ev =>
    hd_error ev = Some (EvReadFile (templatePath W)) /\
    match r with
    | Throw _ => True
    | Ok response =>
      (statusCode response = 200%Z \/ statusCode response = 500%Z) /\
      (statusCode response = 200%Z ->
       exists template n pc signed,
         fsReadFile W (templatePath W) = inr template /\
         pdfLoad W template = inr n /\
         pageAt n (page (blockConfig W Contract)) = Some pc /\
         (truthy (withdrawalAccepted req) = false ->
          doc s' = onPage pc (configBlock W req Contract)) /\
         (truthy (withdrawalAccepted req) = true ->
          exists pw,
            pageAt n (page (blockConfig W Withdrawal)) = Some pw /\
            doc s' = onPage pw (configBlock W req Withdrawal)
                     ++ onPage pc (configBlock W req Contract)) /\
         pdfSave W template (doc s') = inr signed /\
         In (EvGcsSave (BUCKET_NAME W) (contractName W) signed) ev /\
         response
         = jsonOk (VObj [(js "pdfUrl",
                          VStr (formatLocation (BUCKET_NAME W)
                                  (contractName W) (MAKE_PUBLIC W)))]))
    end)).
  2:{ intros [response|e] s' ev [Hhd Hr]; [eauto|].
      apply wp_bind, wp_emit, wp_ret. eexists. split; [reflexivity|].
      conj.
      - destruct ev; [discriminate Hhd | exact Hhd].
      - right. reflexivity.
      - discriminate. }
  apply wp_bind. wp_use readFile_spec. intros r s1 ev1 (-> & -> & ->).
  destruct (fsReadFile W (templatePath W)) as [e|template] eqn:Hread;
    [split; [reflexivity | exact I]|].
  (* from here on the first effect is fixed *)
  match goal with |- wp ?m ?s0 _ =>
    apply (@wp_conseq _ _ _ (fun r s' ev =>
      match r with
      | Throw _ => True
      | Ok response =>
        (statusCode response = 200%Z \/ statusCode response = 500%Z) /\
        (statusCode response = 200%Z ->
         exists n pc signed,
           pdfLoad W template = inr n /\
           pageAt n (page (blockConfig W Contract)) = Some pc /\
           (truthy (withdrawalAccepted req) = false ->
            doc s' = onPage pc (configBlock W req Contract)) /\
           (truthy (withdrawalAccepted req) = true ->
            exists pw,
              pageAt n (page (blockConfig W Withdrawal)) = Some pw /\
              doc s' = onPage pw (configBlock W req Withdrawal)
                       ++ onPage pc (configBlock W req Contract)) /\
           pdfSave W template (doc s') = inr signed /\
           In (EvGcsSave (BUCKET_NAME W) (contractName W) signed) ev /\
           response
           = jsonOk (VObj [(js "pdfUrl",
                            VStr (formatLocation (BUCKET_NAME W)
                                    (contractName W) (MAKE_PUBLIC W)))]))
      end))
  end.
  2:{ intros [response|e] s' ev Hr; (split; [reflexivity|]); [|exact I].
      destruct Hr as [Hst Hok]. split; [exact Hst|]. intros H200.
      destruct (Hok H200) as (n & pc & signed & H1 & H2 & H3 & H4 & H5 & H6 & H7).
      exists template, n, pc, signed. conj; auto. now right. }
  apply wp_bind. wp_use loadPdf_spec. intros r s1 ev1 [-> Hr].
  destruct r as [n|e]; [|exact I]. destruct Hr as [Hload ->].
  apply wp_bind. wp_use embedHelvetica_spec. intros r s1 ev1 (-> & -> & Hr).
  destruct r as [font|e]; [|exact I]. destruct Hr as [-> _].
  cbv zeta. cbn [app].
  (* the contract block and what follows it *)
  match goal with |- wp (bind _ ?k) _ _ =>
    assert (Htail : forall s1,
      wp (k None) s1 (fun r s' ev =>
        match r with
        | Throw _ => True
        | Ok response =>
          (statusCode response = 200%Z \/ statusCode response = 500%Z) /\
          (statusCode response = 200%Z ->
           exists pc signed,
             pageAt n (page (blockConfig W Contract)) = Some pc /\
             doc s' = doc s1 ++ onPage pc (configBlock W req Contract) /\
             pdfSave W template (doc s') = inr signed /\
             In (EvGcsSave (BUCKET_NAME W) (contractName W) signed) ev /\
             response
             = jsonOk (VObj [(js "pdfUrl",
                              VStr (formatLocation (BUCKET_NAME W)
                                      (contractName W) (MAKE_PUBLIC W)))]))
        end))
  end.
  { intros s1. cbv beta iota. apply wp_bind. wp_use tryBlock_spec.
    intros r s2 ev2 [_ Hr]. destruct r as [[response|]|e]; [| |contradiction].
    { destruct Hr as [[m ->] _]. apply wp_ret.
      split; [right; reflexivity | discriminate]. }
    destruct Hr as [(pc & Hpc & ->) _].
    apply wp_bind. unfold savePdf. apply wp_bind.
    unfold wp at 1, getDoc. cbn [result final effects]. apply wp_liftSum.
    { intros e He. exact I. }
    intros signed Hsigned. fold (contractName W).
    apply wp_bind. wp_use storePdfInBucket_spec.
    intros r s3 ev3 (-> & _ & Hr). destruct r as [u|e]; [|exact I].
    destruct Hr as [-> Hin].
    apply wp_bind. wp_use sendWebhook_spec. intros r s3 ev4 (-> & -> & _).
    apply wp_ret. split; [left; reflexivity|]. intros _.
    exists pc, signed. conj.
    - exact Hpc.
    - reflexivity.
    - exact Hsigned.
    - apply in_or_app. right. cbn [app]. apply in_or_app. now left.
    - reflexivity. }
  apply wp_bind.
  destruct (truthy (withdrawalAccepted req)) eqn:Hwa; cbn [andb] in Hw |- *.
  - apply negb_false_iff in Hw. rewrite Hw.
    wp_use tryBlock_spec. intros r s1 ev1 [_ Hr].
    destruct r as [[response|]|e]; [| |contradiction].
    { destruct Hr as [[m ->] _]. apply wp_ret.
      split; [right; reflexivity | discriminate]. }
    destruct Hr as [(pw & Hpw & ->) _].
    wp_use Htail. intros [response|e] s2 ev2 Hr; [|exact I].
    destruct Hr as [Hst Hok]. split; [exact Hst|]. intros H200.
    destruct (Hok H200) as (pc & signed & Hpc & Hdoc & Hsigned & Hin & ->).
    exists n, pc, signed. conj; auto.
    + discriminate.
    + intros _. exists pw. split; [exact Hpw | exact Hdoc].
    + apply in_or_app. now right.
  - apply wp_ret.
    wp_use Htail. intros [response|e] s2 ev2 Hr; [|exact I].
    destruct Hr as [Hst Hok]. split; [exact Hst|]. intros H200.
    destruct (Hok H200) as (pc & signed & Hpc & Hdoc & Hsigned & Hin & ->).
    exists n, pc, signed. conj; auto. discriminate.
Qed.
(** X17. [/api/pdf-config] answers 400 exactly when [fullName],
    [location], [email] or [signature] is missing or empty, or the
    withdrawal was accepted without a withdrawal signature. A 400 comes
    before any effect and leaves the state alone; every other request
    gets as far as reading the template, and is answered 200 or 500. *)
Theorem X17_pdf_config_validation
    (W : World) (req : RequestBody) (s : St) :
  let o := apiPdfConfig W req s in
  exists response,
    result o = Ok response /\
    (statusCode response = 400%Z <->
     hasTextFields req && truthy (signature req) = false \/
     truthy (withdrawalAccepted req) = true /\
     truthy (withdrawalSignature req) = false) /\
    (statusCode response = 400%Z -> effects o = [] /\ final o = s) /\
    (statusCode response <> 400%Z ->
     hd_error (effects o) = Some (EvReadFile (templatePath W)) /\
     (statusCode response = 200%Z \/ statusCode response = 500%Z)).
Proof.
  intros o.
  pose proof (apiPdfConfig_answers W req s) as H. unfold wp in H.
  fold o in H. destruct H as (response & Hr & H).
  exists response. split; [exact Hr|].
  destruct (hasTextFields req && truthy (signature req)); cbn [negb] in H.
  2:{ destruct H as (-> & Hev & Hs). cbn.
      intuition (auto; try discriminate; congruence). }
  destruct (truthy (withdrawalAccepted req)); cbn [andb] in H;
    [destruct (truthy (withdrawalSignature req)); cbn [negb] in H|].
  2:{ destruct H as (-> & Hev & Hs). cbn.
      intuition (auto; try discriminate; congruence). }
  all: destruct H as (Hhd & [Hst|Hst] & _); rewrite Hst;
    intuition (auto; try discriminate; congruence).
Qed.

(** X18. What a successful [/api/pdf-config] has produced. The template
    was read and loaded; its pages received the withdrawal block first,
    when the withdrawal was accepted, and then the contract block, each
    with the drawn signature sent for it and the date of the request or,
    without one, of the day; nothing else was drawn. The serialisation
    of that document was uploaded under
    [contracts/ausbildungsvertrag_<uuid>.pdf], and the answer carries the
    location of the upload. *)
Theorem X18_what_a_successful_pdf_config_has_produced
    (W : World) (req : RequestBody) (s : St) (response : Response) :
  let o := apiPdfConfig W req s in
  result o = Ok response ->
  statusCode response = 200%Z ->
  exists template n pc signed,
    fsReadFile W (templatePath W) = inr template /\
    pdfLoad W template = inr n /\
    pageAt n (page (blockConfig W Contract)) = Some pc /\
    (truthy (withdrawalAccepted req) = false ->
     doc (final o) = onPage pc (configBlock W req Contract)) /\
    (truthy (withdrawalAccepted req) = true ->
     exists pw,
       pageAt n (page (blockConfig W Withdrawal)) = Some pw /\
       doc (final o)
       = onPage pw (configBlock W req Withdrawal)
         ++ onPage pc (configBlock W req Contract)) /\
    pdfSave W template (doc (final o)) = inr signed /\
    In (EvGcsSave (BUCKET_NAME W) (contractName W) signed) (effects o) /\
    response
    = jsonOk (VObj [(js "pdfUrl",
                     VStr (formatLocation (BUCKET_NAME W) (contractName W)
                             (MAKE_PUBLIC W)))]).
Proof.
  intros o Hr H200.
  pose proof (apiPdfConfig_answers W req s) as H. unfold wp in H.
  fold o in H. destruct H as (response' & Hr' & H).
  assert (response' = response) by congruence. subst response'.
  destruct (negb (hasTextFields req && truthy (signature req))).
  { destruct H as (-> & _). discriminate H200. }
  destruct (truthy (withdrawalAccepted req)
            && negb (truthy (withdrawalSignature req))).
  { destruct H as (-> & _). discriminate H200. }
  destruct H as (_ & _ & H). exact (H H200).
Qed.

(** X18, witness: Jane Doe configures a contract with a drawn signature,
    the withdrawal not accepted. *)
Lemma X18_witness :
  let req := Sample.request Sample.png VUndefined VUndefined VUndefined
               VUndefined in
  let o := apiPdfConfig Sample.world req Sample.state in
  exists pc, doc (final o) = onPage pc (configBlock Sample.world req Contract).
Proof.
  intros req o.
  assert (Hr : result o
    = Ok (jsonOk (VObj [(js "pdfUrl",
            VStr (js "gs://good/contracts/ausbildungsvertrag_0b7e1c9a-5d1f-4c55-9a39-7f1f2c1d8e10.pdf"))])))
    by (vm_compute; reflexivity).
  destruct (@X18_what_a_successful_pdf_config_has_produced Sample.world req
              Sample.state _ Hr eq_refl)
    as (template & n & pc & signed & _ & _ & _ & Hdoc & _).
  exists pc. apply Hdoc. reflexivity.
Defined.
(** ** [/api/pdf-upload] and the document store *)

(** [savePdfStore] never throws and never writes: the path it hands to
    [fs.writeFile] is [undefined], the call is refused, and the error is
    logged. *)
Lemma savePdfStore_cases W s :
  wp (savePdfStore W) s (fun r s' ev =>
    r = Ok tt /\ s' = s /\
    ev = [EvConsole LError (js "Error saving PDF store:")
            (Some invalidPathError)]).
Proof.
  unfold savePdfStore. apply wp_bind. unfold wp at 1, getStore.
  cbn [result final effects]. apply wp_tryCatch.
  unfold PDF_STORE_PATH, writeStoreAt. apply wp_throw, wp_emit.
  destruct s. auto.
Qed.

Lemma storePdfInBucket_effects W bytes dest s :
  wp (storePdfInBucket W bytes dest) s (fun r s' ev =>
    s' = s /\
    hd_error ev = Some (EvGcsSave (BUCKET_NAME W) dest bytes) /\
    existsb isWriteFile ev = false).
Proof.
  wp_use storePdfInBucket_cases. cbv zeta. intros r s' ev [-> H].
  split; [reflexivity|].
  destruct (gcsSave W (BUCKET_NAME W) dest bytes).
  { destruct H as (_ & t & ->). split; reflexivity. }
  destruct (MAKE_PUBLIC W).
  - destruct (gcsMakePublic W (BUCKET_NAME W) dest);
      destruct H as (_ & t & t' & ->); split; reflexivity.
  - destruct H as (_ & t & ->). split; reflexivity.
Qed.

(** The answers of [/api/pdf-upload], by the stage the request reaches. *)
Lemma apiPdfUpload_cases W req s :
  wp (apiPdfUpload W req) s (fun r s' ev =>
    exists response, r = Ok response /\
    if unauthorized W req then
      response = jsonError 401 (js "Unauthorized") /\ ev = [] /\ s' = s
    else
      match uploadedBytes W req with
      | None =>
          response
          = mkResponse 400 (VStr (js "No PDF file or base64 data provided")) /\
          ev = [] /\ s' = s
      | Some (inl e) =>
          response = jsonError 500 (message e) /\ s' = s /\
          forallb isConsole ev = true
      | Some (inr bytes) => uploaded W req s bytes response s' ev
      end).
Proof.
  unfold apiPdfUpload, uploadedBytes.
  destruct (unauthorized W req); [apply wp_ret; eauto|].
  apply wp_tryCatch. cbv zeta.
  (* the steps after the document is at hand; [tail] is what the catch
     block logs *)
  match goal with
  | |- wp (match file req with Some b => @?k b | None => _ end) _ _ =>
    assert (Hcont : forall bytes,
      wp (k bytes) s (fun r s' ev =>
        forall tail, existsb isWriteFile tail = false ->
        uploaded W req s bytes
          (match r with
           | Ok response => response
           | Throw e => jsonError 500 (message e)
           end) s' (ev ++ tail)))
  end.
  { intros bytes. cbv beta. fold (uploadedName W). apply wp_bind.
    eapply wp_conseq;
      [apply wp_and; [apply wp_self | apply storePdfInBucket_effects]|].
    cbv beta. intros r s1 ev1 [(-> & _ & _) (-> & Hhd & Hnw)].
    assert (Hhd' : forall tail,
      hd_error (ev1 ++ tail)
      = Some (EvGcsSave (BUCKET_NAME W) (uploadedName W) bytes))
      by (intros tail; destruct ev1; [discriminate Hhd | exact Hhd]).
    unfold uploaded.
    destruct (result (storePdfInBucket W bytes (uploadedName W) s))
      as [u|e].
    2:{ intros tail Ht. conj; auto.
        apply existsb_app_false; assumption. }
    apply wp_bind, wp_liftSum.
    { intros e He tail Ht. rewrite He, app_nil_r. conj; auto.
      apply existsb_app_false; assumption. }
    intros [[vorname card_id] email] Hparams. rewrite Hparams.
    cbv beta iota.
    apply wp_bind. unfold wp at 1, getStore. cbn [result final effects].
    apply wp_bind. unfold wp at 1, setStore. cbn [result final effects].
    apply wp_bind. wp_use savePdfStore_cases.
    intros r s2 ev2 (-> & -> & ->). apply wp_ret. intros tail Ht.
    cbn [pdfStore storeFile doc]. rewrite <- !app_assoc. conj; auto.
    - apply existsb_app_false; [exact Hnw | exact Ht].
    - apply in_or_app. right. now left. }
  assert (Hfin : forall bytes (r : Res Response) s' ev,
    (forall tail, existsb isWriteFile tail = false ->
       uploaded W req s bytes
         (match r with
          | Ok response => response
          | Throw e => jsonError 500 (message e)
          end) s' (ev ++ tail)) ->
    match r with
    | Ok a =>
        exists response, Ok a = Ok response /\
          uploaded W req s bytes response s' ev
    | Throw e =>
        wp (console LError (js "Error processing PDF upload:") (Some e);;;
            ret (jsonError 500 (message e))) s'
          (fun r' s'' ev' =>
             exists response, r' = Ok response /\
               uploaded W req s bytes response s'' (ev ++ ev'))
    end).
  { intros bytes [a|e] s' ev H.
    - exists a. split; [reflexivity|].
      rewrite <- (app_nil_r ev). now apply H.
    - apply wp_bind, wp_emit, wp_ret. eexists. split; [reflexivity|].
      rewrite app_nil_r. now apply H. }
  destruct (file req) as [buffer|].
  - wp_use Hcont. intros r s' ev H. exact (Hfin buffer r s' ev H).
  - destruct (truthy (base64 (uploadBody req))); [|apply wp_ret; eauto].
    apply wp_bind, wp_liftSum.
    { intros e He. rewrite He. apply wp_bind, wp_emit, wp_ret.
      eexists. split; [reflexivity|]. conj; reflexivity. }
    intros bytes Hb. rewrite Hb.
    wp_use Hcont. intros r s' ev H. exact (Hfin bytes r s' ev H).
Qed.

Lemma unauthorized_spec W req :
  unauthorized W req = false <->
  exists k, k <> [] /\ apiKey req = Some k /\ API_KEY W = Some k.
Proof.
  unfold unauthorized.
  destruct (apiKey req) as [[|c k]|], (API_KEY W) as [k'|]; split;
    try discriminate;
    try (intros (k0 & H0 & H1 & H2); congruence).
  - intros H. apply negb_false_iff, str_eqb_eq in H. subst k'.
    exists (c :: k). conj; [discriminate | reflexivity | reflexivity].
  - intros (k0 & H0 & H1 & H2). apply negb_false_iff, str_eqb_eq. congruence.
Qed.

Lemma lookup_storeSet_same store k r : lookup k (storeSet store k r) = Some r.
Proof.
  induction store as [|[k' v] store IH]; cbn [storeSet lookup].
  - now rewrite str_eqb_refl.
  - destruct (str_eqb k k') eqn:E; cbn [lookup]; rewrite E; auto.
Qed.

Lemma lookup_storeSet_other store k k' r :
  k' <> k -> lookup k' (storeSet store k r) = lookup k' store.
Proof.
  intros Hk. induction store as [|[k0 v] store IH]; cbn [storeSet lookup].
  - apply str_eqb_neq in Hk. now rewrite Hk.
  - destruct (str_eqb k k0) eqn:E; cbn [lookup].
    + apply str_eqb_eq in E. subst k0. apply str_eqb_neq in Hk.
      now rewrite Hk.
    + now rewrite IH.
Qed.

(** X19. The two early answers of [/api/pdf-upload]. It answers 401
    exactly when the request has no [x-api-key] header, an empty one, or
    one that is not the configured [API_KEY]; with no [API_KEY]
    configured every request is refused. It answers 400 exactly when the
    key is right and the request has neither a file nor a [base64]
    field. Both answers come before any effect and leave the state
    alone. *)
Theorem X19_upload_early_answers
    (W : World) (req : UploadRequest) (s : St) :
  let o := apiPdfUpload W req s in
  exists response,
    result o = Ok response /\
    (statusCode response = 401%Z <->
     ~ exists k, k <> [] /\ apiKey req = Some k /\ API_KEY W = Some k) /\
    (API_KEY W = None -> response = jsonError 401 (js "Unauthorized")) /\
    (statusCode response = 400%Z <->
     unauthorized W req = false /\ uploadedBytes W req = None) /\
    (statusCode response = 401%Z \/ statusCode response = 400%Z ->
     effects o = [] /\ final o = s).
Proof.
  intros o.
  pose proof (apiPdfUpload_cases W req s) as H. unfold wp in H.
  fold o in H. destruct H as (response & Hr & H).
  exists response. split; [exact Hr|].
  pose proof (unauthorized_spec W req) as Hu.
  assert (Hnokey : API_KEY W = None -> unauthorized W req = true).
  { intros Hk. unfold unauthorized. rewrite Hk.
    destruct (apiKey req) as [[|c k]|]; reflexivity. }
  destruct (unauthorized W req).
  { destruct H as (-> & Hev & Hs). cbn.
    intuition (auto; try discriminate; try congruence). }
  assert (Hauth : exists k, k <> [] /\ apiKey req = Some k /\ API_KEY W = Some k)
    by now apply Hu.
  assert (Hk : API_KEY W = None -> False)
    by (intros Hk; specialize (Hnokey Hk); discriminate Hnokey).
  destruct (uploadedBytes W req) as [[e|bytes]|].
  - destruct H as (-> & Hs & Hev). cbn.
    intuition (auto; try discriminate; try congruence).
  - destruct H as (_ & _ & _ & _ & H).
    destruct (result (storePdfInBucket W bytes (uploadedName W) s)) as [u|e];
      [destruct (urlSearchParams W (webhookUrl (uploadBody req)))
         as [e|params]|];
      destruct H as (-> & _); cbn;
      intuition (auto; try discriminate; try congruence).
  - destruct H as (-> & Hev & Hs). cbn.
    intuition (auto; try discriminate; try congruence).
Qed.

(** X20. What a successful [/api/pdf-upload] has recorded. The document
    was saved first, in the configured bucket under
    [uploads/uploaded_<uuid>.pdf]; the answer carries its location and
    the sign URL [/sign/<uuid>]; [pdfStore] now holds, under the uuid,
    the record with that location, the fixed webhook address and the
    three parameters of the [webhookUrl] field, and every other id leads
    to what it led to before. *)
Theorem X20_what_a_successful_upload_has_recorded
    (W : World) (req : UploadRequest) (s : St) (response : Response) :
  let o := apiPdfUpload W req s in
  let u :=
    formatLocation (BUCKET_NAME W) (uploadedName W) (MAKE_PUBLIC W) in
  result o = Ok response ->
  statusCode response = 200%Z ->
  exists bytes params,
    uploadedBytes W req = Some (inr bytes) /\
    urlSearchParams W (webhookUrl (uploadBody req)) = inr params /\
    response = uploadAnswer W u /\
    hd_error (effects o)
    = Some (EvGcsSave (BUCKET_NAME W) (uploadedName W) bytes) /\
    storeGet (pdfStore (final o)) (VStr (uuidv4 W)) = uploadRecord W u params /\
    (forall id,
       toStr id <> uuidv4 W ->
       storeGet (pdfStore (final o)) id = storeGet (pdfStore s) id) /\
    doc (final o) = doc s.
Proof.
  intros o u Hr H200.
  pose proof (apiPdfUpload_cases W req s) as H. unfold wp in H.
  fold o in H. destruct H as (response' & Hr' & H).
  assert (response' = response) by congruence. subst response'.
  destruct (unauthorized W req).
  { destruct H as (-> & _). discriminate H200. }
  destruct (uploadedBytes W req) as [[e|bytes]|].
  { destruct H as (-> & _). discriminate H200. }
  2:{ destruct H as (-> & _). discriminate H200. }
  destruct H as (Hhd & _ & _ & Hdoc & H).
  pose proof (storePdfInBucket_spec W bytes (uploadedName W) s) as Hu.
  unfold wp in Hu. destruct Hu as (_ & _ & Hu).
  destruct (result (storePdfInBucket W bytes (uploadedName W) s)) as [u'|e].
  2:{ destruct H as (-> & _). discriminate H200. }
  destruct Hu as [-> _]. fold u in H.
  destruct (urlSearchParams W (webhookUrl (uploadBody req))) as [e|params].
  { destruct H as (-> & _). discriminate H200. }
  destruct H as (-> & Hstore & _).
  exists bytes, params. conj; auto.
  - rewrite Hstore. unfold storeGet. cbn [toStr].
    now rewrite lookup_storeSet_same.
  - intros id Hid. rewrite Hstore. unfold storeGet.
    now rewrite lookup_storeSet_other.
Qed.

(** X20, witness: a file uploaded with the right key is found under its
    uuid. *)
Lemma X20_witness :
  let o := apiPdfUpload Sample.world
             (Scene.upload (Some (js "secret")) (Some Sample.pdfBytes)
                VUndefined) Sample.state in
  exists record,
    storeGet (pdfStore (final o)) (VStr (uuidv4 Sample.world)) = record /\
    optGet record (js "pdfUrl")
    = VStr (js "gs://good/uploads/uploaded_0b7e1c9a-5d1f-4c55-9a39-7f1f2c1d8e10.pdf").
Proof.
  intros o.
  assert (Hr : result o
    = Ok (uploadAnswer Sample.world
            (js "gs://good/uploads/uploaded_0b7e1c9a-5d1f-4c55-9a39-7f1f2c1d8e10.pdf")))
    by (vm_compute; reflexivity).
  destruct (@X20_what_a_successful_upload_has_recorded Sample.world
              (Scene.upload (Some (js "secret")) (Some Sample.pdfBytes)
                 VUndefined) Sample.state _ Hr eq_refl)
    as (bytes & params & _ & Hp & _ & _ & Hget & _).
  eexists. split; [exact Hget|].
  destruct params as [[vorname card_id] email]. reflexivity.
Defined.
(** X21. The store file is never written, and the upload does not fail
    for it. [PDF_STORE_PATH] is [undefined] when [savePdfStore] runs, so
    [fs.writeFile] refuses the call before it touches the disk; the
    error is caught and logged. Whatever the request to
    [/api/pdf-upload], the file is afterwards what it was and no write
    was attempted; an upload answered 200 has logged the refused write
    and keeps its record in memory only. *)
Theorem X21_the_store_file_is_never_written
    (W : World) (req : UploadRequest) (s : St) :
  let o := apiPdfUpload W req s in
  storeFile (final o) = storeFile s /\
  existsb isWriteFile (effects o) = false /\
  forall response,
    result o = Ok response ->
    statusCode response = 200%Z ->
    In (EvConsole LError (js "Error saving PDF store:")
          (Some invalidPathError)) (effects o) /\
    storeGet (pdfStore (final o)) (VStr (uuidv4 W)) <> VUndefined.
Proof.
  intros o.
  pose proof (apiPdfUpload_cases W req s) as H. unfold wp in H.
  fold o in H. destruct H as (response' & Hr' & H).
  assert (Hconsole : forall ev,
    forallb isConsole ev = true -> existsb isWriteFile ev = false).
  { induction ev as [|e ev IH]; [reflexivity|]. cbn.
    intros He. apply andb_true_iff in He as [He Hev].
    rewrite (IH Hev). now destruct e. }
  destruct (unauthorized W req).
  { destruct H as (-> & -> & ->). conj; auto.
    intros response Hr H200. rewrite Hr' in Hr. inversion Hr. subst.
    discriminate H200. }
  destruct (uploadedBytes W req) as [[e|bytes]|].
  - destruct H as (-> & -> & Hev). conj; auto.
    intros response Hr H200. rewrite Hr' in Hr. inversion Hr. subst.
    discriminate H200.
  - destruct H as (_ & Hnw & Hfile & _ & H). conj; auto.
    intros response Hr H200. rewrite Hr' in Hr. inversion Hr. subst.
    destruct (result (storePdfInBucket W bytes (uploadedName W) s)) as [u|e].
    2:{ destruct H as (-> & _). discriminate H200. }
    destruct (urlSearchParams W (webhookUrl (uploadBody req)))
      as [e|params].
    { destruct H as (-> & _). discriminate H200. }
    destruct H as (_ & Hstore & Hin). split; [exact Hin|].
    rewrite Hstore. unfold storeGet. cbn [toStr].
    rewrite lookup_storeSet_same.
    destruct params as [[vorname card_id] email]. discriminate.
  - destruct H as (-> & -> & ->). conj; auto.
    intros response Hr H200. rewrite Hr' in Hr. inversion Hr. subst.
    discriminate H200.
Qed.

(** X21, at work: the upload to the sample deployment is answered 200,
    the file keeps its one record and the memory has two. *)
Lemma X21_witness :
  let o := apiPdfUpload Sample.world
             (Scene.upload (Some (js "secret")) (Some Sample.pdfBytes)
                VUndefined) Sample.state in
  storeFile (final o) = storeFile Sample.state /\
  existsb isWriteFile (effects o) = false /\
  In (EvConsole LError (js "Error saving PDF store:")
        (Some invalidPathError)) (effects o) /\
  List.length (pdfStore (final o)) = 2%nat.
Proof.
  intros o.
  assert (Hr : result o
    = Ok (uploadAnswer Sample.world
            (js "gs://good/uploads/uploaded_0b7e1c9a-5d1f-4c55-9a39-7f1f2c1d8e10.pdf")))
    by (vm_compute; reflexivity).
  destruct (@X21_the_store_file_is_never_written Sample.world
              (Scene.upload (Some (js "secret")) (Some Sample.pdfBytes)
                 VUndefined) Sample.state)
    as (Hfile & Hnw & H).
  destruct (H _ Hr eq_refl) as [Hin _].
  conj; [exact Hfile | exact Hnw | exact Hin | vm_compute; reflexivity].
Defined.
(** X22. The blob is uploaded before the [webhookUrl] field is parsed.
    When the document was saved in the bucket and [new URL(webhookUrl)]
    then throws, the answer is 500 with the message of that error, no
    record is kept and the store file is not written: the blob stays in
    the bucket with nothing leading to it. *)
Theorem X22_a_rejected_webhook_url_leaves_a_blob_behind
    (W : World) (req : UploadRequest) (s : St) (bytes : Bytes) (u : Str)
    (e : JsError) :
  unauthorized W req = false ->
  uploadedBytes W req = Some (inr bytes) ->
  result (storePdfInBucket W bytes (uploadedName W) s) = Ok u ->
  urlSearchParams W (webhookUrl (uploadBody req)) = inl e ->
  let o := apiPdfUpload W req s in
  result o = Ok (jsonError 500 (message e)) /\
  final o = s /\
  hd_error (effects o)
  = Some (EvGcsSave (BUCKET_NAME W) (uploadedName W) bytes) /\
  existsb isWriteFile (effects o) = false.
Proof.
  intros Hauth Hbytes Hu Hparams o.
  pose proof (apiPdfUpload_cases W req s) as H. unfold wp in H.
  fold o in H. destruct H as (response & Hr & H).
  rewrite Hauth, Hbytes in H. unfold uploaded in H.
  rewrite Hu, Hparams in H.
  destruct H as (Hhd & Hnw & _ & _ & -> & Hs). auto.
Qed.

(** X22, witness: a file sent with a [webhookUrl] that is not a URL. *)
Lemma X22_witness :
  let o := apiPdfUpload Scene.badWebhookUrl
             (Scene.upload (Some (js "secret")) (Some Sample.pdfBytes)
                VUndefined) Sample.state in
  result o = Ok (jsonError 500 (js "Invalid URL")) /\
  existsb isUpload (effects o) = true /\
  final o = Sample.state.
Proof.
  intros o.
  destruct (@X22_a_rejected_webhook_url_leaves_a_blob_behind
              Scene.badWebhookUrl
              (Scene.upload (Some (js "secret")) (Some Sample.pdfBytes)
                 VUndefined)
              Sample.state Sample.pdfBytes
              (js "gs://good/uploads/uploaded_0b7e1c9a-5d1f-4c55-9a39-7f1f2c1d8e10.pdf")
              (newError (js "Invalid URL")))
    as (Hr & Hs & Hhd & _); try (vm_compute; reflexivity).
  fold o in Hr, Hs, Hhd. conj; [exact Hr | | exact Hs].
  destruct (effects o) as [|ev0 evs]; [discriminate Hhd|].
  injection Hhd as ->. reflexivity.
Defined.
(** ** Start-up *)

(** X23. Start-up loads nothing. [loadInitialPdfStore] reads
    [PDF_STORE_PATH], which is [undefined] at that time, so
    [fs.readFile] rejects the call with an error whose code is not
    [ENOENT]: the error is logged as critical, no file is read, parsed
    or created, and the process goes on with the store it has, the empty
    one after a restart, whatever [pdfStore.json] holds. *)
Theorem X23_startup_loads_nothing
    (W : World) (jsonParse : Bytes -> JsError + list (Str * JsVal))
    (s : St) :
  let o := loadInitialPdfStore W jsonParse s in
  result o = Ok tt /\
  final o = s /\
  effects o
  = [EvConsole LError (js "CRITICAL: Error loading PDF store on startup:")
       (Some invalidPathError)] /\
  pdfStore (final (loadInitialPdfStore W jsonParse (restarted s))) = [].
Proof.
  assert (H : forall s0,
    wp (loadInitialPdfStore W jsonParse) s0 (fun r s' ev =>
      r = Ok tt /\ s' = s0 /\
      ev = [EvConsole LError
              (js "CRITICAL: Error loading PDF store on startup:")
              (Some invalidPathError)])).
  { intros s0. unfold loadInitialPdfStore. apply wp_tryCatch.
    unfold PDF_STORE_PATH, readFileAt. apply wp_bind, wp_throw.
    change (isEnoent invalidPathError) with false. cbv iota.
    apply wp_emit. auto. }
  intros o. pose proof (H s) as Hs. pose proof (H (restarted s)) as Hr.
  unfold wp in Hs, Hr. fold o in Hs.
  destruct Hs as (H1 & H2 & H3), Hr as (_ & -> & _). auto.
Qed.

(** A successful upload, in full. *)
Lemma apiPdfUpload_success W req s response :
  let o := apiPdfUpload W req s in
  let u := formatLocation (BUCKET_NAME W) (uploadedName W) (MAKE_PUBLIC W) in
  result o = Ok response ->
  statusCode response = 200%Z ->
  exists params,
    pdfStore (final o)
    = storeSet (pdfStore s) (uuidv4 W) (uploadRecord W u params) /\
    storeFile (final o) = storeFile s.
Proof.
  intros o u Hr H200.
  pose proof (apiPdfUpload_cases W req s) as H. unfold wp in H.
  fold o in H. destruct H as (response' & Hr' & H).
  assert (response' = response) by congruence. subst response'.
  destruct (unauthorized W req).
  { destruct H as (-> & _). discriminate H200. }
  destruct (uploadedBytes W req) as [[e|bytes]|].
  { destruct H as (-> & _). discriminate H200. }
  2:{ destruct H as (-> & _). discriminate H200. }
  destruct H as (_ & _ & Hfile & _ & H).
  pose proof (storePdfInBucket_spec W bytes (uploadedName W) s) as Hu.
  unfold wp in Hu. destruct Hu as (_ & _ & Hu).
  destruct (result (storePdfInBucket W bytes (uploadedName W) s)) as [u'|e].
  2:{ destruct H as (-> & _). discriminate H200. }
  destruct Hu as [-> _]. fold u in H.
  destruct (urlSearchParams W (webhookUrl (uploadBody req))) as [e|params].
  { destruct H as (-> & _). discriminate H200. }
  destruct H as (_ & Hstore & _).
  exists params. split; [exact Hstore | exact Hfile].
Qed.

(** X24. An upload does not survive a restart. The record of an upload
    answered 200 is in memory only: after a restart and the start-up
    that follows, the store is empty, [pdfStore.json] is what it was
    before the upload, and [/api/sign] answers 404 to the uuid the
    upload gave out although the blob is still in the bucket. (A uuid is
    not the name of a property of [Object.prototype].) *)
Theorem X24_an_upload_is_forgotten_at_restart
    (W : World) (jsonParse : Bytes -> JsError + list (Str * JsVal))
    (up : UploadRequest) (req : RequestBody) (s : St)
    (response : Response) :
  let o := apiPdfUpload W up s in
  result o = Ok response ->
  statusCode response = 200%Z ->
  hasTextFields req = true ->
  pdfId req = VStr (uuidv4 W) ->
  uuidv4 W <> [] ->
  ~ In (uuidv4 W) objectPrototypeKeys ->
  let s1 := final (loadInitialPdfStore W jsonParse (restarted (final o))) in
  let o1 := apiSign W req s1 in
  truthy (storeGet (pdfStore (final o)) (pdfId req)) = true /\
  pdfStore s1 = [] /\
  storeFile s1 = storeFile s /\
  result o1 = Ok (jsonError 404 msgPdfNotFound) /\
  effects o1 = [].
Proof.
  intros o Hr H200 Hf Hid Hne Hproto s1 o1.
  destruct (apiPdfUpload_success W up s Hr H200) as (params & Hstore & Hfile).
  fold o in Hstore, Hfile.
  assert (Hs1 : s1 = restarted (final o)).
  { unfold s1, loadInitialPdfStore, PDF_STORE_PATH, readFileAt.
    reflexivity. }
  assert (Hget : storeGet (pdfStore s1) (pdfId req) = VUndefined).
  { rewrite Hs1, Hid. unfold storeGet, restarted. cbn [pdfStore toStr lookup].
    destruct (existsb (str_eqb (uuidv4 W)) objectPrototypeKeys) eqn:E;
      [|reflexivity].
    apply existsb_exists in E as (k & Hk & E). apply str_eqb_eq in E.
    subst k. contradiction. }
  conj.
  - rewrite Hstore, Hid. unfold storeGet. cbn [toStr].
    rewrite lookup_storeSet_same.
    destruct params as [[vorname card_id] email]. reflexivity.
  - now rewrite Hs1.
  - now rewrite Hs1.
  - pose proof (apiSign_answers W req s1) as H. unfold wp in H.
    fold o1 in H. destruct H as (r & Hres & H). cbv zeta in H.
    rewrite Hf, Hget, Hid in H. cbn [negb truthy] in H.
    destruct (uuidv4 W) as [|c u]; [now destruct Hne|].
    cbn in H. destruct H as (-> & _). exact Hres.
  - pose proof (apiSign_answers W req s1) as H. unfold wp in H.
    fold o1 in H. destruct H as (r & Hres & H). cbv zeta in H.
    rewrite Hf, Hget, Hid in H. cbn [negb truthy] in H.
    destruct (uuidv4 W) as [|c u]; [now destruct Hne|].
    cbn in H. now destruct H as (_ & -> & _).
Qed.

(** X24, at work: the document uploaded to the sample deployment is
    found before the restart and not after it. *)
Lemma X24_witness :
  let up := Scene.upload (Some (js "secret")) (Some Sample.pdfBytes)
              VUndefined in
  let req :=
    mkRequestBody (VStr (js "Jane Doe")) (VStr (js "Berlin"))
      (VStr (js "j@x.com")) Sample.png VUndefined VUndefined
      (VStr (uuidv4 Sample.world)) VUndefined VUndefined VUndefined
      VUndefined VUndefined in
  let o := apiPdfUpload Sample.world up Sample.state in
  let s1 := final (loadInitialPdfStore Sample.world (fun _ => inr [])
                     (restarted (final o))) in
  truthy (storeGet (pdfStore (final o)) (pdfId req)) = true /\
  pdfStore s1 = [] /\
  storeFile s1 = Some Sample.store /\
  result (apiSign Sample.world req s1) = Ok (jsonError 404 msgPdfNotFound) /\
  effects (apiSign Sample.world req s1) = [].
Proof.
  intros up req o s1.
  assert (Hr : result o
    = Ok (uploadAnswer Sample.world
            (js "gs://good/uploads/uploaded_0b7e1c9a-5d1f-4c55-9a39-7f1f2c1d8e10.pdf")))
    by (vm_compute; reflexivity).
  assert (Hne : uuidv4 Sample.world <> []) by discriminate.
  assert (Hproto : ~ In (uuidv4 Sample.world) objectPrototypeKeys).
  { intros H. repeat (destruct H as [H|H]; [discriminate H|]). exact H. }
  exact (@X24_an_upload_is_forgotten_at_restart Sample.world
           (fun _ => inr []) up req Sample.state _
           Hr eq_refl eq_refl eq_refl Hne Hproto).
Defined.
(** ** From upload to signature *)

Lemma hd_prefix {A} (x : Event) ev (m : M A) s :
  hd_error ev = Some x ->
  wp m s (fun _ _ ev' => hd_error (ev ++ ev') = Some x).
Proof.
  intros H. unfold wp. destruct ev; [discriminate H | exact H].
Qed.

Lemma pathOk_uploadedName W : pathOk (uuidv4 W) -> pathOk (uploadedName W).
Proof.
  intros [_ H]. unfold uploadedName. split; [discriminate|].
  apply Forall_app. split; [repeat constructor|].
  apply Forall_app. split; [exact H | repeat constructor].
Qed.

(** The location [storePdfInBucket] gives for a name leads
    [downloadPdfFromGcs] to that name in the configured bucket. *)
Lemma download_of_location W dest s :
  bucketOk (BUCKET_NAME W) -> pathOk dest ->
  wp (downloadPdfFromGcs W
        (VStr (formatLocation (BUCKET_NAME W) dest (MAKE_PUBLIC W)))) s
    (fun _ _ ev => hd_error ev = Some (EvGcsDownload (BUCKET_NAME W) dest)).
Proof.
  intros HB Hd.
  pose proof (locationParts_format (MAKE_PUBLIC W) HB Hd) as Hparts.
  unfold downloadPdfFromGcs. apply wp_tryCatch. wp_use downloadBody_calls.
  intros r s1 ev1 [-> [(_ & _ & Hno)|(u' & p & Hv & Hp & Hf & Hh & ->)]].
  - exfalso. exact (Hno _ dest eq_refl Hparts).
  - inversion Hv. subst u'. rewrite Hparts in Hp. inversion Hp. subst p.
    destruct (gcsDownload W (BUCKET_NAME W) dest) as [e|c];
      [now apply hd_prefix | exact Hh].
Qed.

(** X26. An uploaded document can be signed. After an upload that was
    answered 200, a request to [/api/sign] with the three text fields
    and the uuid of the upload as [pdfId] finds the record and its
    location, and the first thing it does is to fetch, from the
    configured bucket, the blob the upload saved. This needs a bucket
    name without a slash and a uuid without a line terminator. *)
Theorem X26_an_uploaded_document_can_be_signed
    (W : World) (up : UploadRequest) (req : RequestBody) (s : St)
    (response : Response) :
  bucketOk (BUCKET_NAME W) ->
  pathOk (uuidv4 W) ->
  let o := apiPdfUpload W up s in
  result o = Ok response ->
  statusCode response = 200%Z ->
  hasTextFields req = true ->
  pdfId req = VStr (uuidv4 W) ->
  hd_error (effects (apiSign W req (final o)))
  = Some (EvGcsDownload (BUCKET_NAME W) (uploadedName W)).
Proof.
  intros HB Hid o Hr H200 Hf Hpdf.
  destruct (apiPdfUpload_success W up s Hr H200) as (params & Hstore & _).
  fold o in Hstore.
  set (u := formatLocation (BUCKET_NAME W) (uploadedName W) (MAKE_PUBLIC W))
    in Hstore.
  assert (Hget : storeGet (pdfStore (final o)) (pdfId req)
                 = uploadRecord W u params).
  { rewrite Hstore, Hpdf. unfold storeGet. cbn [toStr].
    now rewrite lookup_storeSet_same. }
  assert (Hurl : optGet (uploadRecord W u params) (js "pdfUrl") = VStr u)
    by (destruct params as [[vorname card_id] email]; reflexivity).
  assert (Hrec : truthy (uploadRecord W u params) = true)
    by (destruct params as [[vorname card_id] email]; reflexivity).
  assert (Hu : truthy (VStr u) = true)
    by (unfold u, formatLocation; destruct (MAKE_PUBLIC W); reflexivity).
  assert (Htid : truthy (pdfId req) = true).
  { rewrite Hpdf. destruct Hid as [H0 _]. cbn.
    destruct (uuidv4 W); [now destruct H0 | reflexivity]. }
  change (wp (apiSign W req) (final o) (fun _ _ ev =>
    hd_error ev = Some (EvGcsDownload (BUCKET_NAME W) (uploadedName W)))).
  unfold apiSign. apply wp_tryCatch.
  apply (@wp_conseq _ _ _ (fun _ _ ev =>
    hd_error ev = Some (EvGcsDownload (BUCKET_NAME W) (uploadedName W)))).
  2:{ intros [a|e] s' ev H; [exact H | now apply hd_prefix]. }
  rewrite (hasTextFields_true _ Hf), Htid. cbn [negb].
  apply wp_bind. unfold wp at 1, getStore. cbn [result final effects].
  cbv zeta. rewrite Hget, Hurl, Hrec, Hu. cbn [negb app].
  apply wp_bind.
  eapply wp_conseq;
    [apply (@download_of_location W (uploadedName W) _ HB
              (@pathOk_uploadedName W Hid))
    | cbv beta].
  intros [bytes|e] s1 ev1 H; [now apply hd_prefix | exact H].
Qed.

(** X26, witness: the document uploaded in the sample deployment, signed
    by Jane Doe. *)
Lemma X26_witness :
  let o := apiPdfUpload Sample.world
             (Scene.upload (Some (js "secret")) (Some Sample.pdfBytes)
                VUndefined) Sample.state in
  let req :=
    mkRequestBody (VStr (js "Jane Doe")) (VStr (js "Berlin"))
      (VStr (js "j@x.com")) Sample.png VUndefined VUndefined
      (VStr (uuidv4 Sample.world)) VUndefined VUndefined VUndefined
      VUndefined VUndefined in
  hd_error (effects (apiSign Sample.world req (final o)))
  = Some (EvGcsDownload (js "good")
            (js "uploads/uploaded_0b7e1c9a-5d1f-4c55-9a39-7f1f2c1d8e10.pdf")).
Proof.
  intros o req.
  assert (HB : bucketOk (BUCKET_NAME Sample.world))
    by (split; [discriminate | repeat constructor; discriminate]).
  assert (Hid : pathOk (uuidv4 Sample.world))
    by (split; [discriminate | repeat constructor]).
  assert (Hr : result o
    = Ok (uploadAnswer Sample.world
            (js "gs://good/uploads/uploaded_0b7e1c9a-5d1f-4c55-9a39-7f1f2c1d8e10.pdf")))
    by (vm_compute; reflexivity).
  exact (@X26_an_uploaded_document_can_be_signed Sample.world
           (Scene.upload (Some (js "secret")) (Some Sample.pdfBytes)
              VUndefined)
           req Sample.state _ HB Hid Hr eq_refl eq_refl eq_refl).
Defined.
(** ** What the handlers touch *)

Lemma framed_downloadPdfFromGcs (P : Event -> bool) W v s :
  (forall l t e, P (EvConsole l t e) = true) ->
  (forall p, P (EvGcsDownload (BUCKET_NAME W) p) = true) ->
  wp (downloadPdfFromGcs W v) s
    (fun _ s' ev => sameStore s s' /\ forallb P ev = true).
Proof.
  intros Hc Hd. unfold downloadPdfFromGcs. apply framed_tryCatch.
  - unfold downloadBody.
    destruct v as [| |b|n|u|xs|fs]; try apply framed_throw.
    apply framed_bind.
    { unfold parseLocation.
      destruct (startsWith gsPrefix u).
      { destruct (matchGs u) as [[b p]|];
          [apply framed_ret | apply framed_throw]. }
      destruct (startsWith httpsPrefix u); [|apply framed_throw].
      destruct (matchHttps u) as [[b p]|]; [|apply framed_throw].
      destruct (negb (str_eqb b (BUCKET_NAME W))); [|apply framed_ret].
      apply framed_bind; [apply framed_emit, Hc | intros _ ?].
      apply framed_throw. }
    intros [b p] s1.
    destruct (negb (str_eqb b (BUCKET_NAME W))) eqn:E.
    { apply framed_bind; [apply framed_emit, Hc | intros _ ?].
      apply framed_throw. }
    apply negb_false_iff, str_eqb_eq in E. subst b.
    apply framed_bind; [apply framed_emit, Hd | intros _ ?].
    apply framed_bind; [apply framed_liftSum | intros c ?].
    apply framed_bind; [apply framed_emit, Hc | intros _ ?].
    apply framed_ret.
  - intros e s1. unfold downloadCatch.
    apply framed_bind; [apply framed_emit, Hc | intros _ ?].
    destruct (_ || _); [|destruct (_ || _)]; apply framed_throw.
Qed.

Lemma chosenFontFile_cases W kb :
  chosenFontFile W kb = fontFile W (js "DancingScript-Regular.ttf") \/
  chosenFontFile W kb = fontFile W (js "BarlowSemiCondensed-Regular.ttf").
Proof.
  unfold chosenFontFile. destruct (strictEqStr _ _); auto.
Qed.

(** X27. What [/api/sign] touches. It leaves the document store and its
    file as they are. The only files it reads are the two font files
    under [public/fonts], whatever the [font] of a typed signature says;
    it downloads from the configured bucket only, uploads only under
    [signed/signed_<pdfId>.pdf] in that bucket, and posts only to the
    fixed webhook address. *)
Theorem X27_what_sign_touches
    (W : World) (req : RequestBody) (s : St) :
  let o := apiSign W req s in
  sameStore s (final o) /\
  (forall e, In e (effects o) ->
     match e with
     | EvConsole _ _ _ => True
     | EvReadFile p =>
         p = fontFile W (js "DancingScript-Regular.ttf") \/
         p = fontFile W (js "BarlowSemiCondensed-Regular.ttf")
     | EvGcsDownload b _ => b = BUCKET_NAME W
     | EvGcsSave b d _ | EvGcsMakePublic b d =>
         b = BUCKET_NAME W /\ d = signedName req
     | EvFetch u _ => u = WEBHOOK_URL
     | EvWriteFile _ _ => False
     end).
Proof.
  intros o.
  set (P := fun e =>
    match e with
    | EvConsole _ _ _ => true
    | EvReadFile p =>
        str_eqb p (fontFile W (js "DancingScript-Regular.ttf"))
        || str_eqb p (fontFile W (js "BarlowSemiCondensed-Regular.ttf"))
    | EvGcsDownload b _ => str_eqb b (BUCKET_NAME W)
    | EvGcsSave b d _ | EvGcsMakePublic b d =>
        str_eqb b (BUCKET_NAME W) && str_eqb d (signedName req)
    | EvFetch u _ => str_eqb u WEBHOOK_URL
    | EvWriteFile _ _ => false
    end).
  assert (Hc : forall l t e, P (EvConsole l t e) = true) by reflexivity.
  assert (Hfont : forall kb, P (EvReadFile (chosenFontFile W kb)) = true).
  { intros kb. cbn. destruct (chosenFontFile_cases W kb) as [-> | ->];
      rewrite str_eqb_refl; [reflexivity | apply orb_true_r]. }
  assert (H : wp (apiSign W req) s
                (fun _ s' ev => sameStore s s' /\ forallb P ev = true)).
  { unfold apiSign. apply framed_tryCatch.
    2:{ intros e s1. apply framed_bind; [apply framed_emit, Hc|].
        intros; apply framed_ret. }
    destruct (negb (truthy (fullName req)) || negb (truthy (location req))
              || negb (truthy (email req))); [apply framed_ret|].
    destruct (negb (truthy (pdfId req))); [apply framed_ret|].
    apply framed_bind; [apply framed_getStore | intros store s1].
    cbv zeta.
    destruct (negb (truthy (storeGet store (pdfId req))));
      [apply framed_ret|].
    destruct (negb (truthy (optGet (storeGet store (pdfId req))
                              (js "pdfUrl")))).
    { apply framed_bind; [apply framed_emit, Hc | intros; apply framed_ret]. }
    apply framed_bind.
    { apply framed_downloadPdfFromGcs; [exact Hc|].
      intros p. cbn. apply str_eqb_refl. }
    intros bytes s2. apply framed_bind.
    { unfold loadPdf. repeat framed_step. }
    intros n s3. apply framed_bind.
    { unfold embedHelvetica. repeat framed_step. }
    intros font s4. unfold signCompose, signBlock. apply framed_bind.
    { apply framed_tryBlock; [intros _; apply Hfont | exact Hc]. }
    intros [response|] s5; [apply framed_ret|]. apply framed_bind.
    { destruct (truthy (withdrawalAccepted req)); [|apply framed_ret].
      apply framed_tryBlock; [intros _; apply Hfont | exact Hc]. }
    intros [response|] s6; [apply framed_ret|].
    unfold signFinish. apply framed_bind.
    { unfold savePdf. repeat framed_step. }
    intros signed s7. cbv zeta. fold (signedName req). apply framed_bind.
    { apply framed_storePdfInBucket; [exact Hc | |];
        cbn; now rewrite !str_eqb_refl. }
    intros u s8. apply framed_bind.
    { apply framed_sendWebhook; [exact Hc | apply str_eqb_refl]. }
    intros; apply framed_ret. }
  unfold wp in H. fold o in H. destruct H as [Hs Hev].
  split; [exact Hs|]. intros e He.
  rewrite forallb_forall in Hev. specialize (Hev e He).
  destruct e as [l t err|p|p c|b p|b p c|b p|u pl]; cbn in Hev;
    try exact I; try discriminate Hev.
  - apply orb_true_iff in Hev as [H|H]; apply str_eqb_eq in H; auto.
  - now apply str_eqb_eq.
  - apply andb_true_iff in Hev as [H1 H2]. split; now apply str_eqb_eq.
  - apply andb_true_iff in Hev as [H1 H2]. split; now apply str_eqb_eq.
  - now apply str_eqb_eq.
Qed.

(** The effects of a computation all satisfy [P]. *)
Lemma events_bind {A B} (P : Event -> bool) (m : M A) (k : A -> M B) s :
  wp m s (fun _ _ ev => forallb P ev = true) ->
  (forall a s1, wp (k a) s1 (fun _ _ ev => forallb P ev = true)) ->
  wp (bind m k) s (fun _ _ ev => forallb P ev = true).
Proof.
  intros Hm Hk. apply wp_bind. wp_use Hm. intros r s1 ev1 Hev.
  destruct r as [a|e]; [|exact Hev].
  wp_use Hk. intros r s2 ev2 Hev2. now rewrite forallb_app, Hev, Hev2.
Qed.

Lemma events_tryCatch {A} (P : Event -> bool) (m : M A) (h : JsError -> M A)
    s :
  wp m s (fun _ _ ev => forallb P ev = true) ->
  (forall e s1, wp (h e) s1 (fun _ _ ev => forallb P ev = true)) ->
  wp (tryCatch m h) s (fun _ _ ev => forallb P ev = true).
Proof.
  intros Hm Hh. apply wp_tryCatch. wp_use Hm. intros r s1 ev1 Hev.
  destruct r as [a|e]; [exact Hev|].
  wp_use Hh. intros r s2 ev2 Hev2. now rewrite forallb_app, Hev, Hev2.
Qed.

Lemma events_of_framed {A} (P : Event -> bool) (m : M A) s :
  wp m s (fun _ s' ev => sameStore s s' /\ forallb P ev = true) ->
  wp m s (fun _ _ ev => forallb P ev = true).
Proof. intros H. wp_use H. now intros r s' ev [_ Hev]. Qed.

(** X28. What [/api/pdf-upload] touches. It reads no file, downloads
    nothing and, although it keeps a webhook address in the record,
    posts nothing. What it uploads goes to the configured bucket under
    [uploads/uploaded_<uuid>.pdf]. It writes no file: the one write it
    asks for, that of [pdfStore.json], is refused for its [undefined]
    path before the disk is touched. *)
Theorem X28_what_upload_touches
    (W : World) (req : UploadRequest) (s : St) :
  Forall (fun e =>
            match e with
            | EvConsole _ _ _ => True
            | EvGcsSave b d _ | EvGcsMakePublic b d =>
                b = BUCKET_NAME W /\ d = uploadedName W
            | EvWriteFile _ _ | EvReadFile _ | EvGcsDownload _ _
            | EvFetch _ _ => False
            end)
    (effects (apiPdfUpload W req s)).
Proof.
  set (P := fun e =>
    match e with
    | EvConsole _ _ _ => true
    | EvGcsSave b d _ | EvGcsMakePublic b d =>
        str_eqb b (BUCKET_NAME W) && str_eqb d (uploadedName W)
    | EvWriteFile _ _ | EvReadFile _ | EvGcsDownload _ _
    | EvFetch _ _ => false
    end).
  assert (Hc : forall l t e, P (EvConsole l t e) = true) by reflexivity.
  assert (H : wp (apiPdfUpload W req) s
                (fun _ _ ev => forallb P ev = true)).
  { unfold apiPdfUpload.
    destruct (unauthorized W req); [now apply wp_ret|].
    apply events_tryCatch.
    2:{ intros e s1. apply events_bind; [apply wp_emit; reflexivity|].
        intros; now apply wp_ret. }
    cbv zeta.
    match goal with
    | |- wp (match file req with Some b => @?k b | None => _ end) _ _ =>
      assert (Hcont : forall bytes s1,
        wp (k bytes) s1 (fun _ _ ev => forallb P ev = true))
    end.
    { intros bytes s1. cbv beta. fold (uploadedName W).
      apply events_bind.
      { apply events_of_framed, framed_storePdfInBucket; [exact Hc | |];
          cbn; now rewrite !str_eqb_refl. }
      intros u s2. apply events_bind; [now apply wp_liftSum|].
      intros [[vorname card_id] email] s3. cbv beta iota.
      apply events_bind; [reflexivity | intros store s4].
      apply events_bind; [reflexivity | intros _ s5].
      apply events_bind; [|intros; now apply wp_ret].
      wp_use savePdfStore_cases. now intros r s6 ev (_ & _ & ->). }
    destruct (file req) as [buffer|]; [apply Hcont|].
    destruct (truthy (base64 (uploadBody req))); [|now apply wp_ret].
    apply events_bind; [now apply wp_liftSum | intros; apply Hcont]. }
  unfold wp in H. apply Forall_forall. intros e He.
  rewrite forallb_forall in H. specialize (H e He).
  destruct e as [l t err|p|p c|b p|b p c|b p|u pl]; cbn in H;
    try exact I; try discriminate H.
  - apply andb_true_iff in H as [H1 H2]. split; now apply str_eqb_eq.
  - apply andb_true_iff in H as [H1 H2]. split; now apply str_eqb_eq.
Qed.
